(** * Knowledge-graph link generator: keyword extraction and pairwise links

    A shallow embedding of the route handler that generates knowledge-graph
    links (functions [extractKeywords], [calculateSimilarity] and [POST]),
    followed by the properties of its specification.

    Modelling conventions.
    - JavaScript values are the inductive type [value]; the values read from
      JSON (request body, [summary_json] column) are its constructors.
    - A JavaScript number is a [number]: a finite value carried as an exact
      rational, or [NaN], or an infinity.  Rounding of IEEE doubles and the
      sign of zero are not represented.
    - A JavaScript string is a [string] whose characters are the code units
      U+0000 to U+00FF.
    - A JavaScript [Set] of strings is a duplicate-free list in insertion
      order, which is the order a [Set] iterates in.
    - Exceptions are the [Throw] case of [Completion]; [try]/[catch] is
      [try_catch].  The two loops are written from state to state, so that
      the list and the counter they hold when an exception interrupts them
      are known.
    - Calls to the logger are dropped: they return nothing and change
      nothing. *)

From Stdlib Require Import List String Ascii Bool Arith Lia QArith ZArith.
From Stdlib Require Import DecimalString.
From Equations Require Import Equations.
Import ListNotations.
Open Scope string_scope.
Open Scope nat_scope.
Open Scope list_scope.

Set Implicit Arguments.
Set Warnings "-register-all".

(* ===================================================================== *)
(** ** Numbers *)
(* ===================================================================== *)

Inductive number : Type :=
| Num (q : Q)
| NaN
| PosInf
| NegInf.

Definition of_length (n : nat) : number := Num (inject_Z (Z.of_nat n)).

(** [a >= b] on numbers: false as soon as one side is [NaN]. *)
Definition num_ge (a b : number) : bool :=
  match a, b with
  | NaN, _ | _, NaN => false
  | Num x, Num y => Qle_bool y x
  | PosInf, _ => true
  | _, NegInf => true
  | Num _, PosInf => false
  | NegInf, _ => false
  end.

(** [a + b]. *)
Definition num_add (a b : number) : number :=
  match a, b with
  | NaN, _ | _, NaN => NaN
  | Num x, Num y => Num (x + y)%Q
  | PosInf, NegInf | NegInf, PosInf => NaN
  | PosInf, _ | _, PosInf => PosInf
  | NegInf, _ | _, NegInf => NegInf
  end.

(** [Math.min(a, b)]. *)
Definition num_min (a b : number) : number :=
  match a, b with
  | NaN, _ | _, NaN => NaN
  | NegInf, _ | _, NegInf => NegInf
  | PosInf, y => y
  | x, PosInf => x
  | Num x, Num y => if Qle_bool x y then Num x else Num y
  end.

(** [a / b] for two array lengths, that is for two non-negative integers:
    [0 / 0] is [NaN], and a positive length over [0] is [Infinity]. *)
Definition div_length (a b : nat) : number :=
  match b with
  | O => match a with O => NaN | S _ => PosInf end
  | S _ => Num (Z.of_nat a # Pos.of_nat b)
  end.

(** Truthiness of a number: [0] and [NaN] are falsy. *)
Definition num_truthy (n : number) : bool :=
  match n with
  | Num q => negb (Qeq_bool q 0)
  | NaN => false
  | PosInf | NegInf => true
  end.

(* ===================================================================== *)
(** ** Values *)
(* ===================================================================== *)

Inductive value : Type :=
| Undefined
| Null
| Boolean (b : bool)
| Number (n : number)
| Str (s : string)
| Array (elements : list value)
| Object (fields : list (string * value)).

(** Truthiness: the falsy values are [undefined], [null], [false], [0],
    [NaN] and the empty string. *)
Definition truthy (v : value) : bool :=
  match v with
  | Undefined | Null => false
  | Boolean b => b
  | Number n => num_truthy n
  | Str s => negb (String.eqb s "")
  | Array _ | Object _ => true
  end.

(** [a || b]. *)
Definition js_or (a b : value) : value := if truthy a then a else b.

(** [Array.isArray(v)]. *)
Definition isArray (v : value) : bool :=
  match v with Array _ => true | _ => false end.

(** Own property of an object read from JSON. *)
Fixpoint lookup (key : string) (fields : list (string * value)) : value :=
  match fields with
  | [] => Undefined
  | (k, v) :: rest => if String.eqb k key then v else lookup key rest
  end.

(** Errors that are thrown or returned by the storage client.  [is_Error]
    is the outcome of [e instanceof Error]. *)
Record JsError : Type := mkError {
  err_message : option string;
  is_Error : bool
}.

Definition TypeError (msg : string) : JsError := mkError (Some msg) true.

(** The outcome of an evaluation: a value, or something thrown. *)
Inductive Result (E A : Type) : Type :=
| Normal (a : A)
| Throw (e : E).
Arguments Normal {E A} a.
Arguments Throw {E A} e.

(** A completion of the language: what is thrown is an error. *)
Abbreviation Completion := (Result JsError).

Definition bind {E A B} (c : Result E A) (k : A -> Result E B) : Result E B :=
  match c with
  | Normal a => k a
  | Throw e => Throw e
  end.

Declare Scope completion_scope.
Delimit Scope completion_scope with completion.
Notation "x <- c1 ;; c2" := (bind c1 (fun x => c2))
  (at level 61, c1 at next level, right associativity) : completion_scope.
Open Scope completion_scope.

(** [try { body } catch (error) { handler }]. *)
Definition try_catch {E E' A} (body : Result E A) (handler : E -> Result E' A)
  : Result E' A :=
  match body with
  | Normal a => Normal a
  | Throw e => handler e
  end.

(** [v.key] for a property name that no built-in prototype defines (the
    names read by this program are [key_points], [main_ideas],
    [minSimilarity] and [maxLinks]): reading from [undefined] or [null]
    throws, a primitive or an array has no such property. *)
Definition getProperty (v : value) (key : string) : Completion value :=
  match v with
  | Undefined =>
      Throw (TypeError ("Cannot read properties of undefined (reading '" ++ key ++ "')")%string)
  | Null =>
      Throw (TypeError ("Cannot read properties of null (reading '" ++ key ++ "')")%string)
  | Object fields => Normal (lookup key fields)
  | Boolean _ | Number _ | Str _ | Array _ => Normal Undefined
  end.

(** [v?.key], same restriction on [key]. *)
Definition getOptional (v : value) (key : string) : value :=
  match v with
  | Object fields => lookup key fields
  | _ => Undefined
  end.

(* ===================================================================== *)
(** ** Sets of strings *)
(* ===================================================================== *)

Module JsSet.

Definition t : Type := list string.

Definition has (s : t) (k : string) : bool := existsb (String.eqb k) s.

Definition add (s : t) (k : string) : t := if has s k then s else (s ++ [k]).

(** [new Set(items)] *)
Definition of_list (items : list string) : t := fold_left add items [].

(** [[...s]] *)
Definition to_list (s : t) : list string := s.

Definition size (s : t) : nat := List.length s.

End JsSet.

(* ===================================================================== *)
(** ** Strings *)
(* ===================================================================== *)

Definition code (c : ascii) : nat := nat_of_ascii c.

Definition between (lo hi : nat) (c : ascii) : bool :=
  (lo <=? code c) && (code c <=? hi).

(** [String.prototype.toLowerCase] on one code unit below U+0100: the
    letters A-Z, and the upper-case letters U+00C0-U+00DE except the
    multiplication sign U+00D7. *)
Definition lower_char (c : ascii) : ascii :=
  if between 65 90 c then ascii_of_nat (code c + 32)
  else if between 192 222 c && negb (code c =? 215) then ascii_of_nat (code c + 32)
  else c.

Fixpoint toLowerCase (s : string) : string :=
  match s with
  | EmptyString => EmptyString
  | String c rest => String (lower_char c) (toLowerCase rest)
  end.

(** The class [\w]: [[A-Za-z0-9_]]. *)
Definition is_word_char (c : ascii) : bool :=
  between 97 122 c || between 65 90 c || between 48 57 c || (code c =? 95).

(** The class [\s] below U+0100: tab, line feed, vertical tab, form feed,
    carriage return, space and no-break space. *)
Definition is_space (c : ascii) : bool :=
  between 9 13 c || (code c =? 32) || (code c =? 160).

(** [s.replace(/[^\w\s]/g, ' ')] *)
Fixpoint replace_punctuation (s : string) : string :=
  match s with
  | EmptyString => EmptyString
  | String c rest =>
      String (if is_word_char c || is_space c then c else " "%char)
             (replace_punctuation rest)
  end.

(** [s.split(/\s+/)]: [cur] is the piece being read, [in_run] tells that
    the previous character belonged to a separator.  A separator at either
    end of the string leaves an empty piece there, and the empty string
    splits into one empty piece. *)
Fixpoint split_from (s : string) (cur : string) (in_run : bool) : list string :=
  match s with
  | EmptyString => [cur]
  | String c rest =>
      if is_space c then
        if in_run then split_from rest EmptyString true
        else cur :: split_from rest EmptyString true
      else split_from rest (cur ++ String c EmptyString)%string false
  end.

Definition split_whitespace (s : string) : list string :=
  split_from s EmptyString false.

(** [haystack.includes(needle)] *)
Fixpoint includes (haystack needle : string) : bool :=
  prefix needle haystack
  || match haystack with
     | EmptyString => false
     | String _ rest => includes rest needle
     end.

(* ===================================================================== *)
(** ** extractKeywords *)
(* ===================================================================== *)

(** The chain applied to each point: lower-case, replace, split, keep the
    words longer than 4 characters. *)
Definition words_of (point : string) : list string :=
  filter (fun w => 4 <? String.length w)
         (split_whitespace (replace_punctuation (toLowerCase point))).

(** The callback of [forEach].  Only a string has a [toLowerCase] method:
    calling it on anything else throws. *)
Definition push_words (keywords : list string) (point : value)
  : Completion (list string) :=
  match point with
  | Str s => Normal (keywords ++ words_of s)
  | Undefined =>
      Throw (TypeError "Cannot read properties of undefined (reading 'toLowerCase')")
  | Null =>
      Throw (TypeError "Cannot read properties of null (reading 'toLowerCase')")
  | Boolean _ | Number _ | Array _ | Object _ =>
      Throw (TypeError "point.toLowerCase is not a function")
  end.

Fixpoint forEach_push (points : list value) (keywords : list string)
  : Completion (list string) :=
  match points with
  | [] => Normal keywords
  | point :: rest =>
      keywords' <- push_words keywords point ;;
      forEach_push rest keywords'
  end.

(** [if (summaryJson?.field && Array.isArray(summaryJson.field)) { ...forEach... }] *)
Definition extract_field (summaryJson : value) (field : string)
           (keywords : list string) : Completion (list string) :=
  let v := getOptional summaryJson field in
  if truthy v && isArray v then
    match v with
    | Array points => forEach_push points keywords
    | _ => Normal keywords
    end
  else Normal keywords.

Definition commonWords : JsSet.t :=
  JsSet.of_list
    ["that"; "this"; "with"; "from"; "have"; "their"; "would"; "about";
     "there"; "which"; "could"; "other"; "these"; "those"; "being"; "should";
     "where"; "while"; "after"; "before"; "through"; "during"; "between"].

Definition extractKeywords_body (summaryJson : value) : Completion (list string) :=
  keywords <- extract_field summaryJson "key_points" [] ;;
  keywords <- extract_field summaryJson "main_ideas" keywords ;;
  Normal (firstn 15
            (filter (fun w => negb (JsSet.has commonWords w))
                    (JsSet.to_list (JsSet.of_list keywords)))).

Definition extractKeywords (summaryJson : value) : Completion (list string) :=
  try_catch (extractKeywords_body summaryJson) (fun _ => Normal []).

(* ===================================================================== *)
(** ** calculateSimilarity *)
(* ===================================================================== *)

Record Similarity : Type := mkSimilarity {
  sharedKeywords : list string;
  similarity : number
}.

Definition calculateSimilarity (keywords1 keywords2 : list string) : Similarity :=
  let set1 := JsSet.of_list keywords1 in
  let set2 := JsSet.of_list keywords2 in
  let sharedKeywords := filter (fun k => JsSet.has set2 k) keywords1 in
  let totalUniqueKeywords := JsSet.size (JsSet.of_list (keywords1 ++ keywords2)) in
  (* Jaccard similarity coefficient *)
  let similarity :=
    if 0 <? totalUniqueKeywords
    then div_length (List.length sharedKeywords) totalUniqueKeywords
    else Num 0 in
  mkSimilarity sharedKeywords similarity.

(* ===================================================================== *)
(** ** Rows, links and the storage client *)
(* ===================================================================== *)

Module User.
Record t : Type := make { id : string }.
End User.

(** A row of [knowledgebase] as selected by the handler; a column that is
    SQL NULL reads as [None]. *)
Module Entry.
Record t : Type := make {
  id : string;
  summary_json : value;
  category : option string;
  title : option string
}.
End Entry.

(** [{ ...entry, keywords }] *)
Record EntryWithKeywords : Type := withKeywords {
  entry : Entry.t;
  keywords : list string
}.

Record Link : Type := mkLink {
  user_id : string;
  source_kb_id : string;
  target_kb_id : string;
  link_type : string;
  link_strength : number;
  shared_keywords : list string
}.

(** [a === b] on two category columns: [null === null] holds. *)
Definition strict_eq (a b : option string) : bool :=
  match a, b with
  | Some x, Some y => String.eqb x y
  | None, None => true
  | _, _ => false
  end.

(** The storage client built for one bearer token.  [upsert] is asked with
    the offset of the batch in the candidate list and the batch itself, and
    answers with the [error] field of its result. *)
Record Supabase : Type := mkSupabase {
  getUser : string -> option User.t * option JsError;
  select_knowledgebase : string -> option (list Entry.t) * option JsError;
  upsert : nat -> list Link -> option JsError
}.

Record Request : Type := mkRequest {
  (** [request.headers.get('authorization')] *)
  authorization : option string;
  (** [request.json()]: [None] when the promise rejects *)
  json_body : option value
}.

Record Response : Type := mkResponse {
  status : nat;
  json : value
}.

(** What one call of the handler did: its response, the number of calls of
    [calculateSimilarity], and the batches handed to [upsert], in order. *)
Record Run : Type := mkRun {
  response : Response;
  similarity_calls : nat;
  upsert_calls : list (list Link)
}.

Definition respond (status : nat) (fields : list (string * value)) : Run :=
  mkRun (mkResponse status (Object fields)) 0 [].

(** What the [try] block of the handler throws: the error, kept with the
    number of calls of [calculateSimilarity] made before it, so that the
    run that catches it accounts for them. *)
Record Raised : Type := raise {
  raised : JsError;
  calls_before : nat
}.

(** A completion of a statement that precedes the loops. *)
Definition before_loops {A} (c : Completion A) : Result Raised A :=
  match c with
  | Normal a => Normal a
  | Throw e => Throw (raise e 0)
  end.

(** [`${n}`] for an array length. *)
Definition show_nat (n : nat) : string := NilEmpty.string_of_uint (Nat.to_uint n).

(** [s.replace(pattern, replacement)] with a string pattern: the first
    occurrence only. *)
Fixpoint replace_first (s pattern replacement : string) : string :=
  if prefix pattern s then
    (replacement ++ substring (String.length pattern)
                              (String.length s - String.length pattern) s)%string
  else match s with
       | EmptyString => EmptyString
       | String c rest => String c (replace_first rest pattern replacement)
       end.

(** [a.slice(from, to)] for [from <= to]. *)
Definition slice {A} (from to : nat) (a : list A) : list A :=
  firstn (to - from) (skipn from a).

Fixpoint map_completion {A B} (f : A -> Completion B) (l : list A)
  : Completion (list B) :=
  match l with
  | [] => Normal []
  | a :: rest =>
      b <- f a ;;
      bs <- map_completion f rest ;;
      Normal (b :: bs)
  end.

Definition value_of_message (m : option string) : value :=
  match m with
  | Some s => Str s
  | None => Undefined
  end.

(** [error.message?.includes('relation') && error.message?.includes('does not exist')] *)
Definition table_missing (error : JsError) : bool :=
  match err_message error with
  | Some m => includes m "relation" && includes m "does not exist"
  | None => false
  end.

Definition batchSize : nat := 100.

Inductive Persisted : Type :=
| Finished (insertedCount : nat)
| Returned (r : Response).

(** The batch loop [for (let i = 0; i < linksToInsert.length; i += batchSize)],
    entered at offset [i] with [insertedCount] rows written and the batches
    [calls] already sent. *)
Equations? persist_from (upsert : nat -> list Link -> option JsError)
  (linksToInsert : list Link) (i insertedCount : nat) (calls : list (list Link))
  : Persisted * list (list Link) by wf (List.length linksToInsert - i) lt :=
  persist_from upsert linksToInsert i insertedCount calls
    with lt_dec i (List.length linksToInsert) := {
    | right _ => (Finished insertedCount, calls)
    | left _ with upsert i (slice i (i + batchSize) linksToInsert) := {
      | None =>
          persist_from upsert linksToInsert (i + batchSize)
            (insertedCount + List.length (slice i (i + batchSize) linksToInsert))
            (calls ++ [slice i (i + batchSize) linksToInsert])
      | Some error with table_missing error := {
        | true =>
            (Returned
               (mkResponse 500
                  (Object
                     [("error", Str "Knowledge graph table not found");
                      ("message", Str "Please run the database migration first: node scripts/create-knowledge-graph-links-table.js");
                      ("details", value_of_message (err_message error))])),
             calls ++ [slice i (i + batchSize) linksToInsert])
        | false =>
            (* Continue with other batches even if one fails *)
            persist_from upsert linksToInsert (i + batchSize) insertedCount
              (calls ++ [slice i (i + batchSize) linksToInsert]) } } }.
Proof. all: unfold batchSize; lia. Qed.

(* ===================================================================== *)
(** ** The pairwise loops and the handler *)
(* ===================================================================== *)

Record LoopState : Type := mkState {
  linksToInsert : list Link;
  comparisons : nat
}.

Section Handler.

(** Conversions of the language left to the runtime: the number a string
    denotes, and the primitive an array or a plain object converts to.  The
    values at hand are read from JSON, so they hold no function: the
    conversion goes through the inherited [toString] and gives a string,
    or throws a [TypeError] when an own property hides that method.  This
    does not depend on the hint, so the same conversion serves [>=] and a
    template literal. *)
Variable StringToNumber : string -> number.
Variable ToPrimitive : value -> Completion string.

Definition toNumber (v : value) : Completion number :=
  match v with
  | Undefined => Normal NaN
  | Null => Normal (Num 0)
  | Boolean true => Normal (Num 1)
  | Boolean false => Normal (Num 0)
  | Number n => Normal n
  | Str s => Normal (StringToNumber s)
  | Array _ | Object _ =>
      s <- ToPrimitive v ;;
      Normal (StringToNumber s)
  end.

(** [a >= v] with a number on the left: the right side is converted. *)
Definition js_ge (a : number) (v : value) : Completion bool :=
  b <- toNumber v ;;
  Normal (num_ge a b).

(** [`${v}`] inside a message that is only logged: the string is dropped,
    the conversion of an array or of an object is made and may throw. *)
Definition template (v : value) : Completion unit :=
  match v with
  | Array _ | Object _ =>
      _ <- ToPrimitive v ;;
      Normal tt
  | Undefined | Null | Boolean _ | Number _ | Str _ => Normal tt
  end.

Section Loops.

Variable userId : string.
Variables minSimilarity maxLinks : value.

(** The body of the inner loop, from the state of [linksToInsert] and
    [comparisons] to their state when the body ends or throws; the boolean
    tells that [break] was reached. *)
Definition compare_pair (entry1 entry2 : EntryWithKeywords) (st : LoopState)
  : LoopState * Completion bool :=
  let comparisons := S (comparisons st) in
  (* Calculate similarity *)
  let r := calculateSimilarity (keywords entry1) (keywords entry2) in
  (* Create link if similarity meets threshold *)
  match js_ge (similarity r) minSimilarity with
  | Throw e => (mkState (linksToInsert st) comparisons, Throw e)
  | Normal above =>
      if above && (2 <=? List.length (sharedKeywords r)) then
        (* Boost similarity if same category *)
        let categoryBoost :=
          if strict_eq (Entry.category (entry entry1)) (Entry.category (entry entry2))
          then Num (1 # 10) else Num 0 in
        let finalStrength := num_min (num_add (similarity r) categoryBoost) (Num 1) in
        let links :=
          linksToInsert st ++
          [ {| user_id := userId;
               source_kb_id := Entry.id (entry entry1);
               target_kb_id := Entry.id (entry entry2);
               link_type := "auto";
               link_strength := finalStrength;
               shared_keywords := sharedKeywords r |} ] in
        (* Stop if we've reached max links *)
        (mkState links comparisons,
         reached <- js_ge (of_length (List.length links)) maxLinks ;;
         if reached then
           _ <- template maxLinks ;;
           Normal true
         else Normal false)
      else (mkState (linksToInsert st) comparisons, Normal false)
  end.

(** [for (let j = i + 1; j < entriesWithKeywords.length; j++)], with
    [rest] the entries after [entry1]. *)
Fixpoint inner_loop (entry1 : EntryWithKeywords) (rest : list EntryWithKeywords)
         (st : LoopState) : LoopState * Completion unit :=
  match rest with
  | [] => (st, Normal tt)
  | entry2 :: rest' =>
      match compare_pair entry1 entry2 st with
      | (st', Throw e) => (st', Throw e)
      | (st', Normal true) => (st', Normal tt)
      | (st', Normal false) => inner_loop entry1 rest' st'
      end
  end.

(** [for (let i = 0; i < entriesWithKeywords.length; i++)] *)
Fixpoint outer_loop (entries : list EntryWithKeywords) (st : LoopState)
  : LoopState * Completion unit :=
  match entries with
  | [] => (st, Normal tt)
  | entry1 :: rest =>
      match inner_loop entry1 rest st with
      | (st', Throw e) => (st', Throw e)
      | (st', Normal _) =>
          match js_ge (of_length (List.length (linksToInsert st'))) maxLinks with
          | Throw e => (st', Throw e)
          | Normal true => (st', Normal tt)
          | Normal false => outer_loop rest st'
          end
      end
  end.

(** The two loops, from the empty list and the counter 0: the state they
    end in, and whether they ended or threw. *)
Definition buildLinks (entriesWithKeywords : list EntryWithKeywords)
  : LoopState * Completion unit :=
  outer_loop entriesWithKeywords (mkState [] 0).

End Loops.

Definition unauthorized : Run := respond 401 [("error", Str "Unauthorized")].

(** [body.minSimilarity || 0.15] and [body.maxLinks || 1000] *)
Definition option_minSimilarity (body : value) : Completion value :=
  v <- getProperty body "minSimilarity" ;;
  Normal (js_or v (Number (Num (15 # 100)))).

Definition option_maxLinks (body : value) : Completion value :=
  v <- getProperty body "maxLinks" ;;
  Normal (js_or v (Number (Num 1000))).

(** The statements of the handler from the fetch of the rows on. *)
Definition generateLinks (supabase : Supabase) (user : User.t)
           (minSimilarity maxLinks : value) : Result Raised Run :=
  (* Fetch all user's knowledge base entries *)
  match select_knowledgebase supabase (User.id user) with
  | (_, Some entriesError) => Throw (raise entriesError 0)
  | (None, None) =>
      Normal (respond 200 [("success", Boolean true);
                           ("linksCreated", Number (Num 0));
                           ("message", Str "No knowledge base entries found")])
  | (Some entries, None) =>
      if List.length entries =? 0 then
        Normal (respond 200 [("success", Boolean true);
                             ("linksCreated", Number (Num 0));
                             ("message", Str "No knowledge base entries found")])
      else
        (* Extract keywords for all entries *)
        entriesWithKeywords <-
          before_loops
            (map_completion
               (fun entry =>
                  keywords <- extractKeywords (Entry.summary_json entry) ;;
                  Normal (withKeywords entry keywords))
               entries) ;;
        (* Compare each entry with every other entry *)
        match buildLinks (User.id user) minSimilarity maxLinks
                         entriesWithKeywords with
        | (st, Throw e) => Throw (raise e (comparisons st))
        | (st, Normal _) =>
            (* Batch insert links (upsert to avoid duplicates) *)
            let (persisted, calls) :=
              if 0 <? List.length (linksToInsert st)
              then persist_from (upsert supabase) (linksToInsert st) 0 0 []
              else (Finished 0, []) in
            match persisted with
            | Returned r => Normal (mkRun r (comparisons st) calls)
            | Finished insertedCount =>
                Normal
                  (mkRun
                     (mkResponse 200
                        (Object
                           [("success", Boolean true);
                            ("linksCreated", Number (of_length insertedCount));
                            ("totalEntries", Number (of_length (List.length entries)));
                            ("comparisons", Number (of_length (comparisons st)));
                            ("message",
                             Str ("Successfully generated " ++ show_nat insertedCount
                                  ++ " connections from "
                                  ++ show_nat (List.length entries) ++ " entries")%string)]))
                     (comparisons st) calls)
            end
        end
  end.

Definition POST_body (createClient : string -> Supabase) (request : Request)
  : Result Raised Run :=
  (* Get authorization header *)
  match authorization request with
  | None => Normal unauthorized
  | Some authHeader =>
      if String.eqb authHeader "" then Normal unauthorized
      else
        (* Extract token *)
        let token := replace_first authHeader "Bearer " "" in
        (* Create Supabase client *)
        let supabase := createClient token in
        (* Verify user *)
        match getUser supabase token with
        | (Some user, None) =>
            (* Parse request body for options *)
            let body :=
              match json_body request with
              | Some b => b
              | None => Object []
              end in
            minSimilarity <- before_loops (option_minSimilarity body) ;;
            maxLinks <- before_loops (option_maxLinks body) ;;
            (* the message logged holds `${minSimilarity}` *)
            _ <- before_loops (template minSimilarity) ;;
            generateLinks supabase user minSimilarity maxLinks
        | _ => Normal unauthorized
        end
  end.

Definition POST (createClient : string -> Supabase) (request : Request)
  : Completion Run :=
  try_catch (POST_body createClient request)
    (fun thrown =>
       Normal
         (mkRun
            (mkResponse 500
               (Object
                  [("error", Str "Failed to generate links");
                   ("details",
                    if is_Error (raised thrown)
                    then value_of_message (err_message (raised thrown))
                    else Str "Unknown error")]))
            (calls_before thrown) [])).

End Handler.

(* ===================================================================== *)
(** ** The graph data handler *)
(* ===================================================================== *)

(** [-a], [a * b], [a < b] and [Math.max(a, b)]. *)
Definition num_neg (a : number) : number :=
  match a with
  | Num x => Num (- x)%Q
  | NaN => NaN
  | PosInf => NegInf
  | NegInf => PosInf
  end.

Definition num_mul (a b : number) : number :=
  match a, b with
  | NaN, _ | _, NaN => NaN
  | Num x, Num y => Num (x * y)%Q
  | Num x, inf | inf, Num x =>
      match (x ?= 0)%Q with
      | Eq => NaN
      | Gt => inf
      | Lt => num_neg inf
      end
  | PosInf, PosInf | NegInf, NegInf => PosInf
  | PosInf, NegInf | NegInf, PosInf => NegInf
  end.

Definition num_lt (a b : number) : bool :=
  match a, b with
  | NaN, _ | _, NaN => false
  | Num x, Num y => negb (Qle_bool y x)
  | PosInf, _ => false
  | _, NegInf => false
  | Num _, PosInf => true
  | NegInf, _ => true
  end.

Definition num_max (a b : number) : number :=
  match a, b with
  | NaN, _ | _, NaN => NaN
  | PosInf, _ | _, PosInf => PosInf
  | NegInf, y => y
  | x, NegInf => x
  | Num x, Num y => if Qle_bool x y then Num y else Num x
  end.

(** The names of the members that a plain object inherits. *)
Definition object_prototype_names : list string :=
  ["constructor"; "__defineGetter__"; "__defineSetter__"; "hasOwnProperty";
   "__lookupGetter__"; "__lookupSetter__"; "isPrototypeOf";
   "propertyIsEnumerable"; "toString"; "valueOf"; "__proto__";
   "toLocaleString"].

Fixpoint assoc {A} (key : string) (l : list (string * A)) : option A :=
  match l with
  | [] => None
  | (k, a) :: rest => if String.eqb k key then Some a else assoc key rest
  end.

(** What reading a key of an object literal of strings gives: nothing, the
    string put there, or a member inherited from the prototype. *)
Inductive Slot : Type :=
| Missing
| OwnString (s : string)
| InheritedMember (name : string).

Definition slot_of (object : list (string * string)) (key : string) : Slot :=
  match assoc key object with
  | Some s => OwnString s
  | None =>
      if existsb (String.eqb key) object_prototype_names
      then InheritedMember key else Missing
  end.

Definition slot_truthy (s : Slot) : bool :=
  match s with
  | Missing => false
  | OwnString s => negb (String.eqb s "")
  | InheritedMember _ => true
  end.

Definition colors : list (string * string) :=
  [("Science", "#3b82f6");
   ("Technology", "#8b5cf6");
   ("AI", "#ec4899");
   ("Business", "#f59e0b");
   ("Health", "#10b981");
   ("Education", "#06b6d4");
   ("Politics", "#ef4444");
   ("Environment", "#84cc16");
   ("Arts", "#f97316");
   ("Sports", "#6366f1");
   ("Other", "#64748b");
   ("Uncategorized", "#64748b")].

(** [colors[category] || colors['Other']] *)
Definition getCategoryColor (category : string) : Slot :=
  if slot_truthy (slot_of colors category) then slot_of colors category
  else slot_of colors "Other".

Definition JsValue : Type := value.

(** A row of [knowledgebase] as the graph handler selects it. *)
Module NodeRow.
Record t : Type := make {
  id : string;
  title : option string;
  category : option string;
  source_type : JsValue;
  created_at : JsValue;
  summary_json : JsValue
}.
End NodeRow.

(** A row of [knowledge_graph_links] as the graph handler selects it. *)
Module LinkRow.
Record t : Type := make {
  source_kb_id : string;
  target_kb_id : string;
  link_strength : option number;
  link_type : JsValue;
  shared_keywords : option (list string)
}.
End LinkRow.

Module GraphNode.
Record t : Type := make {
  id : string;
  name : string;
  category : string;
  sourceType : JsValue;
  val : number;
  color : Slot;
  connections : nat;
  createdAt : JsValue
}.
End GraphNode.

Module GraphLink.
Record t : Type := make {
  source : string;
  target : string;
  value : number;
  type : JsValue;
  keywords : list string
}.
End GraphLink.

Record Stats : Type := mkStats {
  totalNodes : nat;
  displayedNodes : nat;
  totalLinks : nat;
  displayedLinks : nat;
  hasMore : bool;
  page : number;
  pageSize : number
}.

Record GraphData : Type := mkGraphData {
  nodes : list GraphNode.t;
  links : list GraphLink.t;
  stats : Stats
}.

(** The storage client of the graph handler: the check of the token, the
    query of the nodes (owner, category filter, first and last row of the
    range) with its [data], [error] and [count], and the query of the
    links. *)
Module Store.
Record t : Type := make {
  getUser : string -> option User.t * option JsError;
  select_nodes : string -> option string -> number -> number ->
                 option (list NodeRow.t) * option JsError * option nat;
  select_links : string -> option (list LinkRow.t) * option JsError
}.
End Store.

Record GraphRequest : Type := mkGraphRequest {
  (** [request.headers.get('authorization')] *)
  graph_authorization : option string;
  (** [searchParams.get('page')], [get('pageSize')], [get('category')] *)
  param_page : option string;
  param_pageSize : option string;
  param_category : option string
}.

Inductive GraphResponse : Type :=
| GraphJson (data : GraphData)
| ErrorJson (status : nat) (json : value).

(** [s || fallback] for a string or [null]. *)
Definition string_or (s : option string) (fallback : string) : string :=
  match s with
  | Some x => if String.eqb x "" then fallback else x
  | None => fallback
  end.

(** The object [connectionCounts], from row id to count.  Its keys are row
    ids, which are UUIDs and so never the name of an inherited member. *)
Definition Counts : Type := list (string * nat).

(** [connectionCounts[id] || 0] *)
Definition count_of (connectionCounts : Counts) (id : string) : nat :=
  match assoc id connectionCounts with
  | Some n => n
  | None => 0
  end.

(** [connectionCounts[id] = n] *)
Fixpoint set_count (connectionCounts : Counts) (id : string) (n : nat) : Counts :=
  match connectionCounts with
  | [] => [(id, n)]
  | (k, m) :: rest =>
      if String.eqb k id then (k, n) :: rest
      else (k, m) :: set_count rest id n
  end.

(** The callback of [links?.forEach]. *)
Definition count_link (connectionCounts : Counts) (link : LinkRow.t) : Counts :=
  let connectionCounts :=
    set_count connectionCounts (LinkRow.source_kb_id link)
              (count_of connectionCounts (LinkRow.source_kb_id link) + 1) in
  set_count connectionCounts (LinkRow.target_kb_id link)
            (count_of connectionCounts (LinkRow.target_kb_id link) + 1).

Definition connectionCounts (links : option (list LinkRow.t)) : Counts :=
  match links with
  | Some l => fold_left count_link l []
  | None => []
  end.

(** The callback of [nodes?.map]. *)
Definition format_node (connectionCounts : Counts) (node : NodeRow.t) : GraphNode.t :=
  {| GraphNode.id := NodeRow.id node;
     GraphNode.name := string_or (NodeRow.title node) "Untitled";
     GraphNode.category := string_or (NodeRow.category node) "Uncategorized";
     GraphNode.sourceType := NodeRow.source_type node;
     (* Node size based on connections *)
     GraphNode.val :=
       num_max (Num 1)
               (Num (Z.of_nat (count_of connectionCounts (NodeRow.id node)) # 2));
     GraphNode.color :=
       getCategoryColor (string_or (NodeRow.category node) "Uncategorized");
     GraphNode.connections := count_of connectionCounts (NodeRow.id node);
     GraphNode.createdAt := NodeRow.created_at node |}.

(** The callback of [links?.map]. *)
Definition format_link (link : LinkRow.t) : GraphLink.t :=
  {| GraphLink.source := LinkRow.source_kb_id link;
     GraphLink.target := LinkRow.target_kb_id link;
     GraphLink.value :=
       match LinkRow.link_strength link with
       | Some n => if num_truthy n then n else Num (1 # 2)
       | None => Num (1 # 2)
       end;
     GraphLink.type := LinkRow.link_type link;
     GraphLink.keywords :=
       match LinkRow.shared_keywords link with
       | Some k => k
       | None => []
       end |}.

(** The statements of the graph handler from the count of the connections
    on, for the rows and the count the two queries returned. *)
Definition graphData (page pageSize : number)
           (nodes : option (list NodeRow.t)) (count : option nat)
           (links : option (list LinkRow.t)) : GraphData :=
  let start := num_mul page pageSize in
  (* Calculate connection counts for each node *)
  let connectionCounts := connectionCounts links in
  (* Format nodes for react-force-graph *)
  let formattedNodes :=
    match nodes with
    | Some l => map (format_node connectionCounts) l
    | None => []
    end in
  (* Format links for react-force-graph *)
  let formattedLinks :=
    match links with
    | Some l => map format_link l
    | None => []
    end in
  (* Filter out links where nodes don't exist (in case of pagination) *)
  let nodeIds := JsSet.of_list (map GraphNode.id formattedNodes) in
  let filteredLinks :=
    filter (fun link => JsSet.has nodeIds (GraphLink.source link)
                        && JsSet.has nodeIds (GraphLink.target link))
           formattedLinks in
  {| nodes := formattedNodes;
     links := filteredLinks;
     stats :=
       {| totalNodes := match count with Some c => c | None => 0 end;
          displayedNodes := List.length formattedNodes;
          totalLinks := match links with Some l => List.length l | None => 0 end;
          displayedLinks := List.length filteredLinks;
          hasMore :=
            match count with
            | Some (S c) =>
                num_lt (num_add start (of_length (List.length formattedNodes)))
                       (of_length (S c))
            | _ => false
            end;
          page := page;
          pageSize := pageSize |} |}.

Section GraphHandler.

(** [parseInt], left to the runtime. *)
Variable parseInt : string -> number.

Definition GET_body (createClient : string -> Store.t) (request : GraphRequest)
  : Completion GraphResponse :=
  (* Get authorization header *)
  match graph_authorization request with
  | None => Normal (ErrorJson 401 (Object [("error", Str "Unauthorized")]))
  | Some authHeader =>
      if String.eqb authHeader ""
      then Normal (ErrorJson 401 (Object [("error", Str "Unauthorized")]))
      else
        (* Extract token *)
        let token := replace_first authHeader "Bearer " "" in
        (* Create Supabase client *)
        let supabase := createClient token in
        (* Verify user *)
        match Store.getUser supabase token with
        | (Some user, None) =>
            (* Parse query parameters for pagination and filtering *)
            let page := parseInt (string_or (param_page request) "0") in
            let pageSize := parseInt (string_or (param_pageSize request) "1000") in
            let category :=
              match param_category request with
              | Some c => if String.eqb c "" then None else Some c
              | None => None
              end in
            (* Apply pagination *)
            let start := num_mul page pageSize in
            let end_ := num_add (num_add start pageSize) (num_neg (Num 1)) in
            (* Fetch nodes *)
            match Store.select_nodes supabase (User.id user) category start end_ with
            | (_, Some nodesError, _) => Throw nodesError
            | (nodes, None, count) =>
                (* Fetch all links for the user *)
                match Store.select_links supabase (User.id user) with
                | (_, Some linksError) => Throw linksError
                | (links, None) =>
                    Normal (GraphJson (graphData page pageSize nodes count links))
                end
            end
        | _ => Normal (ErrorJson 401 (Object [("error", Str "Unauthorized")]))
        end
  end.

Definition GET (createClient : string -> Store.t) (request : GraphRequest)
  : Completion GraphResponse :=
  try_catch (GET_body createClient request)
    (fun error =>
       Normal
         (ErrorJson 500
            (Object
               [("error", Str "Failed to fetch graph data");
                ("details",
                 if is_Error error then value_of_message (err_message error)
                 else Str "Unknown error")]))).

End GraphHandler.

(* ===================================================================== *)
(** ** Reference definitions for the extractor *)
(* ===================================================================== *)

Definition is_letter (c : ascii) : bool := between 97 122 c || between 65 90 c.

Definition is_digit (c : ascii) : bool := between 48 57 c.

Definition is_underscore (c : ascii) : bool := code c =? 95.

(** The characters the specification keeps: letters, digits, whitespace. *)
Definition keep_stated (c : ascii) : bool :=
  is_letter c || is_digit c || is_space c.

(** The same with the underscore added. *)
Definition keep_word (c : ascii) : bool :=
  is_letter c || is_digit c || is_underscore c || is_space c.

(** Replace every character outside [keep] by one space. *)
Fixpoint blank_out (keep : ascii -> bool) (s : string) : string :=
  match s with
  | EmptyString => EmptyString
  | String c rest => String (if keep c then c else " "%char) (blank_out keep rest)
  end.

(** The maximal runs of non-whitespace characters of [s], [cur] being the
    run under way. *)
Fixpoint runs_from (s : string) (cur : string) : list string :=
  match s with
  | EmptyString => if String.eqb cur "" then [] else [cur]
  | String c rest =>
      if is_space c then
        if String.eqb cur "" then runs_from rest EmptyString
        else cur :: runs_from rest EmptyString
      else runs_from rest (cur ++ String c EmptyString)%string
  end.

Definition runs (s : string) : list string := runs_from s EmptyString.

Definition long_word (w : string) : bool := 4 <? String.length w.

Definition spec_tokens (keep : ascii -> bool) (s : string) : list string :=
  filter long_word (runs (blank_out keep (toLowerCase s))).

(** Keep the first occurrence of every element. *)
Fixpoint dedup (l : list string) : list string :=
  match l with
  | [] => []
  | x :: rest => x :: filter (fun y => negb (String.eqb x y)) (dedup rest)
  end.

Definition stop_words : list string :=
  ["that"; "this"; "with"; "from"; "have"; "their"; "would"; "about";
   "there"; "which"; "could"; "other"; "these"; "those"; "being"; "should";
   "where"; "while"; "after"; "before"; "through"; "during"; "between"].

Definition is_stop_word (w : string) : bool := existsb (String.eqb w) stop_words.

(** The extractor as the specification words it: tokens of the key points,
    then tokens of the main ideas; stop words removed; duplicates removed;
    first 15 kept. *)
Definition spec_keywords (keep : ascii -> bool) (key_points main_ideas : list string)
  : list string :=
  firstn 15
    (dedup
       (filter (fun w => negb (is_stop_word w))
          (flat_map (spec_tokens keep) key_points
           ++ flat_map (spec_tokens keep) main_ideas))).

Definition is_string (v : value) : bool :=
  match v with Str _ => true | _ => false end.

(** The result of the extractor, read as a list. *)
Definition keywords_of (summaryJson : value) : list string :=
  match extractKeywords summaryJson with
  | Normal l => l
  | Throw _ => []
  end.

(* ===================================================================== *)
(** ** Reference definitions for the link builder *)
(* ===================================================================== *)

(** A test evaluates to [true]: it does not throw, and gives [true]. *)
Definition holds (c : Completion bool) : bool :=
  match c with
  | Normal b => b
  | Throw _ => false
  end.

(** The pairs [(i, j)], [i < j], by ascending [i] and then ascending [j]. *)
Fixpoint allPairs {A} (l : list A) : list (A * A) :=
  match l with
  | [] => []
  | a :: rest => map (pair a) rest ++ allPairs rest
  end.

Section Reference.

Variable StringToNumber : string -> number.
Variable ToPrimitive : value -> Completion string.
Variable userId : string.
Variables minSimilarity maxLinks : value.

(** The gate: similarity before any bonus at or above the threshold, and
    two shared keywords.  A threshold that cannot be converted lets no pair
    through. *)
Definition gate (p : EntryWithKeywords * EntryWithKeywords) : bool :=
  let r := calculateSimilarity (keywords (fst p)) (keywords (snd p)) in
  holds (js_ge StringToNumber ToPrimitive (similarity r) minSimilarity)
  && (2 <=? List.length (sharedKeywords r)).

Definition bonus (p : EntryWithKeywords * EntryWithKeywords) : number :=
  if strict_eq (Entry.category (entry (fst p))) (Entry.category (entry (snd p)))
  then Num (1 # 10) else Num 0.

(** The candidate of a pair. *)
Definition candidate (p : EntryWithKeywords * EntryWithKeywords) : Link :=
  let r := calculateSimilarity (keywords (fst p)) (keywords (snd p)) in
  {| user_id := userId;
     source_kb_id := Entry.id (entry (fst p));
     target_kb_id := Entry.id (entry (snd p));
     link_type := "auto";
     link_strength := num_min (num_add (similarity r) (bonus p)) (Num 1);
     shared_keywords := sharedKeywords r |}.

(** The candidates of a list of pairs: one for each pair that passes the
    gate, in the order of the pairs. *)
Definition emitted (pairs : list (EntryWithKeywords * EntryWithKeywords))
  : list Link :=
  map candidate (filter gate pairs).

(** The test [linksToInsert.length >= maxLinks] for [n] candidates gives
    [true]. *)
Definition cap_reached (n : nat) : bool :=
  holds (js_ge StringToNumber ToPrimitive (of_length n) maxLinks).

End Reference.

(** The entries with the keywords the extractor gives them. *)
Definition with_keywords (entries : list Entry.t) : list EntryWithKeywords :=
  map (fun e => withKeywords e (keywords_of (Entry.summary_json e))) entries.

(** The candidate list of a run over [entries]: the list the loops hold
    when they end or throw. *)
Definition candidates_of (StringToNumber : string -> number)
           (ToPrimitive : value -> Completion string) (user : User.t)
           (minSimilarity maxLinks : value) (entries : list Entry.t) : list Link :=
  linksToInsert
    (fst (buildLinks StringToNumber ToPrimitive (User.id user) minSimilarity
                     maxLinks (with_keywords entries))).

(** The two entries of the worked example of the specification. *)
Definition example_A (id : string) (title : option string) : Entry.t :=
  Entry.make id
    (Object [("key_points", Array [Str "Machine learning models require training"])])
    (Some "Technology") title.

Definition example_B (id : string) (title : option string) : Entry.t :=
  Entry.make id
    (Object [("key_points", Array [Str "Training machine learning systems needs data"])])
    (Some "Technology") title.

(** A runtime in which no string denotes a number, and a storage client
    over fixed rows whose writes fail at the offsets listed in [failing],
    for the examples. *)
Definition no_number : string -> number := fun _ => NaN.
Definition no_string : value -> Completion string := fun _ => Normal EmptyString.

(** For the examples, the conversion of a plain object: one that holds a
    property [toString] of its own cannot be converted, the others give
    the string of [Object.prototype.toString].  Arrays do not occur in the
    examples. *)
Definition own_toString (v : value) : Completion string :=
  match v with
  | Object fields =>
      if existsb (fun f => String.eqb (fst f) "toString") fields
      then Throw (TypeError "Cannot convert object to primitive value")
      else Normal "[object Object]"
  | _ => Normal EmptyString
  end.

(** For the examples, the number that a string of decimal digits denotes;
    the other numeric literals do not occur in the examples. *)
Definition decimal (s : string) : number :=
  match NilEmpty.uint_of_string s with
  | Some u => Num (inject_Z (Z.of_nat (Nat.of_uint u)))
  | None => NaN
  end.

Definition timeout_error : JsError := mkError (Some "upstream request timeout") false.

Definition example_client (rows : option (list Entry.t)) (failing : list nat)
  : Supabase :=
  mkSupabase
    (fun _ => (Some (User.make "user-1"), None))
    (fun _ => (rows, None))
    (fun i _ => if existsb (Nat.eqb i) failing then Some timeout_error else None).



(** Fifteen copies of entry A: 105 pairs, each of them a candidate. *)
Definition example_rows : list Entry.t := repeat (example_A "a" None) 15.

(* ===================================================================== *)
(** ** Reference definitions for the batches *)
(* ===================================================================== *)

(** Number of batches of [n] rows. *)
Definition batch_count (n : nat) : nat := (n + (batchSize - 1)) / batchSize.

(** The [k]-th batch, from 0. *)
Definition batch_at (links : list Link) (k : nat) : list Link :=
  slice (k * batchSize) (k * batchSize + batchSize) links.

Definition batches (links : list Link) : list (list Link) :=
  map (batch_at links) (seq 0 (batch_count (List.length links))).

(** The [k]-th batch was written without error. *)
Definition batch_ok (upsert : nat -> list Link -> option JsError)
           (links : list Link) (k : nat) : bool :=
  match upsert (k * batchSize) (batch_at links k) with
  | None => true
  | Some _ => false
  end.

(** Total number of rows of the batches written without error. *)
Definition rows_written (upsert : nat -> list Link -> option JsError)
           (links : list Link) : nat :=
  list_sum
    (map (fun k => List.length (batch_at links k))
         (filter (batch_ok upsert links) (seq 0 (batch_count (List.length links))))).

(* ===================================================================== *)
(** ** Reference definitions for further properties *)
(* ===================================================================== *)

(** Every character of [s] satisfies [p]. *)
Fixpoint all_chars (p : ascii -> bool) (s : string) : bool :=
  match s with
  | EmptyString => true
  | String c rest => p c && all_chars p rest
  end.

(** The characters [a-z], [0-9] and [_]. *)
Definition is_keyword_char (c : ascii) : bool :=
  between 97 122 c || between 48 57 c || (code c =? 95).

(** The conflict key of a link row. *)
Definition link_key (l : Link) : string * string :=
  (source_kb_id l, target_kb_id l).

(** The [k]-th batch is answered with the missing-relation error. *)
Definition batch_fatal (upsert : nat -> list Link -> option JsError)
           (links : list Link) (k : nat) : bool :=
  match upsert (k * batchSize) (batch_at links k) with
  | Some error => table_missing error
  | None => false
  end.

(** The response to the missing-relation error. *)
Definition table_not_found (error : JsError) : Response :=
  mkResponse 500
    (Object
       [("error", Str "Knowledge graph table not found");
        ("message", Str "Please run the database migration first: node scripts/create-knowledge-graph-links-table.js");
        ("details", value_of_message (err_message error))]).

(** A storage client over fixed rows whose write at offset [at_offset] is
    answered with the missing-relation error, for the examples. *)
Definition missing_relation_error : JsError :=
  mkError (Some "relation public.knowledge_graph_links does not exist") false.

Definition example_client_missing (rows : option (list Entry.t)) (at_offset : nat)
  : Supabase :=
  mkSupabase
    (fun _ => (Some (User.make "user-1"), None))
    (fun _ => (rows, None))
    (fun i _ => if i =? at_offset then Some missing_relation_error else None).

(** The client and the user the handler works with once the token is
    accepted; [None] when the header is missing or empty or the token is
    refused. *)
Definition authenticated (createClient : string -> Supabase) (request : Request)
  : option (Supabase * User.t) :=
  match authorization request with
  | None => None
  | Some header =>
      if String.eqb header "" then None
      else
        let token := replace_first header "Bearer " "" in
        match getUser (createClient token) token with
        | (Some user, None) => Some (createClient token, user)
        | _ => None
        end
  end.

(** The body the options are read from. *)
Definition body_of (request : Request) : value :=
  match json_body request with
  | Some b => b
  | None => Object []
  end.

(** Number of links that leave, and that reach, the row [id]. *)
Definition out_degree (links : list LinkRow.t) (id : string) : nat :=
  List.length (filter (fun l => String.eqb (LinkRow.source_kb_id l) id) links).

Definition in_degree (links : list LinkRow.t) (id : string) : nat :=
  List.length (filter (fun l => String.eqb (LinkRow.target_kb_id l) id) links).

(** The client and the user the graph handler works with once the token is
    accepted. *)
Definition graph_authenticated (createClient : string -> Store.t)
           (request : GraphRequest) : option (Store.t * User.t) :=
  match graph_authorization request with
  | None => None
  | Some header =>
      if String.eqb header "" then None
      else
        let token := replace_first header "Bearer " "" in
        match Store.getUser (createClient token) token with
        | (Some user, None) => Some (createClient token, user)
        | _ => None
        end
  end.

(** The two queries of the graph handler for a request, as the handler
    words them. *)
Definition nodes_query (parseInt : string -> number) (supabase : Store.t)
           (user : User.t) (request : GraphRequest)
  : option (list NodeRow.t) * option JsError * option nat :=
  let page := parseInt (string_or (param_page request) "0") in
  let pageSize := parseInt (string_or (param_pageSize request) "1000") in
  Store.select_nodes supabase (User.id user)
    (match param_category request with
     | Some c => if String.eqb c "" then None else Some c
     | None => None
     end)
    (num_mul page pageSize)
    (num_add (num_add (num_mul page pageSize) pageSize) (num_neg (Num 1))).

(* ===================================================================== *)
(** ** Lists, filters and sets *)
(* ===================================================================== *)

Unset Implicit Arguments.

Lemma filter_comm {A} (p q : A -> bool) (l : list A) :
  filter p (filter q l) = filter q (filter p l).
Proof.
  induction l as [|x l IH]; simpl; [reflexivity|].
  destruct (q x) eqn:Hq, (p x) eqn:Hp; simpl; rewrite ?Hq, ?Hp, IH; reflexivity.
Qed.

Lemma filter_absorb {A} (p q : A -> bool) (l : list A) :
  (forall x, p x = true -> q x = true) ->
  filter p (filter q l) = filter p l.
Proof.
  intros Himp. induction l as [|x l IH]; simpl; [reflexivity|].
  destruct (q x) eqn:Hq; simpl.
  - rewrite IH. reflexivity.
  - destruct (p x) eqn:Hp; [|exact IH].
    apply Himp in Hp. congruence.
Qed.

Lemma filter_andb {A} (p q : A -> bool) (l : list A) :
  filter (fun x => p x && q x) l = filter q (filter p l).
Proof.
  induction l as [|x l IH]; simpl; [reflexivity|].
  destruct (p x); simpl; [destruct (q x)|]; rewrite IH; reflexivity.
Qed.

Lemma dedup_filter (p : string -> bool) (l : list string) :
  dedup (filter p l) = filter p (dedup l).
Proof.
  induction l as [|x l IH]; simpl; [reflexivity|].
  destruct (p x) eqn:Hp; simpl.
  - rewrite IH, filter_comm. reflexivity.
  - rewrite IH, filter_absorb; [reflexivity|].
    intros y Hy. destruct (String.eqb_spec x y) as [->|]; [congruence|reflexivity].
Qed.

Lemma In_dedup (l : list string) (x : string) : In x (dedup l) <-> In x l.
Proof.
  induction l as [|y l IH]; simpl; [tauto|].
  rewrite filter_In, IH.
  destruct (String.eqb_spec y x) as [->|Hne]; simpl; intuition congruence.
Qed.

Lemma NoDup_dedup (l : list string) : NoDup (dedup l).
Proof.
  induction l as [|x l IH]; simpl; constructor.
  - rewrite filter_In, String.eqb_refl. simpl. intros [_ H]. discriminate.
  - apply NoDup_filter, IH.
Qed.

Lemma has_spec (s : JsSet.t) (k : string) : JsSet.has s k = true <-> In k s.
Proof.
  unfold JsSet.has. rewrite existsb_exists. split.
  - intros [x [Hin Heq]]. apply String.eqb_eq in Heq. subst. exact Hin.
  - intros Hin. exists k. split; [exact Hin|apply String.eqb_refl].
Qed.

Lemma has_app (s : JsSet.t) (x k : string) :
  negb (JsSet.has (s ++ [x]) k) = negb (JsSet.has s k) && negb (String.eqb x k).
Proof.
  unfold JsSet.has. rewrite existsb_app. simpl.
  rewrite orb_false_r, negb_orb, (String.eqb_sym k x). reflexivity.
Qed.

(** Inserting the elements of [l] one by one into the set [acc] appends the
    first occurrences of the elements that [acc] lacks. *)
Lemma fold_add (l : list string) :
  forall acc : JsSet.t,
    fold_left JsSet.add l acc
    = acc ++ dedup (filter (fun x => negb (JsSet.has acc x)) l).
Proof.
  induction l as [|x l IH]; intros acc; simpl.
  - rewrite app_nil_r. reflexivity.
  - unfold JsSet.add at 2. destruct (JsSet.has acc x) eqn:Hx; simpl.
    + apply IH.
    + rewrite IH, <- app_assoc. simpl. do 2 f_equal.
      rewrite <- dedup_filter, <- filter_andb.
      f_equal. apply filter_ext. intros k. apply has_app.
Qed.

Lemma of_list_dedup (l : list string) : JsSet.of_list l = dedup l.
Proof.
  unfold JsSet.of_list. rewrite fold_add. simpl.
  f_equal. induction l as [|x l IH]; simpl; [reflexivity|]. f_equal. exact IH.
Qed.

Lemma In_of_list (l : list string) (x : string) : In x (JsSet.of_list l) <-> In x l.
Proof. rewrite of_list_dedup. apply In_dedup. Qed.

Lemma NoDup_of_list (l : list string) : NoDup (JsSet.of_list l).
Proof. rewrite of_list_dedup. apply NoDup_dedup. Qed.

(* ===================================================================== *)
(** ** The extractor *)
(* ===================================================================== *)

Lemma replace_punctuation_blank_out (s : string) :
  replace_punctuation s = blank_out keep_word s.
Proof.
  induction s as [|c s IH]; simpl; [reflexivity|].
  rewrite IH. reflexivity.
Qed.

(** Splitting on separators leaves, once the empty pieces are dropped, the
    maximal runs of non-whitespace characters. *)
Lemma split_from_runs (s : string) :
  forall cur in_run,
    (in_run = true -> cur = EmptyString) ->
    filter (fun w => negb (String.eqb w "")) (split_from s cur in_run)
    = runs_from s cur.
Proof.
  induction s as [|c s IH]; intros cur in_run Hrun; simpl.
  - destruct (String.eqb cur ""); reflexivity.
  - destruct (is_space c).
    + destruct in_run.
      * rewrite (Hrun eq_refl). simpl. apply IH. reflexivity.
      * simpl. destruct (String.eqb cur ""); simpl;
          rewrite IH by reflexivity; reflexivity.
    + apply IH. discriminate.
Qed.

Lemma long_word_nonempty (w : string) :
  long_word w = true -> negb (String.eqb w "") = true.
Proof. destruct w; [discriminate|reflexivity]. Qed.

Lemma words_of_tokens (s : string) : words_of s = spec_tokens keep_word s.
Proof.
  unfold words_of, spec_tokens, runs, split_whitespace.
  rewrite <- (split_from_runs _ _ false) by discriminate.
  rewrite filter_absorb by apply long_word_nonempty.
  rewrite replace_punctuation_blank_out. reflexivity.
Qed.

Lemma forEach_push_strings (points : list string) :
  forall keywords,
    forEach_push (map Str points) keywords
    = Normal (keywords ++ flat_map words_of points).
Proof.
  induction points as [|p points IH]; intros keywords; simpl.
  - rewrite app_nil_r. reflexivity.
  - rewrite IH, <- app_assoc. reflexivity.
Qed.

(** A point that is not a string makes the whole [forEach] throw. *)
Lemma forEach_push_throws (points : list value) :
  existsb (fun p => negb (is_string p)) points = true ->
  forall keywords, exists e, forEach_push points keywords = Throw e.
Proof.
  induction points as [|p points IH]; simpl; [discriminate|].
  intros H keywords. destruct p; simpl in *; eauto.
Qed.

Lemma extract_field_array (summary : list (string * value)) field points keywords :
  lookup field summary = Array points ->
  extract_field (Object summary) field keywords = forEach_push points keywords.
Proof. unfold extract_field. simpl. intros ->. reflexivity. Qed.

Lemma extract_field_skip (summaryJson : value) field keywords :
  isArray (getOptional summaryJson field) = false ->
  extract_field summaryJson field keywords = Normal keywords.
Proof.
  unfold extract_field. intros ->. rewrite andb_false_r. reflexivity.
Qed.

Lemma commonWords_stop_words (w : string) : JsSet.has commonWords w = is_stop_word w.
Proof. reflexivity. Qed.

Lemma extractKeywords_returns (summaryJson : value) :
  exists l, extractKeywords summaryJson = Normal l.
Proof.
  unfold extractKeywords, try_catch.
  destruct (extractKeywords_body summaryJson); eauto.
Qed.

Lemma extractKeywords_keywords_of (summaryJson : value) :
  extractKeywords summaryJson = Normal (keywords_of summaryJson).
Proof.
  unfold keywords_of.
  destruct (extractKeywords_returns summaryJson) as [l ->]. reflexivity.
Qed.

Lemma extractKeywords_not_object (summaryJson : value) :
  (forall fields, summaryJson <> Object fields) ->
  extractKeywords summaryJson = Normal [].
Proof.
  intros H. destruct summaryJson; try reflexivity.
  exfalso. eapply H. reflexivity.
Qed.

Lemma extractKeywords_bad_point (summary : list (string * value)) field points :
  field = "key_points" \/ field = "main_ideas" ->
  lookup field summary = Array points ->
  existsb (fun p => negb (is_string p)) points = true ->
  extractKeywords (Object summary) = Normal [].
Proof.
  intros Hfield Hlook Hbad.
  unfold extractKeywords, extractKeywords_body.
  destruct Hfield as [-> | ->].
  - rewrite (extract_field_array _ _ _ _ Hlook).
    destruct (forEach_push_throws _ Hbad []) as [e ->]. reflexivity.
  - destruct (extract_field (Object summary) "key_points" []) as [kw|e];
      [|reflexivity].
    cbn [bind]. rewrite (extract_field_array _ _ _ _ Hlook).
    destruct (forEach_push_throws _ Hbad kw) as [e ->]. reflexivity.
Qed.

Lemma NoDup_firstn {A} (n : nat) (l : list A) : NoDup l -> NoDup (firstn n l).
Proof.
  intros H. rewrite <- (firstn_skipn n l) in H.
  apply NoDup_app_remove_r in H. exact H.
Qed.

Lemma keywords_of_NoDup (summaryJson : value) : NoDup (keywords_of summaryJson).
Proof.
  unfold keywords_of, extractKeywords, extractKeywords_body, try_catch, bind.
  destruct (extract_field summaryJson "key_points" []); [|constructor].
  destruct (extract_field summaryJson "main_ideas" a); [|constructor].
  apply NoDup_firstn, NoDup_filter, NoDup_of_list.
Qed.

Lemma extract_field_same (s1 s2 : list (string * value)) field keywords :
  lookup field s1 = lookup field s2 ->
  extract_field (Object s1) field keywords = extract_field (Object s2) field keywords.
Proof. unfold extract_field. simpl. intros ->. reflexivity. Qed.

Lemma extractKeywords_same (s1 s2 : list (string * value)) :
  lookup "key_points" s1 = lookup "key_points" s2 ->
  lookup "main_ideas" s1 = lookup "main_ideas" s2 ->
  extractKeywords (Object s1) = extractKeywords (Object s2).
Proof.
  intros H1 H2. unfold extractKeywords, extractKeywords_body.
  rewrite (extract_field_same s1 s2 _ _ H1).
  destruct (extract_field (Object s2) "key_points" []) as [kw|e]; [|reflexivity].
  cbn [bind]. rewrite (extract_field_same s1 s2 _ _ H2). reflexivity.
Qed.

Lemma extract_field_not_array (summary : list (string * value)) field keywords :
  isArray (lookup field summary) = false ->
  extract_field (Object summary) field keywords
  = extract_field (Object []) field keywords.
Proof.
  intros H. rewrite !extract_field_skip; [reflexivity|reflexivity|exact H].
Qed.

(** C2. For every structured summary whose "key points" and "main ideas"
    fields are arrays of strings, the extractor returns the list obtained
    by lower-casing each element, replacing every character that is not a
    letter, a digit, an underscore or whitespace by one space, taking the
    runs between whitespace, keeping the tokens longer than 4 characters,
    key-point tokens before main-idea tokens, removing the stop words,
    keeping first occurrences only, and truncating to 15 tokens. *)
Theorem extractKeywords_spec_keywords :
  forall (summary : list (string * value)) (key_points main_ideas : list string),
    lookup "key_points" summary = Array (map Str key_points) ->
    lookup "main_ideas" summary = Array (map Str main_ideas) ->
    extractKeywords (Object summary)
    = Normal (spec_keywords keep_word key_points main_ideas).
Proof.
  intros summary kp mi Hkp Hmi.
  unfold extractKeywords, extractKeywords_body.
  rewrite (extract_field_array _ _ _ _ Hkp), forEach_push_strings.
  cbn [bind app].
  rewrite (extract_field_array _ _ _ _ Hmi), forEach_push_strings.
  cbn [bind try_catch].
  unfold spec_keywords, JsSet.to_list.
  rewrite of_list_dedup, dedup_filter.
  do 3 f_equal.
  rewrite !flat_map_concat_map.
  rewrite !(map_ext _ _ words_of_tokens). reflexivity.
Qed.

Lemma extractKeywords_spec_keywords_witness :
  extractKeywords
    (Object [("key_points", Array (map Str ["Graph neural networks"; "the snake_case rule"]));
             ("main_ideas", Array (map Str ["Networks, between nodes!"]))])
  = Normal ["graph"; "neural"; "networks"; "snake_case"; "nodes"].
Proof.
  exact (extractKeywords_spec_keywords
           [("key_points", Array (map Str ["Graph neural networks"; "the snake_case rule"]));
            ("main_ideas", Array (map Str ["Networks, between nodes!"]))]
           ["Graph neural networks"; "the snake_case rule"]
           ["Networks, between nodes!"] eq_refl eq_refl).
Defined.

(** C2, as stated: with letters, digits and whitespace as the only
    characters kept, the underscore of a key point would separate two
    tokens; the extractor keeps it inside one. *)
Lemma extractKeywords_keeps_underscore :
  lookup "key_points" [("key_points", Array (map Str ["hello_world"]));
                       ("main_ideas", Array (map Str []))]
  = Array (map Str ["hello_world"])
  /\ extractKeywords
       (Object [("key_points", Array (map Str ["hello_world"]));
                ("main_ideas", Array (map Str []))])
     = Normal ["hello_world"]
  /\ spec_keywords keep_stated ["hello_world"] [] = ["hello"; "world"]
  /\ extractKeywords
       (Object [("key_points", Array (map Str ["hello_world"]));
                ("main_ideas", Array (map Str []))])
     <> Normal (spec_keywords keep_stated ["hello_world"] []).
Proof.
  repeat split; try (vm_compute; reflexivity).
  intros H. vm_compute in H. discriminate H.
Qed.

(** The list the extractor builds from the words of the points is the one
    the specification words. *)
Lemma keywords_of_points (key_points main_ideas : list string) :
  firstn 15
    (filter (fun w => negb (JsSet.has commonWords w))
       (JsSet.to_list
          (JsSet.of_list
             (flat_map words_of key_points ++ flat_map words_of main_ideas))))
  = spec_keywords keep_word key_points main_ideas.
Proof.
  unfold spec_keywords, JsSet.to_list.
  rewrite of_list_dedup, dedup_filter.
  do 2 f_equal.
  rewrite !flat_map_concat_map.
  rewrite !(map_ext _ _ words_of_tokens). reflexivity.
Qed.

Lemma extractKeywords_main_ideas (summary : list (string * value))
      (main_ideas : list string) :
  isArray (lookup "key_points" summary) = false ->
  lookup "main_ideas" summary = Array (map Str main_ideas) ->
  extractKeywords (Object summary)
  = Normal (spec_keywords keep_word [] main_ideas).
Proof.
  intros H1 H2. unfold extractKeywords, extractKeywords_body.
  rewrite (extract_field_skip (Object summary) "key_points" [] H1). cbn [bind].
  rewrite (extract_field_array _ _ _ _ H2), forEach_push_strings.
  cbn [bind try_catch]. f_equal. apply (keywords_of_points [] main_ideas).
Qed.

Lemma extractKeywords_key_points (summary : list (string * value))
      (key_points : list string) :
  lookup "key_points" summary = Array (map Str key_points) ->
  isArray (lookup "main_ideas" summary) = false ->
  extractKeywords (Object summary)
  = Normal (spec_keywords keep_word key_points []).
Proof.
  intros H1 H2. unfold extractKeywords, extractKeywords_body.
  rewrite (extract_field_array _ _ _ _ H1), forEach_push_strings.
  cbn [bind app].
  rewrite (extract_field_skip (Object summary) "main_ideas" _ H2).
  cbn [bind try_catch]. f_equal.
  rewrite <- (keywords_of_points key_points []). cbn [flat_map].
  rewrite app_nil_r. reflexivity.
Qed.

Lemma filter_none {A} (p : A -> bool) (l : list A) :
  (forall x, In x l -> p x = false) -> filter p l = [].
Proof.
  induction l as [|x l IH]; intros H; cbn [filter]; [reflexivity|].
  rewrite (H x (or_introl eq_refl)). apply IH.
  intros y Hy. apply H. right. exact Hy.
Qed.

(** Points whose tokens, if any, are all stop words give no keyword. *)
Lemma spec_keywords_no_token (key_points main_ideas : list string) :
  (forall p w, In p (key_points ++ main_ideas) ->
               In w (spec_tokens keep_word p) -> is_stop_word w = true) ->
  spec_keywords keep_word key_points main_ideas = [].
Proof.
  intros H. unfold spec_keywords. rewrite <- flat_map_app.
  rewrite filter_none; [reflexivity|].
  intros w Hw. apply in_flat_map in Hw. destruct Hw as (p & Hp & Hw).
  rewrite (H p w Hp Hw). reflexivity.
Qed.

(** C7. The extractor never throws.  It returns no keyword when the summary
    is not an object ([null] included), when one of the two fields is an
    array holding a non-string, and when neither field is an array.  A
    field that is not an array is skipped: the result is that of the other
    field alone, which for an array of strings is the list of its tokens
    as the specification words it.  Two arrays of strings none of whose
    tokens is kept - there is none, or each is a stop word - give no
    keyword. *)
Theorem extractKeywords_never_throws :
  forall summaryJson : value,
    (exists l, extractKeywords summaryJson = Normal l)
    /\ ((forall fields, summaryJson <> Object fields) ->
        extractKeywords summaryJson = Normal [])
    /\ (forall summary field points,
          summaryJson = Object summary ->
          field = "key_points" \/ field = "main_ideas" ->
          lookup field summary = Array points ->
          existsb (fun p => negb (is_string p)) points = true ->
          extractKeywords summaryJson = Normal [])
    /\ (forall summary,
          summaryJson = Object summary ->
          isArray (lookup "key_points" summary) = false ->
          isArray (lookup "main_ideas" summary) = false ->
          extractKeywords summaryJson = Normal [])
    /\ (forall summary,
          summaryJson = Object summary ->
          isArray (lookup "key_points" summary) = false ->
          extractKeywords summaryJson
          = extractKeywords (Object [("main_ideas", lookup "main_ideas" summary)]))
    /\ (forall summary,
          summaryJson = Object summary ->
          isArray (lookup "main_ideas" summary) = false ->
          extractKeywords summaryJson
          = extractKeywords (Object [("key_points", lookup "key_points" summary)]))
    /\ (forall summary main_ideas,
          summaryJson = Object summary ->
          isArray (lookup "key_points" summary) = false ->
          lookup "main_ideas" summary = Array (map Str main_ideas) ->
          extractKeywords summaryJson
          = Normal (spec_keywords keep_word [] main_ideas))
    /\ (forall summary key_points,
          summaryJson = Object summary ->
          lookup "key_points" summary = Array (map Str key_points) ->
          isArray (lookup "main_ideas" summary) = false ->
          extractKeywords summaryJson
          = Normal (spec_keywords keep_word key_points []))
    /\ (forall summary key_points main_ideas,
          summaryJson = Object summary ->
          lookup "key_points" summary = Array (map Str key_points) ->
          lookup "main_ideas" summary = Array (map Str main_ideas) ->
          (forall p w,
              In p (key_points ++ main_ideas) ->
              In w (spec_tokens keep_word p) -> is_stop_word w = true) ->
          extractKeywords summaryJson = Normal []).
Proof.
  intros summaryJson. split; [apply extractKeywords_returns|].
  split; [apply extractKeywords_not_object|].
  split; [intros summary field points ->; apply extractKeywords_bad_point|].
  split; [|split; [|split; [|split; [|split]]]].
  - intros summary -> H1 H2. unfold extractKeywords, extractKeywords_body.
    rewrite (extract_field_skip (Object summary) "key_points" [] H1). cbn [bind].
    rewrite (extract_field_skip (Object summary) "main_ideas" [] H2). reflexivity.
  - intros summary -> H1. unfold extractKeywords, extractKeywords_body.
    rewrite (extract_field_not_array summary "key_points" [] H1).
    destruct (extract_field (Object []) "key_points" []) as [kw|e] eqn:E;
      [|discriminate E].
    injection E as <-. cbn [bind].
    rewrite (extract_field_same summary
               [("main_ideas", lookup "main_ideas" summary)] "main_ideas" []);
      reflexivity.
  - intros summary -> H2. unfold extractKeywords, extractKeywords_body.
    rewrite (extract_field_same summary
               [("key_points", lookup "key_points" summary)] "key_points" [])
      by reflexivity.
    destruct (extract_field (Object [("key_points", lookup "key_points" summary)])
                "key_points" []) as [kw|e]; [|reflexivity].
    cbn [bind]. rewrite (extract_field_not_array summary "main_ideas" kw H2).
    reflexivity.
  - intros summary main_ideas ->. apply extractKeywords_main_ideas.
  - intros summary key_points ->. apply extractKeywords_key_points.
  - intros summary key_points main_ideas -> Hkp Hmi Hnone.
    unfold extractKeywords, extractKeywords_body.
    rewrite (extract_field_array _ _ _ _ Hkp), forEach_push_strings.
    cbn [bind app].
    rewrite (extract_field_array _ _ _ _ Hmi), forEach_push_strings.
    cbn [bind try_catch]. f_equal.
    rewrite keywords_of_points. apply spec_keywords_no_token, Hnone.
Qed.

(** C7, as stated: a summary whose "key points" field has the wrong type is
    malformed, and still yields the keywords of its "main ideas". *)
Lemma extractKeywords_wrong_type_not_empty :
  isArray (lookup "key_points"
             [("key_points", Number (Num 42));
              ("main_ideas", Array [Str "Machine learning"])]) = false
  /\ extractKeywords
       (Object [("key_points", Number (Num 42));
                ("main_ideas", Array [Str "Machine learning"])])
     = Normal ["machine"; "learning"]
  /\ extractKeywords
       (Object [("key_points", Number (Num 42));
                ("main_ideas", Array [Str "Machine learning"])])
     <> Normal [].
Proof.
  repeat split; try (vm_compute; reflexivity).
  intros H. vm_compute in H. discriminate H.
Qed.

(* ===================================================================== *)
(** ** calculateSimilarity *)
(* ===================================================================== *)

Lemma same_elements_length (l1 l2 : list string) :
  NoDup l1 -> NoDup l2 -> (forall x, In x l1 <-> In x l2) ->
  List.length l1 = List.length l2.
Proof.
  intros H1 H2 H. apply Nat.le_antisymm; apply NoDup_incl_length;
    try assumption; intros x Hx; apply H; exact Hx.
Qed.

Lemma sharedKeywords_In (keywords1 keywords2 : list string) (x : string) :
  In x (sharedKeywords (calculateSimilarity keywords1 keywords2))
  <-> In x keywords1 /\ In x keywords2.
Proof.
  cbn. rewrite filter_In, has_spec, In_of_list. reflexivity.
Qed.

Lemma totalUnique_length (keywords1 keywords2 union : list string) :
  NoDup union ->
  (forall x, In x union <-> In x keywords1 \/ In x keywords2) ->
  JsSet.size (JsSet.of_list (keywords1 ++ keywords2)) = List.length union.
Proof.
  intros Hnd Hin. unfold JsSet.size.
  apply same_elements_length; [apply NoDup_of_list | exact Hnd |].
  intros x. rewrite In_of_list, in_app_iff, Hin. reflexivity.
Qed.

Lemma similarity_ratio (keywords1 keywords2 union : list string) :
  NoDup union ->
  (forall x, In x union <-> In x keywords1 \/ In x keywords2) ->
  similarity (calculateSimilarity keywords1 keywords2)
  = match union with
    | [] => Num 0
    | _ :: _ =>
        Num (Z.of_nat
               (List.length (sharedKeywords (calculateSimilarity keywords1 keywords2)))
             # Pos.of_nat (List.length union))
    end.
Proof.
  intros Hnd Hin. cbn [calculateSimilarity similarity sharedKeywords].
  rewrite (totalUnique_length _ _ _ Hnd Hin).
  destruct union; reflexivity.
Qed.

Lemma similarity_finite (keywords1 keywords2 : list string) :
  exists q, similarity (calculateSimilarity keywords1 keywords2) = Num q
            /\ (0 <= q)%Q.
Proof.
  cbn [calculateSimilarity similarity].
  destruct (JsSet.size (JsSet.of_list (keywords1 ++ keywords2))) as [|n].
  - exists 0%Q. split; [reflexivity | apply Qle_refl].
  - cbn [Nat.ltb Nat.leb div_length]. eexists. split; [reflexivity|].
    unfold Qle. cbn. lia.
Qed.

(** C4. [calculateSimilarity] returns a finite, non-negative number, never
    [NaN]: the number of shared keywords over the number of distinct
    keywords of the two lists when there is one, and 0 when both lists are
    empty.  The shared keywords are the keywords of the first list that
    occur in the second; for a first list without duplicates they are the
    intersection of the two sets, and the ratio is the Jaccard
    coefficient. *)
Theorem calculateSimilarity_jaccard :
  forall keywords1 keywords2 : list string,
    let r := calculateSimilarity keywords1 keywords2 in
    (exists q, similarity r = Num q /\ (0 <= q)%Q)
    /\ (forall x, In x (sharedKeywords r) <-> In x keywords1 /\ In x keywords2)
    /\ (forall union,
          NoDup union ->
          (forall x, In x union <-> In x keywords1 \/ In x keywords2) ->
          similarity r
          = match union with
            | [] => Num 0
            | _ :: _ =>
                Num (Z.of_nat (List.length (sharedKeywords r))
                     # Pos.of_nat (List.length union))
            end)
    /\ (forall inter union,
          NoDup keywords1 ->
          NoDup inter ->
          (forall x, In x inter <-> In x keywords1 /\ In x keywords2) ->
          NoDup union ->
          (forall x, In x union <-> In x keywords1 \/ In x keywords2) ->
          similarity r
          = match union with
            | [] => Num 0
            | _ :: _ =>
                Num (Z.of_nat (List.length inter) # Pos.of_nat (List.length union))
            end)
    /\ similarity (calculateSimilarity [] []) = Num 0.
Proof.
  intros keywords1 keywords2 r.
  split; [apply similarity_finite|].
  split; [apply sharedKeywords_In|].
  split; [apply similarity_ratio|].
  split; [|reflexivity].
  intros inter union Hnd1 Hndi Hini Hndu Hinu.
  subst r. rewrite (similarity_ratio _ _ _ Hndu Hinu).
  destruct union; [reflexivity|].
  do 3 f_equal. apply same_elements_length; [|exact Hndi|].
  - cbn. apply NoDup_filter, Hnd1.
  - intros x. rewrite sharedKeywords_In, Hini. reflexivity.
Qed.

(* ===================================================================== *)
(** ** The pairwise loops *)
(* ===================================================================== *)

Section LoopProperties.

Variable StringToNumber : string -> number.
Variable ToPrimitive : value -> Completion string.
Variable userId : string.
Variables minSimilarity maxLinks : value.

Local Abbreviation ToNumber := (toNumber StringToNumber ToPrimitive).
Local Abbreviation Gate := (gate StringToNumber ToPrimitive minSimilarity).
Local Abbreviation Emitted :=
  (emitted StringToNumber ToPrimitive userId minSimilarity).
Local Abbreviation Cap := (cap_reached StringToNumber ToPrimitive maxLinks).
Local Abbreviation Compare :=
  (compare_pair StringToNumber ToPrimitive userId minSimilarity maxLinks).
Local Abbreviation Inner :=
  (inner_loop StringToNumber ToPrimitive userId minSimilarity maxLinks).
Local Abbreviation Outer :=
  (outer_loop StringToNumber ToPrimitive userId minSimilarity maxLinks).
Local Abbreviation Build :=
  (buildLinks StringToNumber ToPrimitive userId minSimilarity maxLinks).

Lemma emitted_app pairs1 pairs2 :
  Emitted (pairs1 ++ pairs2) = Emitted pairs1 ++ Emitted pairs2.
Proof. unfold emitted. rewrite filter_app, map_app. reflexivity. Qed.

Lemma emitted_one_length p : List.length (Emitted [p]) <= 1.
Proof. unfold emitted. simpl. destruct (Gate p); simpl; lia. Qed.

(** A value that [>=] can convert can be written in a template literal. *)
Lemma template_converts (v : value) (n : number) :
  ToNumber v = Normal n -> template ToPrimitive v = Normal tt.
Proof.
  intros H. destruct v; try reflexivity; cbn [toNumber template] in *;
    destruct (ToPrimitive _); cbn [bind] in *; (reflexivity || discriminate).
Qed.

(** The gate and the cap test in terms of the numbers the options convert
    to. *)
Lemma gate_number (a : number) p :
  ToNumber minSimilarity = Normal a ->
  Gate p
  = num_ge (similarity (calculateSimilarity (keywords (fst p)) (keywords (snd p)))) a
    && (2 <=? List.length
                (sharedKeywords
                   (calculateSimilarity (keywords (fst p)) (keywords (snd p))))).
Proof. intros H. unfold gate, js_ge. rewrite H. reflexivity. Qed.

Lemma gate_throws (e : JsError) p :
  ToNumber minSimilarity = Throw e -> Gate p = false.
Proof. intros H. unfold gate, js_ge. rewrite H. reflexivity. Qed.

Lemma emitted_throws (e : JsError) pairs :
  ToNumber minSimilarity = Throw e -> Emitted pairs = [].
Proof.
  intros H. unfold emitted. induction pairs as [|p pairs IH]; [reflexivity|].
  cbn [filter]. rewrite (gate_throws e p H). exact IH.
Qed.

Lemma cap_number (b : number) (n : nat) :
  ToNumber maxLinks = Normal b -> Cap n = num_ge (of_length n) b.
Proof. intros H. unfold cap_reached, js_ge. rewrite H. reflexivity. Qed.

Lemma cap_test (n : nat) (r : bool) :
  js_ge StringToNumber ToPrimitive (of_length n) maxLinks = Normal r -> Cap n = r.
Proof. intros H. unfold cap_reached. rewrite H. reflexivity. Qed.

Lemma cap_test_throws (n : nat) (e : JsError) :
  js_ge StringToNumber ToPrimitive (of_length n) maxLinks = Throw e ->
  ToNumber maxLinks = Throw e.
Proof.
  unfold js_ge. destruct (ToNumber maxLinks); cbn [bind]; congruence.
Qed.

Lemma cap_test_converts (n : nat) (b : number) :
  ToNumber maxLinks = Normal b ->
  js_ge StringToNumber ToPrimitive (of_length n) maxLinks
  = Normal (num_ge (of_length n) b).
Proof. intros H. unfold js_ge. rewrite H. reflexivity. Qed.

(** One turn of the inner loop: the comparison is counted and the
    candidate of the pair is appended when the gate passes; the loop
    breaks when the gate passed and the cap test holds; and the turn
    throws only what the conversion of an option throws. *)
Lemma compare_pair_emitted e1 e2 st :
  fst (Compare e1 e2 st)
  = mkState (linksToInsert st ++ Emitted [(e1, e2)]) (S (comparisons st))
  /\ (forall r, snd (Compare e1 e2 st) = Normal r ->
        r = Gate (e1, e2)
            && Cap (List.length (linksToInsert st ++ Emitted [(e1, e2)])))
  /\ (forall e, snd (Compare e1 e2 st) = Throw e ->
        ToNumber minSimilarity = Throw e \/ ToNumber maxLinks = Throw e)
  /\ (forall a b,
        ToNumber minSimilarity = Normal a -> ToNumber maxLinks = Normal b ->
        exists r, snd (Compare e1 e2 st) = Normal r).
Proof.
  unfold compare_pair, emitted, gate, cap_reached, candidate, bonus, js_ge.
  cbn [fst snd filter map].
  destruct (ToNumber minSimilarity) as [a|e] eqn:Hmin; cbn [bind holds].
  2:{ cbn [andb map fst snd]. rewrite app_nil_r.
      split; [reflexivity|]. split; [intros; congruence|].
      split; [intros e' H; left; congruence | intros; congruence]. }
  destruct (num_ge _ a && _); cbn [map fst snd andb].
  - split; [reflexivity|].
    destruct (ToNumber maxLinks) as [b|e] eqn:Hmax; cbn [bind holds].
    + destruct (num_ge _ b).
      * rewrite (template_converts _ _ Hmax). cbn [bind].
        split; [intros; congruence|]. split; [intros; congruence|]. eauto.
      * split; [intros; congruence|]. split; [intros; congruence|]. eauto.
    + split; [intros; congruence|].
      split; [intros e' H; right; congruence | intros; congruence].
  - rewrite app_nil_r. split; [reflexivity|].
    split; [intros; congruence|]. split; [intros; congruence|]. eauto.
Qed.

Lemma inner_loop_prefix e1 rest :
  forall st, exists k,
    k <= List.length rest
    /\ fst (Inner e1 rest st)
       = mkState (linksToInsert st ++ Emitted (firstn k (map (pair e1) rest)))
                 (comparisons st + k)
    /\ (snd (Inner e1 rest st) = Normal tt ->
        k < List.length rest ->
        Cap
          (List.length
             (linksToInsert st ++ Emitted (firstn k (map (pair e1) rest))))
        = true)
    /\ (Cap (List.length (linksToInsert st)) = false ->
        forall j, j < k ->
          Cap
            (List.length
               (linksToInsert st ++ Emitted (firstn j (map (pair e1) rest))))
          = false).
Proof.
  induction rest as [|e2 rest IH]; intros st.
  - exists 0. cbn. rewrite app_nil_r, Nat.add_0_r.
    destruct st; repeat split; [lia | lia | lia].
  - cbn [inner_loop].
    destruct (compare_pair_emitted e1 e2 st) as (Hst & Hr & _).
    destruct (Compare e1 e2 st) as [st1 [r|e]]; cbn [fst snd] in Hst, Hr;
      subst st1.
    + specialize (Hr r eq_refl). destruct r.
      * exists 1. cbn [firstn map List.length fst snd].
        rewrite Nat.add_1_r. repeat split; [lia | |].
        -- intros _ _. symmetry in Hr. apply andb_prop in Hr. apply Hr.
        -- intros Hcap j Hj. assert (j = 0) as -> by lia.
           cbn. rewrite app_nil_r. exact Hcap.
      * destruct (IH (mkState (linksToInsert st ++ Emitted [(e1, e2)])
                              (S (comparisons st)))) as (k & Hk & Heq & Hlt & Hall).
        cbn [linksToInsert comparisons] in *.
        exists (S k). cbn [firstn map List.length].
        change ((e1, e2) :: firstn k (map (pair e1) rest))
          with ([(e1, e2)] ++ firstn k (map (pair e1) rest)).
        rewrite emitted_app, app_assoc, Heq.
        repeat split; [lia | f_equal; lia | intros Hn H; apply Hlt; [exact Hn | lia] |].
        intros Hcap j Hj. destruct j as [|j].
        -- cbn. rewrite app_nil_r. exact Hcap.
        -- cbn [firstn].
           change ((e1, e2) :: firstn j (map (pair e1) rest))
             with ([(e1, e2)] ++ firstn j (map (pair e1) rest)).
           rewrite emitted_app, app_assoc. apply Hall; [|lia].
           destruct (Gate (e1, e2)) eqn:Hg; [symmetry; exact Hr|].
           unfold emitted. cbn [filter]. rewrite Hg. cbn [map].
           rewrite app_nil_r. exact Hcap.
    + exists 1. cbn [firstn map List.length fst snd].
      rewrite Nat.add_1_r. repeat split; [lia | discriminate |].
      intros Hcap j Hj. assert (j = 0) as -> by lia.
      cbn. rewrite app_nil_r. exact Hcap.
Qed.

(** The inner loop throws only what the conversion of an option throws,
    and ends when both options can be converted. *)
Lemma inner_loop_completion e1 rest :
  forall st,
    (forall e, snd (Inner e1 rest st) = Throw e ->
       ToNumber minSimilarity = Throw e \/ ToNumber maxLinks = Throw e)
    /\ (forall a b,
          ToNumber minSimilarity = Normal a -> ToNumber maxLinks = Normal b ->
          snd (Inner e1 rest st) = Normal tt).
Proof.
  induction rest as [|e2 rest IH]; intros st.
  - cbn. split; [discriminate | reflexivity].
  - cbn [inner_loop].
    destruct (compare_pair_emitted e1 e2 st) as (_ & _ & He & Hn).
    destruct (Compare e1 e2 st) as [st1 [r|e]]; cbn [fst snd] in He, Hn.
    + destruct r; [cbn; split; [discriminate | reflexivity] | apply IH].
    + cbn [snd]. split.
      * intros e' H. apply He. congruence.
      * intros a b Ha Hb. destruct (Hn a b Ha Hb) as [r Hr]. discriminate.
Qed.

Lemma firstn_app_le {A} (n : nat) (l1 l2 : list A) :
  n <= List.length l1 -> firstn n (l1 ++ l2) = firstn n l1.
Proof.
  intros H. rewrite firstn_app.
  replace (n - List.length l1) with 0 by lia.
  cbn. apply app_nil_r.
Qed.

Lemma firstn_app_map {A B} (f : A -> B) (l1 : list A) (k : nat) (l2 : list B) :
  firstn (List.length l1 + k) (map f l1 ++ l2) = map f l1 ++ firstn k l2.
Proof. rewrite <- (length_map f l1) at 1. apply firstn_app_2. Qed.

Lemma outer_loop_prefix entries :
  forall st, exists k,
    k <= List.length (allPairs entries)
    /\ fst (Outer entries st)
       = mkState (linksToInsert st ++ Emitted (firstn k (allPairs entries)))
                 (comparisons st + k)
    /\ (snd (Outer entries st) = Normal tt ->
        k < List.length (allPairs entries) ->
        Cap (List.length
               (linksToInsert st ++ Emitted (firstn k (allPairs entries))))
        = true)
    /\ (Cap (List.length (linksToInsert st)) = false ->
        forall j, j < k ->
          Cap (List.length
                 (linksToInsert st ++ Emitted (firstn j (allPairs entries))))
          = false).
Proof.
  induction entries as [|e1 rest IH]; intros st.
  - exists 0. cbn. rewrite app_nil_r, Nat.add_0_r.
    destruct st; repeat split; [lia | lia | lia].
  - cbn [outer_loop allPairs].
    destruct (inner_loop_prefix e1 rest st) as (k1 & Hk1 & Heq1 & Hlt1 & Hall1).
    rewrite length_app, length_map.
    assert (Hbefore :
              Cap (List.length (linksToInsert st)) = false ->
              forall j, j < k1 ->
                Cap (List.length
                       (linksToInsert st
                        ++ Emitted (firstn j (map (pair e1) rest ++ allPairs rest))))
                = false).
    { intros H0 j Hj.
      rewrite firstn_app_le by (rewrite length_map; lia).
      apply Hall1; assumption. }
    destruct (Inner e1 rest st) as [st1 [u|e]]; cbn [fst snd] in Heq1, Hlt1;
      subst st1.
    2:{ exists k1. cbn [fst snd].
        rewrite firstn_app_le by (rewrite length_map; exact Hk1).
        repeat split; [lia | discriminate | exact Hbefore]. }
    destruct u. specialize (Hlt1 eq_refl).
    cbn [linksToInsert comparisons].
    destruct (js_ge StringToNumber ToPrimitive
                (of_length
                   (List.length
                      (linksToInsert st ++ Emitted (firstn k1 (map (pair e1) rest)))))
                maxLinks) as [[|]|e] eqn:Htest.
    + exists k1. cbn [fst snd].
      rewrite firstn_app_le by (rewrite length_map; exact Hk1).
      repeat split; [lia | intros _ _; apply (cap_test _ _ Htest) | exact Hbefore].
    + apply cap_test in Htest.
      assert (k1 = List.length rest) as ->.
      { destruct (Nat.eq_dec k1 (List.length rest)) as [|Hne]; [assumption|].
        rewrite Hlt1 in Htest by lia. discriminate. }
      clear Hlt1.
      rewrite firstn_all2 in * by (rewrite length_map; lia).
      destruct (IH (mkState (linksToInsert st ++ Emitted (map (pair e1) rest))
                            (comparisons st + List.length rest)))
        as (k2 & Hk2 & Heq2 & Hlt2 & Hall2).
      cbn [linksToInsert comparisons] in *.
      exists (List.length rest + k2).
      rewrite firstn_app_map, emitted_app, app_assoc, Heq2.
      repeat split;
        [lia | f_equal; lia | intros Hn H; apply Hlt2; [exact Hn | lia] |].
      intros H0 j Hj.
      destruct (Nat.lt_ge_cases j (List.length rest)) as [Hj1|Hj1].
      * apply Hbefore; assumption.
      * replace j with (List.length rest + (j - List.length rest)) by lia.
        rewrite firstn_app_map, emitted_app, app_assoc.
        apply Hall2; [exact Htest | lia].
    + exists k1. cbn [fst snd].
      rewrite firstn_app_le by (rewrite length_map; exact Hk1).
      repeat split; [lia | discriminate | exact Hbefore].
Qed.

Lemma outer_loop_completion entries :
  forall st,
    (forall e, snd (Outer entries st) = Throw e ->
       ToNumber minSimilarity = Throw e \/ ToNumber maxLinks = Throw e)
    /\ (forall a b,
          ToNumber minSimilarity = Normal a -> ToNumber maxLinks = Normal b ->
          snd (Outer entries st) = Normal tt).
Proof.
  induction entries as [|e1 rest IH]; intros st.
  - cbn. split; [discriminate | reflexivity].
  - cbn [outer_loop].
    destruct (inner_loop_completion e1 rest st) as (He & Hn).
    destruct (Inner e1 rest st) as [st1 [u|e]]; cbn [fst snd] in He, Hn.
    2:{ cbn [snd]. split; [exact He|].
        intros a b Ha Hb. specialize (Hn a b Ha Hb). discriminate. }
    destruct (js_ge StringToNumber ToPrimitive
                (of_length (List.length (linksToInsert st1))) maxLinks)
      as [[|]|e] eqn:Htest.
    + cbn. split; [discriminate | reflexivity].
    + apply IH.
    + cbn [snd]. apply cap_test_throws in Htest. split.
      * intros e' H. right. congruence.
      * intros a b _ Hb. congruence.
Qed.

(** The loops compare a prefix of [allPairs], whose length is the counter
    [comparisons], and collect the candidates of that prefix.  When they
    end, they have stopped before the last pair only if the cap test
    holds; and when no candidate at all does not already satisfy the cap
    test, no pair is compared once the test holds. *)
Lemma buildLinks_prefix entries :
  let st := fst (Build entries) in
  comparisons st <= List.length (allPairs entries)
  /\ linksToInsert st = Emitted (firstn (comparisons st) (allPairs entries))
  /\ (snd (Build entries) = Normal tt ->
      comparisons st < List.length (allPairs entries) ->
      Cap (List.length (linksToInsert st)) = true)
  /\ (Cap 0 = false ->
      forall j, j < comparisons st ->
        Cap (List.length (Emitted (firstn j (allPairs entries)))) = false).
Proof.
  unfold buildLinks.
  destruct (outer_loop_prefix entries (mkState [] 0))
    as (k & Hk & Heq & Hlt & Hall).
  rewrite Heq. cbn [linksToInsert comparisons app Nat.add] in *.
  repeat split; assumption.
Qed.

(** The loops throw only what the conversion of an option throws, and end
    when both options can be converted. *)
Lemma buildLinks_completion entries :
  (forall e, snd (Build entries) = Throw e ->
     ToNumber minSimilarity = Throw e \/ ToNumber maxLinks = Throw e)
  /\ (forall a b,
        ToNumber minSimilarity = Normal a -> ToNumber maxLinks = Normal b ->
        snd (Build entries) = Normal tt).
Proof. apply outer_loop_completion. Qed.

(** When they end with the cap test false, the loops have compared every
    pair. *)
Lemma buildLinks_all entries :
  let st := fst (Build entries) in
  snd (Build entries) = Normal tt ->
  Cap (List.length (linksToInsert st)) = false ->
  comparisons st = List.length (allPairs entries)
  /\ linksToInsert st = Emitted (allPairs entries).
Proof.
  intros st Hn Hcap.
  destruct (buildLinks_prefix entries) as (Hk & Hlinks & Hstop & _).
  fold st in Hk, Hlinks, Hstop.
  assert (Hall : comparisons st = List.length (allPairs entries)).
  { destruct (Nat.eq_dec (comparisons st) (List.length (allPairs entries)))
      as [|Hne]; [assumption|].
    rewrite Hstop in Hcap by (assumption || lia). discriminate. }
  split; [exact Hall|]. rewrite Hlinks, Hall, firstn_all. reflexivity.
Qed.

Lemma candidate_strength p :
  exists q, link_strength (candidate userId p) = Num q /\ (0 <= q <= 1)%Q.
Proof.
  unfold candidate, bonus. cbn [link_strength].
  destruct (similarity_finite (keywords (fst p)) (keywords (snd p)))
    as (q & -> & Hq).
  destruct (strict_eq _ _); cbn [num_add num_min];
    match goal with
    | |- context [Qle_bool ?x 1] =>
        destruct (Qle_bool x 1) eqn:Hle; eexists; (split; [reflexivity|])
    end;
    try (apply Qle_bool_iff in Hle; split; [|exact Hle]);
    try (split; [discriminate | apply Qle_refl]).
  - apply (Qle_trans _ (q + 0)); [rewrite Qplus_0_r; exact Hq|].
    apply Qplus_le_r. discriminate.
  - rewrite Qplus_0_r. exact Hq.
Qed.

(** The cap test for a cap that denotes the positive integer [m]. *)
Lemma cap_reached_nat (m : nat) (q : Q) (n : nat) :
  ToNumber maxLinks = Normal (Num q) ->
  (q == inject_Z (Z.of_nat m))%Q ->
  Cap n = (m <=? n).
Proof.
  intros Hnum Hq. rewrite (cap_number _ n Hnum). unfold of_length.
  cbn [num_ge].
  destruct (Nat.leb_spec m n) as [Hle|Hlt].
  - apply Qle_bool_iff. rewrite Hq, <- Zle_Qle. lia.
  - destruct (Qle_bool q (inject_Z (Z.of_nat n))) eqn:E; [|reflexivity].
    apply Qle_bool_iff in E. rewrite Hq, <- Zle_Qle in E. lia.
Qed.

Lemma firstn_succ_emitted pairs j :
  List.length (Emitted (firstn (S j) pairs))
  <= S (List.length (Emitted (firstn j pairs))).
Proof.
  revert j. induction pairs as [|p pairs IH]; intros j.
  - rewrite !firstn_nil. cbn. lia.
  - destruct j as [|j].
    + rewrite firstn_cons, !firstn_0.
      pose proof (emitted_one_length p). lia.
    + rewrite !firstn_cons.
      change (p :: firstn (S j) pairs) with ([p] ++ firstn (S j) pairs).
      change (p :: firstn j pairs) with ([p] ++ firstn j pairs).
      rewrite !emitted_app, !length_app. specialize (IH j). lia.
Qed.

(** C1. The candidates are those of the compared pairs that pass the gate,
    one for each and in the order of the comparisons; the compared pairs
    are the first [comparisons] pairs in iteration order.  When the two
    options can be converted, the loops end without throwing, they leave a
    pair uncompared only once the cap test holds, and when the cap test is
    false at the end every pair has been compared: a pair then has its
    candidate in the list if and only if it passes the gate.  The gate
    tests the similarity that [calculateSimilarity] returns, before any
    bonus, against the number the threshold converts to, and the number of
    shared keywords; a threshold that cannot be converted lets no pair
    through; the bonus enters the strength of a candidate only. *)
Theorem candidate_iff_gate :
  forall entries : list EntryWithKeywords,
    let st := fst (Build entries) in
    let compared := firstn (comparisons st) (allPairs entries) in
    linksToInsert st = map (candidate userId) (filter Gate compared)
    /\ (forall a b,
          ToNumber minSimilarity = Normal a ->
          ToNumber maxLinks = Normal b ->
          snd (Build entries) = Normal tt
          /\ (comparisons st < List.length (allPairs entries) ->
              num_ge (of_length (List.length (linksToInsert st))) b = true)
          /\ (num_ge (of_length (List.length (linksToInsert st))) b = false ->
              compared = allPairs entries
              /\ linksToInsert st
                 = map (candidate userId) (filter Gate (allPairs entries))))
    /\ (forall a e1 e2,
          ToNumber minSimilarity = Normal a ->
          (Gate (e1, e2) = true
           <-> num_ge (similarity (calculateSimilarity (keywords e1) (keywords e2)))
                      a = true
               /\ 2 <= List.length
                         (sharedKeywords
                            (calculateSimilarity (keywords e1) (keywords e2)))))
    /\ (forall e,
          ToNumber minSimilarity = Throw e ->
          (forall p, Gate p = false) /\ linksToInsert st = [])
    /\ (forall e1 e2,
          link_strength (candidate userId (e1, e2))
          = num_min
              (num_add
                 (similarity (calculateSimilarity (keywords e1) (keywords e2)))
                 (if strict_eq (Entry.category (entry e1))
                               (Entry.category (entry e2))
                  then Num (1 # 10) else Num 0))
              (Num 1)).
Proof.
  intros entries st compared.
  destruct (buildLinks_prefix entries) as (Hk & Hlinks & Hstop & _).
  fold st in Hk, Hlinks, Hstop.
  split; [exact Hlinks|]. split; [|split; [|split]].
  - intros a b Ha Hb.
    pose proof (proj2 (buildLinks_completion entries) a b Ha Hb) as Hn.
    split; [exact Hn|]. split.
    + intros Hlt. rewrite <- (cap_number b _ Hb). apply Hstop; assumption.
    + intros Hcap. rewrite <- (cap_number b _ Hb) in Hcap.
      destruct (buildLinks_all entries Hn Hcap) as [Hall Heq].
      fold st in Hall, Heq. split; [|exact Heq].
      unfold compared. rewrite Hall. apply firstn_all.
  - intros a e1 e2 Ha. rewrite (gate_number a (e1, e2) Ha). cbn [fst snd].
    rewrite andb_true_iff, Nat.leb_le. reflexivity.
  - intros e He. split; [intros p; apply (gate_throws e p He)|].
    rewrite Hlinks. apply (emitted_throws e _ He).
  - reflexivity.
Qed.

(** C3. Every candidate has a finite strength between 0 and 1. *)
Theorem linkStrength_in_unit_interval :
  forall entries : list EntryWithKeywords,
    Forall (fun link =>
              exists q, link_strength link = Num q /\ (0 <= q <= 1)%Q)
           (linksToInsert (fst (Build entries))).
Proof.
  intros entries.
  destruct (buildLinks_prefix entries) as (_ & -> & _).
  unfold emitted. apply Forall_map, Forall_forall.
  intros p _. apply candidate_strength.
Qed.

(** C5. For a cap that is a positive integer [m]: there are at most [m]
    candidates; they are the first [m] of the candidates that all pairs
    would give in iteration order; no pair is compared once [m]
    candidates are held; and loops that end have left a pair uncompared
    only with [m] candidates held. *)
Theorem cap_truncates_by_iteration_order :
  forall (entries : list EntryWithKeywords) (m : nat) (q : Q),
    ToNumber maxLinks = Normal (Num q) ->
    (q == inject_Z (Z.of_nat m))%Q ->
    1 <= m ->
    let st := fst (Build entries) in
    List.length (linksToInsert st) <= m
    /\ linksToInsert st = firstn m (Emitted (allPairs entries))
    /\ (forall j, j < comparisons st ->
          List.length (Emitted (firstn j (allPairs entries))) < m)
    /\ (snd (Build entries) = Normal tt ->
        comparisons st < List.length (allPairs entries) ->
        List.length (linksToInsert st) = m)
    /\ (forall a, ToNumber minSimilarity = Normal a ->
                  snd (Build entries) = Normal tt).
Proof.
  intros entries m q Hnum Hq Hm st.
  destruct (buildLinks_prefix entries) as (Hk & Hlinks & Hstop & Hrun).
  fold st in Hk, Hlinks, Hstop, Hrun.
  assert (Hbefore : forall j, j < comparisons st ->
            List.length (Emitted (firstn j (allPairs entries))) < m).
  { intros j Hj.
    assert (Hc : Cap (List.length (Emitted (firstn j (allPairs entries)))) = false).
    { apply Hrun; [|exact Hj].
      rewrite (cap_reached_nat m q 0 Hnum Hq). apply Nat.leb_gt. lia. }
    rewrite (cap_reached_nat m q _ Hnum Hq) in Hc. apply Nat.leb_gt in Hc.
    exact Hc. }
  assert (Hle : List.length (linksToInsert st) <= m).
  { rewrite Hlinks. destruct (comparisons st) as [|c] eqn:Ec.
    - cbn. lia.
    - pose proof (firstn_succ_emitted (allPairs entries) c).
      pose proof (Hbefore c (Nat.lt_succ_diag_r c)). lia. }
  assert (Hfull : snd (Build entries) = Normal tt ->
                  comparisons st < List.length (allPairs entries) ->
                  List.length (linksToInsert st) = m).
  { intros Hn Hlt. specialize (Hstop Hn Hlt).
    rewrite (cap_reached_nat m q _ Hnum Hq) in Hstop.
    apply Nat.leb_le in Hstop. lia. }
  split; [exact Hle|]. split; [|split; [exact Hbefore|split; [exact Hfull|]]].
  - destruct (snd (Build entries)) as [[]|e] eqn:Hc.
    + rewrite <- (firstn_skipn (comparisons st) (allPairs entries)) at 1.
      rewrite emitted_app, <- Hlinks.
      destruct (Nat.eq_dec (comparisons st) (List.length (allPairs entries)))
        as [Heq|Hne].
      * rewrite Heq, skipn_all. cbn. rewrite app_nil_r.
        symmetry. apply firstn_all2. exact Hle.
      * rewrite <- (Hfull eq_refl ltac:(lia)).
        rewrite firstn_app, Nat.sub_diag, firstn_all. cbn.
        symmetry. apply app_nil_r.
    + destruct (proj1 (buildLinks_completion entries) e Hc) as [He|He];
        [|congruence].
      rewrite Hlinks, !(emitted_throws e _ He). symmetry. apply firstn_nil.
  - intros a Ha. apply (proj2 (buildLinks_completion entries) a (Num q) Ha Hnum).
Qed.

End LoopProperties.

(* ===================================================================== *)
(** ** The batches *)
(* ===================================================================== *)

Lemma persist_from_done upsert links i insertedCount calls :
  List.length links <= i ->
  persist_from upsert links i insertedCount calls = (Finished insertedCount, calls).
Proof.
  intros H. rewrite persist_from_equation_1.
  destruct (lt_dec i (List.length links)); [lia | reflexivity].
Qed.

Lemma persist_from_written upsert links i insertedCount calls :
  i < List.length links ->
  upsert i (slice i (i + batchSize) links) = None ->
  persist_from upsert links i insertedCount calls
  = persist_from upsert links (i + batchSize)
      (insertedCount + List.length (slice i (i + batchSize) links))
      (calls ++ [slice i (i + batchSize) links]).
Proof.
  intros H E. etransitivity; [apply persist_from_equation_1|].
  destruct (lt_dec i (List.length links)); [|lia].
  cbn. rewrite E. reflexivity.
Qed.

Lemma persist_from_failed upsert links i insertedCount calls error :
  i < List.length links ->
  upsert i (slice i (i + batchSize) links) = Some error ->
  table_missing error = false ->
  persist_from upsert links i insertedCount calls
  = persist_from upsert links (i + batchSize) insertedCount
      (calls ++ [slice i (i + batchSize) links]).
Proof.
  intros H E Hm. etransitivity; [apply persist_from_equation_1|].
  destruct (lt_dec i (List.length links)); [|lia].
  cbn. rewrite E. cbn. rewrite Hm. reflexivity.
Qed.

Lemma persist_from_missing upsert links i insertedCount calls error :
  i < List.length links ->
  upsert i (slice i (i + batchSize) links) = Some error ->
  table_missing error = true ->
  exists r,
    persist_from upsert links i insertedCount calls
    = (Returned r, calls ++ [slice i (i + batchSize) links])
    /\ status r = 500.
Proof.
  intros H E Hm. rewrite persist_from_equation_1.
  destruct (lt_dec i (List.length links)); [|lia].
  cbn. rewrite E. cbn. rewrite Hm. eexists. split; reflexivity.
Qed.

Lemma batch_count_gt (n k : nat) : k < batch_count n <-> k * batchSize < n.
Proof.
  unfold batch_count, batchSize. cbn [Nat.sub]. split; intros H.
  - destruct (Nat.lt_ge_cases (k * 100) n) as [|Hge]; [assumption|].
    assert ((n + 99) / 100 < S k); [|lia].
    apply Nat.Div0.div_lt_upper_bound. lia.
  - apply (Nat.div_le_lower_bound (n + 99) 100 (S k)); lia.
Qed.

Lemma batch_at_length links k :
  List.length (batch_at links k)
  = Nat.min batchSize (List.length links - k * batchSize).
Proof.
  unfold batch_at, slice. rewrite length_firstn, length_skipn. f_equal. lia.
Qed.

(** With transient errors only, the loop entered at batch [k0] sends every
    remaining batch and counts the rows of those written. *)
Lemma persist_from_transient upsert links :
  (forall i batch error, upsert i batch = Some error -> table_missing error = false) ->
  forall n k0 insertedCount calls,
    n = batch_count (List.length links) - k0 ->
    persist_from upsert links (k0 * batchSize) insertedCount calls
    = (Finished
         (insertedCount
          + list_sum (map (fun k => List.length (batch_at links k))
                          (filter (batch_ok upsert links) (seq k0 n)))),
       calls ++ map (batch_at links) (seq k0 n)).
Proof.
  intros Htransient. induction n as [|n IH]; intros k0 insertedCount calls Hn.
  - rewrite persist_from_done.
    + cbn. rewrite Nat.add_0_r, app_nil_r. reflexivity.
    + pose proof (batch_count_gt (List.length links) k0). lia.
  - assert (Hlt : k0 * batchSize < List.length links).
    { apply batch_count_gt. lia. }
    cbn [seq filter map]. unfold batch_ok at 1.
    change (batch_at links k0)
      with (slice (k0 * batchSize) (k0 * batchSize + batchSize) links).
    destruct (upsert (k0 * batchSize)
                (slice (k0 * batchSize) (k0 * batchSize + batchSize) links))
      as [error|] eqn:E.
    + rewrite (persist_from_failed _ _ _ _ _ error Hlt E (Htransient _ _ _ E)).
      pose proof (fun c l => IH (S k0) c l ltac:(lia)) as IH'.
      rewrite Nat.mul_succ_l in IH'. rewrite IH'.
      rewrite <- app_assoc. reflexivity.
    + rewrite (persist_from_written _ _ _ _ _ Hlt E).
      pose proof (fun c l => IH (S k0) c l ltac:(lia)) as IH'.
      rewrite Nat.mul_succ_l in IH'. rewrite IH'.
      cbn [map list_sum fold_right]. rewrite <- app_assoc, Nat.add_assoc. reflexivity.
Qed.

Lemma list_sum_filter_le {A} (f : A -> nat) (p : A -> bool) (l : list A) :
  list_sum (map f (filter p l)) <= list_sum (map f l).
Proof.
  unfold list_sum.
  induction l as [|x l IH]; cbn; [lia|]. destruct (p x); cbn; lia.
Qed.

Lemma list_sum_filter_lt {A} (f : A -> nat) (p : A -> bool) (l : list A) (x : A) :
  In x l -> p x = false -> 0 < f x ->
  list_sum (map f (filter p l)) < list_sum (map f l).
Proof.
  intros Hin Hp Hf. induction l as [|y l IH]; [contradiction|].
  pose proof (list_sum_filter_le f p l) as Hle.
  unfold list_sum in *. cbn. destruct Hin as [->|Hin].
  - rewrite Hp. lia.
  - specialize (IH Hin). destruct (p y); cbn; lia.
Qed.

Lemma batches_total links :
  forall n k0,
    n = batch_count (List.length links) - k0 ->
    list_sum (map (fun k => List.length (batch_at links k)) (seq k0 n))
    = List.length links - k0 * batchSize.
Proof.
  induction n as [|n IH]; intros k0 Hn.
  - pose proof (batch_count_gt (List.length links) k0). cbn. lia.
  - assert (Hlt : k0 * batchSize < List.length links).
    { apply batch_count_gt. lia. }
    cbn [seq map list_sum fold_right].
    change (fold_right Nat.add 0 ?l) with (list_sum l). rewrite (IH (S k0)) by lia.
    rewrite batch_at_length. cbn [Nat.mul]. lia.
Qed.

Lemma rows_written_le upsert links :
  rows_written upsert links <= List.length links.
Proof.
  unfold rows_written.
  rewrite <- (Nat.sub_0_r (List.length links)) at 2.
  change 0 with (0 * batchSize).
  rewrite <- (batches_total links (batch_count (List.length links)) 0) by lia.
  apply list_sum_filter_le.
Qed.

(** A batch that fails keeps the count of written rows strictly below the
    number of candidates. *)
Lemma rows_written_lt upsert links k :
  k < batch_count (List.length links) ->
  batch_ok upsert links k = false ->
  rows_written upsert links < List.length links.
Proof.
  intros Hk Hfail. unfold rows_written.
  rewrite <- (Nat.sub_0_r (List.length links)) at 2.
  change 0 with (0 * batchSize).
  rewrite <- (batches_total links (batch_count (List.length links)) 0) by lia.
  apply (list_sum_filter_lt _ _ _ k).
  - apply in_seq. lia.
  - exact Hfail.
  - rewrite batch_at_length. apply batch_count_gt in Hk.
    unfold batchSize in *. lia.
Qed.

Lemma persist_all_transient upsert links :
  (forall i batch error, upsert i batch = Some error -> table_missing error = false) ->
  persist_from upsert links 0 0 []
  = (Finished (rows_written upsert links), batches links).
Proof.
  intros H.
  apply (persist_from_transient upsert links H
           (batch_count (List.length links)) 0 0 []).
  lia.
Qed.

(* ===================================================================== *)
(** ** The handler *)
(* ===================================================================== *)

Section HandlerProperties.

Variable StringToNumber : string -> number.
Variable ToPrimitive : value -> Completion string.

Local Abbreviation GenerateLinks := (generateLinks StringToNumber ToPrimitive).
Local Abbreviation Candidates := (candidates_of StringToNumber ToPrimitive).

Lemma map_completion_keywords (entries : list Entry.t) :
  map_completion
    (fun entry =>
       keywords <- extractKeywords (Entry.summary_json entry) ;;
       Normal (withKeywords entry keywords))
    entries
  = Normal (with_keywords entries).
Proof.
  induction entries as [|e entries IH]; cbn [map_completion]; [reflexivity|].
  rewrite extractKeywords_keywords_of, IH. reflexivity.
Qed.

(** The run of the handler once the rows are fetched, when the loops end. *)
Lemma generateLinks_rows supabase user minSimilarity maxLinks entries :
  select_knowledgebase supabase (User.id user) = (Some entries, None) ->
  entries <> [] ->
  snd (buildLinks StringToNumber ToPrimitive (User.id user)
                  minSimilarity maxLinks (with_keywords entries)) = Normal tt ->
  GenerateLinks supabase user minSimilarity maxLinks
  = let st := fst (buildLinks StringToNumber ToPrimitive (User.id user)
                              minSimilarity maxLinks (with_keywords entries)) in
    let (persisted, calls) :=
      if 0 <? List.length (linksToInsert st)
      then persist_from (upsert supabase) (linksToInsert st) 0 0 []
      else (Finished 0, []) in
    match persisted with
    | Returned r => Normal (mkRun r (comparisons st) calls)
    | Finished insertedCount =>
        Normal
          (mkRun
             (mkResponse 200
                (Object
                   [("success", Boolean true);
                    ("linksCreated", Number (of_length insertedCount));
                    ("totalEntries", Number (of_length (List.length entries)));
                    ("comparisons", Number (of_length (comparisons st)));
                    ("message",
                     Str ("Successfully generated " ++ show_nat insertedCount
                          ++ " connections from "
                          ++ show_nat (List.length entries) ++ " entries")%string)]))
             (comparisons st) calls)
    end.
Proof.
  intros Hsel Hne Hloops. unfold generateLinks. rewrite Hsel.
  destruct entries as [|e entries]; [contradiction|].
  cbn [List.length Nat.eqb].
  rewrite map_completion_keywords. cbn [before_loops bind].
  destruct (buildLinks _ _ _ _ _ _) as [st [u|err]]; cbn [fst snd] in *;
    [reflexivity | discriminate].
Qed.

(** The run of the handler once the rows are fetched, when the loops
    throw: the error is thrown on, and no batch is written. *)
Lemma generateLinks_thrown supabase user minSimilarity maxLinks entries error :
  select_knowledgebase supabase (User.id user) = (Some entries, None) ->
  entries <> [] ->
  snd (buildLinks StringToNumber ToPrimitive (User.id user)
                  minSimilarity maxLinks (with_keywords entries)) = Throw error ->
  GenerateLinks supabase user minSimilarity maxLinks
  = Throw (raise error
             (comparisons
                (fst (buildLinks StringToNumber ToPrimitive (User.id user)
                                 minSimilarity maxLinks (with_keywords entries))))).
Proof.
  intros Hsel Hne Hloops. unfold generateLinks. rewrite Hsel.
  destruct entries as [|e entries]; [contradiction|].
  cbn [List.length Nat.eqb].
  rewrite map_completion_keywords. cbn [before_loops bind].
  destruct (buildLinks _ _ _ _ _ _) as [st [u|err]]; cbn [fst snd] in *;
    [discriminate | congruence].
Qed.

(** C8. With no row for the owner, the handler answers with the success
    result of the empty case, having compared no pair and written no
    batch; it does not throw. *)
Theorem no_entries_success :
  forall (supabase : Supabase) (user : User.t) (minSimilarity maxLinks : value),
    select_knowledgebase supabase (User.id user) = (Some [], None)
    \/ select_knowledgebase supabase (User.id user) = (None, None) ->
    GenerateLinks supabase user minSimilarity maxLinks
    = Normal
        {| response :=
             {| status := 200;
                json := Object [("success", Boolean true);
                                ("linksCreated", Number (Num 0));
                                ("message", Str "No knowledge base entries found")] |};
           similarity_calls := 0;
           upsert_calls := [] |}.
Proof.
  intros supabase user minSimilarity maxLinks [H|H];
    unfold generateLinks; rewrite H; reflexivity.
Qed.

(** C9. Once the loops have ended, which they do when the two options can
    be converted, and when every storage error is transient, each batch of
    the candidate list is sent, in order; the handler answers with a
    success result and does not throw; [linksCreated] is the number of
    rows of the batches that were written, which is below the number of
    candidates as soon as one batch failed. *)
Theorem transient_failures_continue :
  forall (supabase : Supabase) (user : User.t) (minSimilarity maxLinks : value)
         (entries : list Entry.t) (threshold cap : number),
    select_knowledgebase supabase (User.id user) = (Some entries, None) ->
    entries <> [] ->
    toNumber StringToNumber ToPrimitive minSimilarity = Normal threshold ->
    toNumber StringToNumber ToPrimitive maxLinks = Normal cap ->
    (forall i batch error,
        upsert supabase i batch = Some error -> table_missing error = false) ->
    let links := Candidates user minSimilarity maxLinks entries in
    exists run,
      GenerateLinks supabase user minSimilarity maxLinks = Normal run
      /\ upsert_calls run = batches links
      /\ status (response run) = 200
      /\ getOptional (json (response run)) "success" = Boolean true
      /\ getOptional (json (response run)) "linksCreated"
         = Number (of_length (rows_written (upsert supabase) links))
      /\ rows_written (upsert supabase) links <= List.length links
      /\ (forall k,
            k < batch_count (List.length links) ->
            batch_ok (upsert supabase) links k = false ->
            rows_written (upsert supabase) links < List.length links).
Proof.
  intros supabase user minSimilarity maxLinks entries threshold cap
         Hsel Hne Hmin Hmax Htransient links.
  pose proof (proj2 (buildLinks_completion StringToNumber ToPrimitive
                       (User.id user) minSimilarity maxLinks
                       (with_keywords entries)) threshold cap Hmin Hmax)
    as Hloops.
  rewrite (generateLinks_rows _ _ _ _ _ Hsel Hne Hloops). cbv zeta.
  fold (Candidates user minSimilarity maxLinks entries). fold links.
  destruct (0 <? List.length links) eqn:Hlen.
  - rewrite (persist_all_transient _ _ Htransient).
    eexists. split; [reflexivity|].
    repeat split; [apply rows_written_le | apply rows_written_lt].
  - apply Nat.ltb_ge in Hlen.
    assert (links = []) as -> by (destruct links; [reflexivity | cbn in Hlen; lia]).
    eexists. split; [reflexivity|].
    repeat split; [apply rows_written_le | apply rows_written_lt].
Qed.

(** A candidate list that fits one batch is handed to [upsert] once and
    whole, whatever the storage answers. *)
Lemma generateLinks_single_batch supabase user minSimilarity maxLinks entries :
  select_knowledgebase supabase (User.id user) = (Some entries, None) ->
  entries <> [] ->
  snd (buildLinks StringToNumber ToPrimitive (User.id user)
                  minSimilarity maxLinks (with_keywords entries)) = Normal tt ->
  let links := Candidates user minSimilarity maxLinks entries in
  0 < List.length links <= batchSize ->
  exists run,
    GenerateLinks supabase user minSimilarity maxLinks = Normal run
    /\ upsert_calls run = [links]
    /\ similarity_calls run
       = comparisons
           (fst (buildLinks StringToNumber ToPrimitive (User.id user)
                            minSimilarity maxLinks (with_keywords entries))).
Proof.
  intros Hsel Hne Hloops links [Hpos Hfit].
  rewrite (generateLinks_rows _ _ _ _ _ Hsel Hne Hloops). cbv zeta.
  fold (Candidates user minSimilarity maxLinks entries). fold links.
  apply Nat.ltb_lt in Hpos as Hpos'. rewrite Hpos'.
  assert (Hslice : slice 0 (0 + batchSize) links = links).
  { unfold slice. cbn [Nat.add skipn]. rewrite Nat.sub_0_r.
    apply firstn_all2. exact Hfit. }
  destruct (upsert supabase 0 (slice 0 (0 + batchSize) links)) as [error|] eqn:E.
  - destruct (table_missing error) eqn:Hm.
    + destruct (persist_from_missing _ _ 0 0 [] error Hpos E Hm) as (r & -> & _).
      rewrite Hslice. eexists. repeat split.
    + rewrite (persist_from_failed _ _ 0 0 [] error Hpos E Hm).
      rewrite persist_from_done by (cbn; exact Hfit).
      rewrite Hslice. eexists. repeat split.
  - rewrite (persist_from_written _ _ 0 0 [] Hpos E).
    rewrite persist_from_done by (cbn; exact Hfit).
    rewrite Hslice. eexists. repeat split.
Qed.

(** C6. The worked example: two entries of category "Technology" whose
    key points are the two sentences of the specification, requested
    with no option, so with the default threshold and cap.  One pair is
    compared and one candidate is written, from A to B, with the shared
    keywords in the order of A and a strength of 3/7 + 1/10. *)
Theorem example_link_A_B :
  forall (user : User.t) (idA idB : string) (titleA titleB : option string)
         (upsertFn : nat -> list Link -> option JsError)
         (c : ascii) (header : string),
    let supabase :=
      mkSupabase (fun _ => (Some user, None))
                 (fun _ => (Some [example_A idA titleA; example_B idB titleB], None))
                 upsertFn in
    extractKeywords (Entry.summary_json (example_A idA titleA))
    = Normal ["machine"; "learning"; "models"; "require"; "training"]
    /\ extractKeywords (Entry.summary_json (example_B idB titleB))
       = Normal ["training"; "machine"; "learning"; "systems"; "needs"]
    /\ exists run q,
        POST StringToNumber ToPrimitive (fun _ => supabase)
             (mkRequest (Some (String c header)) (Some (Object [])))
        = Normal run
        /\ upsert_calls run
           = [[ {| user_id := User.id user;
                   source_kb_id := idA;
                   target_kb_id := idB;
                   link_type := "auto";
                   link_strength := Num q;
                   shared_keywords := ["machine"; "learning"; "training"] |} ]]
        /\ (q == (3 # 7) + (1 # 10))%Q
        /\ similarity_calls run = 1.
Proof.
  intros user idA idB titleA titleB upsertFn c header supabase.
  split; [vm_compute; reflexivity|]. split; [vm_compute; reflexivity|].
  assert (Hlinks :
            Candidates user (Number (Num (15 # 100))) (Number (Num 1000))
                       [example_A idA titleA; example_B idB titleB]
            = [ {| user_id := User.id user;
                   source_kb_id := idA;
                   target_kb_id := idB;
                   link_type := "auto";
                   link_strength := Num (37 # 70);
                   shared_keywords := ["machine"; "learning"; "training"] |} ]).
  { vm_compute. reflexivity. }
  destruct (generateLinks_single_batch supabase user
              (Number (Num (15 # 100))) (Number (Num 1000))
              [example_A idA titleA; example_B idB titleB]
              eq_refl ltac:(discriminate))
    as (run & Hrun & Hcalls & Hcmp).
  { vm_compute. reflexivity. }
  { rewrite Hlinks. cbn. unfold batchSize. lia. }
  exists run, (37 # 70)%Q.
  split; [|split; [rewrite Hcalls, Hlinks; reflexivity|split; [reflexivity|]]].
  - unfold POST, POST_body.
    cbn [authorization json_body String.eqb getUser].
    change (option_minSimilarity (Object []))
      with (@Normal JsError value (Number (Num (15 # 100)))).
    change (option_maxLinks (Object []))
      with (@Normal JsError value (Number (Num 1000))).
    cbn [before_loops bind template].
    change (getUser supabase (replace_first (String c header) "Bearer " ""))
      with (Some user, @None JsError).
    cbv iota beta. rewrite Hrun. reflexivity.
  - rewrite Hcmp. vm_compute. reflexivity.
Qed.

End HandlerProperties.

(** The handler always answers: what its body throws is turned into a
    response by the outer [catch]. *)
Lemma POST_returns StringToNumber ToPrimitive createClient request :
  exists run, POST StringToNumber ToPrimitive createClient request = Normal run.
Proof.
  unfold POST, try_catch.
  destruct (POST_body StringToNumber ToPrimitive createClient request); eauto.
Qed.

(** The response of the outer [catch] to what the body throws. *)
Lemma POST_catch StringToNumber ToPrimitive createClient request thrown :
  POST_body StringToNumber ToPrimitive createClient request = Throw thrown ->
  POST StringToNumber ToPrimitive createClient request
  = Normal
      (mkRun
         (mkResponse 500
            (Object
               [("error", Str "Failed to generate links");
                ("details",
                 if is_Error (raised thrown)
                 then value_of_message (err_message (raised thrown))
                 else Str "Unknown error")]))
         (calls_before thrown) []).
Proof. intros H. unfold POST. rewrite H. reflexivity. Qed.

(** For a request that carries a token the storage accepts and a body whose
    options can be read, the threshold being one that can be written in
    the logged message, the handler is [generateLinks] under the outer
    [catch]. *)
Lemma POST_generateLinks StringToNumber ToPrimitive createClient request
      header user minSimilarity maxLinks :
  authorization request = Some header ->
  header <> EmptyString ->
  getUser (createClient (replace_first header "Bearer " ""))
          (replace_first header "Bearer " "") = (Some user, None) ->
  option_minSimilarity
    (match json_body request with Some b => b | None => Object [] end)
  = Normal minSimilarity ->
  option_maxLinks
    (match json_body request with Some b => b | None => Object [] end)
  = Normal maxLinks ->
  template ToPrimitive minSimilarity = Normal tt ->
  POST_body StringToNumber ToPrimitive createClient request
  = generateLinks StringToNumber ToPrimitive
                  (createClient (replace_first header "Bearer " ""))
                  user minSimilarity maxLinks.
Proof.
  intros Hauth Hne Huser Hmin Hmax Htemplate. unfold POST_body.
  rewrite Hauth.
  destruct (String.eqb_spec header ""); [contradiction|].
  cbv zeta. rewrite Huser, Hmin. cbn [before_loops bind]. rewrite Hmax.
  cbn [before_loops bind]. rewrite Htemplate. reflexivity.
Qed.

Section OptionProperties.

Variable StringToNumber : string -> number.
Variable ToPrimitive : value -> Completion string.

Local Abbreviation ToNumber := (toNumber StringToNumber ToPrimitive).


End OptionProperties.

(* ===================================================================== *)
(** ** Instances *)
(* ===================================================================== *)

(** C5, as stated: a cap of -1 is truthy, so it is the cap the loops use;
    the first candidate is appended before the cap is tested, and the list
    holds one candidate, more than the cap. *)
Lemma negative_cap_exceeded :
  let st :=
    fst (buildLinks no_number no_string "user-1"
                    (Number (Num (15 # 100))) (Number (Num (-1 # 1)))
                    (with_keywords [example_A "a" None; example_B "b" None])) in
  option_maxLinks (Object [("maxLinks", Number (Num (-1 # 1)))])
  = Normal (Number (Num (-1 # 1)))
  /\ toNumber no_number no_string (Number (Num (-1 # 1))) = Normal (Num (-1 # 1))
  /\ List.length (linksToInsert st) = 1
  /\ ((-1 # 1) < inject_Z (Z.of_nat (List.length (linksToInsert st))))%Q.
Proof. repeat split. Qed.

Lemma cap_truncates_by_iteration_order_witness :
  let st :=
    fst (buildLinks no_number no_string "user-1"
                    (Number (Num (15 # 100))) (Number (Num 1))
                    (with_keywords [example_A "a" None; example_B "b" None;
                                    example_A "c" None])) in
  1 <= 1 /\ List.length (linksToInsert st) <= 1.
Proof.
  split; [apply le_n|].
  exact (proj1 (cap_truncates_by_iteration_order
                  no_number no_string "user-1"
                  (Number (Num (15 # 100))) (Number (Num 1))
                  (with_keywords [example_A "a" None; example_B "b" None;
                                  example_A "c" None])
                  1 1 eq_refl (Qeq_refl 1) (le_n 1))).
Defined.


Lemma no_entries_success_witness :
  generateLinks no_number no_string (example_client (Some []) [])
                (User.make "user-1") (Number (Num (15 # 100))) (Number (Num 1000))
  = Normal
      {| response :=
           {| status := 200;
              json := Object [("success", Boolean true);
                              ("linksCreated", Number (Num 0));
                              ("message", Str "No knowledge base entries found")] |};
         similarity_calls := 0;
         upsert_calls := [] |}.
Proof.
  exact (no_entries_success no_number no_string (example_client (Some []) [])
           (User.make "user-1") (Number (Num (15 # 100))) (Number (Num 1000))
           (or_introl eq_refl)).
Defined.

Lemma example_client_transient rows failing i batch error :
  upsert (example_client rows failing) i batch = Some error ->
  table_missing error = false.
Proof.
  cbn [upsert example_client].
  destruct (existsb (Nat.eqb i) failing); [|discriminate].
  intros H. injection H as <-. reflexivity.
Defined.

Lemma transient_failures_continue_witness :
  let supabase := example_client (Some example_rows) [0] in
  let user := User.make "user-1" in
  let links :=
    candidates_of no_number no_string user
                  (Number (Num (15 # 100))) (Number (Num 1000)) example_rows in
  example_rows <> []
  /\ exists run,
      generateLinks no_number no_string supabase user
                    (Number (Num (15 # 100))) (Number (Num 1000)) = Normal run
      /\ upsert_calls run = batches links
      /\ status (response run) = 200
      /\ getOptional (json (response run)) "success" = Boolean true
      /\ getOptional (json (response run)) "linksCreated"
         = Number (of_length (rows_written (upsert supabase) links))
      /\ rows_written (upsert supabase) links <= List.length links
      /\ (forall k,
            k < batch_count (List.length links) ->
            batch_ok (upsert supabase) links k = false ->
            rows_written (upsert supabase) links < List.length links).
Proof.
  intros supabase user links.
  assert (Hne : example_rows <> []) by discriminate.
  split; [exact Hne|].
  exact (transient_failures_continue no_number no_string supabase user
           (Number (Num (15 # 100))) (Number (Num 1000)) example_rows
           (Num (15 # 100)) (Num 1000)
           eq_refl Hne eq_refl eq_refl
           (example_client_transient (Some example_rows) [0])).
Defined.

(** The same run, evaluated: 105 candidates in two batches, the first one
    refused, 5 rows written. *)
Example transient_failures_run :
  let supabase := example_client (Some example_rows) [0] in
  let links :=
    candidates_of no_number no_string (User.make "user-1")
                  (Number (Num (15 # 100))) (Number (Num 1000)) example_rows in
  List.length links = 105
  /\ map (@List.length Link) (batches links) = [100; 5]
  /\ batch_ok (upsert supabase) links 0 = false
  /\ rows_written (upsert supabase) links = 5.
Proof. vm_compute. repeat split. Qed.

(** Two entries with the same keywords and the same category: the ratio is
    1, the bonus would bring it to 1.1, and the strength is 1. *)
Example clamped_strength :
  map link_strength
      (candidates_of no_number no_string (User.make "user-1")
                     (Number (Num (15 # 100))) (Number (Num 1000))
                     [example_A "a" None; example_A "c" None])
  = [Num 1].
Proof. vm_compute. reflexivity. Qed.

(** A body that is the JSON value [null] makes the read of the options
    throw; the handler answers 500. *)
Example null_body_fails :
  option_map (fun run => status (response run))
             (match POST no_number no_string
                         (fun _ => example_client (Some []) [])
                         (mkRequest (Some "Bearer token") (Some Null)) with
              | Normal run => Some run
              | Throw _ => None
              end)
  = Some 500.
Proof. vm_compute. reflexivity. Qed.

(** Points that hold short words and stop words only give no keyword. *)
Example no_token_no_keyword :
  extractKeywords
    (Object [("key_points", Array [Str "The cat sat on a mat"; Str "About these, which?"]);
             ("main_ideas", Array [Str "AI & ML"])])
  = Normal [].
Proof. vm_compute. reflexivity. Qed.

(** A threshold that is such an object is truthy too, so it is kept; the
    message logged before the rows are fetched cannot be written, and the
    handler answers 500 having compared nothing. *)
Example unconvertible_threshold_fails :
  POST decimal own_toString
       (fun _ => example_client (Some [example_A "a" None; example_B "b" None]) [])
       (mkRequest (Some "Bearer token")
                  (Some (Object [("minSimilarity",
                                  Object [("toString", Number (Num 1))])])))
  = Normal
      (respond 500
         [("error", Str "Failed to generate links");
          ("details", Str "Cannot convert object to primitive value")]).
Proof. vm_compute. reflexivity. Qed.

(** A cap that is an object with a property [toString] of its own is
    truthy, so it is kept; the cap test throws once the first row of pairs
    has been compared, and the handler answers 500 without writing. *)
Example unconvertible_cap_fails :
  POST decimal own_toString
       (fun _ => example_client (Some [example_A "a" None]) [])
       (mkRequest (Some "Bearer token")
                  (Some (Object [("maxLinks", Object [("toString", Number (Num 1))])])))
  = Normal
      (respond 500
         [("error", Str "Failed to generate links");
          ("details", Str "Cannot convert object to primitive value")]).
Proof. vm_compute. reflexivity. Qed.

(* ===================================================================== *)
(** * Further properties of the extractor and of the similarity *)
(* ===================================================================== *)

Lemma all_chars_app (p : ascii -> bool) (s1 s2 : string) :
  all_chars p (s1 ++ s2)%string = all_chars p s1 && all_chars p s2.
Proof.
  induction s1 as [|c s1 IH]; cbn; [reflexivity|].
  rewrite IH, andb_assoc. reflexivity.
Qed.

(** What the replacement leaves of a lower-cased character is whitespace or
    a keyword character: no upper-case letter survives. *)
Lemma replaced_lower_char (c : ascii) :
  let o := if is_word_char (lower_char c) || is_space (lower_char c)
           then lower_char c else " "%char in
  is_space o || is_keyword_char o = true.
Proof. destruct c as [[] [] [] [] [] [] [] []]; reflexivity. Qed.

Lemma replace_lower_chars (s : string) :
  all_chars (fun c => is_space c || is_keyword_char c)
            (replace_punctuation (toLowerCase s)) = true.
Proof.
  induction s as [|c s IH]; cbn [toLowerCase replace_punctuation all_chars];
    [reflexivity|].
  rewrite IH, andb_true_r. apply replaced_lower_char.
Qed.

Lemma split_from_chars (p : ascii -> bool) (s : string) :
  forall cur in_run,
    all_chars p cur = true ->
    all_chars (fun c => is_space c || p c) s = true ->
    Forall (fun w => all_chars p w = true) (split_from s cur in_run).
Proof.
  induction s as [|c s IH]; intros cur in_run Hcur Hs; cbn [split_from].
  - constructor; [exact Hcur | constructor].
  - cbn [all_chars] in Hs. apply andb_prop in Hs. destruct Hs as [Hc Hs].
    destruct (is_space c) eqn:Hsp.
    + destruct in_run; [|constructor; [exact Hcur|]]; apply IH;
        try reflexivity; exact Hs.
    + apply IH; [|exact Hs].
      rewrite all_chars_app, Hcur. cbn. cbn in Hc. rewrite Hc. reflexivity.
Qed.

Lemma words_of_well_formed (point : string) :
  Forall (fun w => long_word w = true /\ all_chars is_keyword_char w = true)
         (words_of point).
Proof.
  unfold words_of. apply Forall_forall. intros w Hw.
  apply filter_In in Hw. destruct Hw as [Hin Hlong]. split; [exact Hlong|].
  pose proof (split_from_chars is_keyword_char
                (replace_punctuation (toLowerCase point)) EmptyString false
                eq_refl (replace_lower_chars point)) as Hall.
  rewrite Forall_forall in Hall. apply Hall. exact Hin.
Qed.

Lemma forEach_push_well_formed (Q : string -> Prop) (points : list value) :
  (forall point, Forall Q (words_of point)) ->
  forall keywords keywords',
    forEach_push points keywords = Normal keywords' ->
    Forall Q keywords -> Forall Q keywords'.
Proof.
  intros Hwords. induction points as [|p points IH];
    intros keywords keywords' Hrun Hkw; cbn [forEach_push] in Hrun.
  - injection Hrun as <-. exact Hkw.
  - destruct p; cbn [push_words bind] in Hrun; try discriminate.
    apply (IH _ _ Hrun). apply Forall_app. split; [exact Hkw | apply Hwords].
Qed.

Lemma extract_field_well_formed (Q : string -> Prop) summaryJson field :
  (forall point, Forall Q (words_of point)) ->
  forall keywords keywords',
    extract_field summaryJson field keywords = Normal keywords' ->
    Forall Q keywords -> Forall Q keywords'.
Proof.
  intros Hwords keywords keywords' Hrun Hkw. unfold extract_field in Hrun.
  destruct (truthy (getOptional summaryJson field)
            && isArray (getOptional summaryJson field)).
  - destruct (getOptional summaryJson field);
      try (injection Hrun as <-; exact Hkw).
    apply (forEach_push_well_formed Q _ Hwords _ _ Hrun Hkw).
  - injection Hrun as <-. exact Hkw.
Qed.

Lemma In_firstn {A} (n : nat) (l : list A) (x : A) : In x (firstn n l) -> In x l.
Proof.
  intros H. rewrite <- (firstn_skipn n l). apply in_or_app. left. exact H.
Qed.

(** X1. Whatever the summary, the extractor returns at most 15 keywords,
    without repetition; each is longer than 4 characters, is no stop word,
    and is made of the characters a-z, 0-9 and underscore only. *)
Theorem keywords_well_formed :
  forall summaryJson : value,
    exists l,
      extractKeywords summaryJson = Normal l
      /\ NoDup l
      /\ List.length l <= 15
      /\ Forall (fun w => 4 < String.length w
                          /\ is_stop_word w = false
                          /\ all_chars is_keyword_char w = true) l.
Proof.
  intros summaryJson.
  exists (keywords_of summaryJson).
  split; [apply extractKeywords_keywords_of|].
  split; [apply keywords_of_NoDup|].
  unfold keywords_of, extractKeywords, extractKeywords_body, try_catch.
  destruct (extract_field summaryJson "key_points" []) as [kw1|] eqn:E1;
    cbn [bind]; [|split; [cbn; lia | constructor]].
  destruct (extract_field summaryJson "main_ideas" kw1) as [kw2|] eqn:E2;
    cbn [bind]; [|split; [cbn; lia | constructor]].
  split; [apply firstn_le_length|].
  pose proof (extract_field_well_formed _ _ _ words_of_well_formed _ _ E1
                (Forall_nil _)) as H1.
  pose proof (extract_field_well_formed _ _ _ words_of_well_formed _ _ E2 H1) as H2.
  rewrite Forall_forall in H2. apply Forall_forall. intros w Hw.
  apply In_firstn in Hw. apply filter_In in Hw. destruct Hw as [Hin Hstop].
  unfold JsSet.to_list in Hin. apply (proj1 (In_of_list _ _)) in Hin.
  destruct (H2 w Hin) as [Hlong Hchars].
  split; [apply Nat.ltb_lt; exact Hlong|]. split; [|exact Hchars].
  rewrite commonWords_stop_words in Hstop.
  destruct (is_stop_word w); [discriminate | reflexivity].
Qed.

Lemma NoDup_sharedKeywords (keywords1 keywords2 : list string) :
  NoDup keywords1 ->
  NoDup (sharedKeywords (calculateSimilarity keywords1 keywords2)).
Proof. intros H. cbn. apply NoDup_filter, H. Qed.

Lemma In_union (keywords1 keywords2 : list string) (x : string) :
  In x (JsSet.of_list (keywords1 ++ keywords2)) <-> In x keywords1 \/ In x keywords2.
Proof. rewrite In_of_list. apply in_app_iff. Qed.

Lemma shared_length_sym (keywords1 keywords2 : list string) :
  NoDup keywords1 -> NoDup keywords2 ->
  List.length (sharedKeywords (calculateSimilarity keywords1 keywords2))
  = List.length (sharedKeywords (calculateSimilarity keywords2 keywords1)).
Proof.
  intros H1 H2. apply same_elements_length;
    [apply NoDup_sharedKeywords, H1 | apply NoDup_sharedKeywords, H2 |].
  intros x. rewrite !sharedKeywords_In. tauto.
Qed.

Lemma union_size_sym (keywords1 keywords2 : list string) :
  JsSet.size (JsSet.of_list (keywords1 ++ keywords2))
  = JsSet.size (JsSet.of_list (keywords2 ++ keywords1)).
Proof.
  apply totalUnique_length; [apply NoDup_of_list|].
  intros x. rewrite In_union. tauto.
Qed.

(** X2. On two keyword lists without repetition the similarity does not
    depend on the order of the arguments, and the two lists of shared
    keywords hold the same keywords. *)
Theorem similarity_symmetric :
  forall keywords1 keywords2 : list string,
    NoDup keywords1 -> NoDup keywords2 ->
    similarity (calculateSimilarity keywords1 keywords2)
    = similarity (calculateSimilarity keywords2 keywords1)
    /\ (forall x,
          In x (sharedKeywords (calculateSimilarity keywords1 keywords2))
          <-> In x (sharedKeywords (calculateSimilarity keywords2 keywords1))).
Proof.
  intros keywords1 keywords2 H1 H2. split.
  - pose proof (shared_length_sym keywords1 keywords2 H1 H2) as Hs.
    cbn [calculateSimilarity similarity sharedKeywords] in *.
    rewrite Hs, (union_size_sym keywords1 keywords2). reflexivity.
  - intros x. rewrite !sharedKeywords_In. tauto.
Qed.

Lemma similarity_symmetric_witness :
  similarity (calculateSimilarity ["graph"; "neural"; "nodes"] ["nodes"; "graph"])
  = similarity (calculateSimilarity ["nodes"; "graph"] ["graph"; "neural"; "nodes"]).
Proof.
  refine (proj1 (similarity_symmetric ["graph"; "neural"; "nodes"] ["nodes"; "graph"]
                   _ _)).
  - repeat constructor; cbn; intuition discriminate.
  - repeat constructor; cbn; intuition discriminate.
Defined.

Lemma pos_of_succ (t : nat) : Z.pos (Pos.of_nat (S t)) = Z.of_nat (S t).
Proof. lia. Qed.

Lemma ratio_le_1 (s t : nat) : s <= S t -> (Z.of_nat s # Pos.of_nat (S t) <= 1)%Q.
Proof. intros H. unfold Qle. cbn [Qnum Qden]. rewrite pos_of_succ. lia. Qed.

Lemma ratio_eq_1 (s t : nat) : (Z.of_nat s # Pos.of_nat (S t) == 1)%Q <-> s = S t.
Proof. unfold Qeq. cbn [Qnum Qden]. rewrite pos_of_succ. lia. Qed.

Lemma ratio_eq_0 (s t : nat) : (Z.of_nat s # Pos.of_nat (S t) == 0)%Q <-> s = 0.
Proof. unfold Qeq. cbn [Qnum Qden]. lia. Qed.

Lemma ratio_pos (s t : nat) : 0 < s -> (0 < Z.of_nat s # Pos.of_nat (S t))%Q.
Proof. unfold Qlt. cbn [Qnum Qden]. lia. Qed.

Lemma shared_le_union (keywords1 keywords2 : list string) :
  NoDup keywords1 ->
  List.length (sharedKeywords (calculateSimilarity keywords1 keywords2))
  <= JsSet.size (JsSet.of_list (keywords1 ++ keywords2)).
Proof.
  intros H. apply NoDup_incl_length; [apply NoDup_sharedKeywords, H|].
  intros x Hx. apply In_union. apply sharedKeywords_In in Hx. tauto.
Qed.

Lemma shared_nil_disjoint (keywords1 keywords2 : list string) :
  List.length (sharedKeywords (calculateSimilarity keywords1 keywords2)) = 0
  <-> (forall x, In x keywords1 -> ~ In x keywords2).
Proof.
  split.
  - intros H x H1 H2.
    assert (Hin : In x (sharedKeywords (calculateSimilarity keywords1 keywords2)))
      by (apply sharedKeywords_In; tauto).
    destruct (sharedKeywords (calculateSimilarity keywords1 keywords2));
      [contradiction | discriminate].
  - intros H.
    destruct (sharedKeywords (calculateSimilarity keywords1 keywords2))
      as [|x l] eqn:E; [reflexivity|].
    assert (Hin : In x (sharedKeywords (calculateSimilarity keywords1 keywords2)))
      by (rewrite E; left; reflexivity).
    apply sharedKeywords_In in Hin. destruct Hin as [H1 H2].
    destruct (H x H1 H2).
Qed.

Lemma shared_all_same (keywords1 keywords2 : list string) :
  NoDup keywords1 ->
  0 < JsSet.size (JsSet.of_list (keywords1 ++ keywords2)) ->
  (List.length (sharedKeywords (calculateSimilarity keywords1 keywords2))
   = JsSet.size (JsSet.of_list (keywords1 ++ keywords2))
   <-> keywords1 <> [] /\ (forall x, In x keywords1 <-> In x keywords2)).
Proof.
  intros Hnd Hpos. split.
  - intros Heq.
    assert (Hall : incl (JsSet.of_list (keywords1 ++ keywords2))
                        (sharedKeywords (calculateSimilarity keywords1 keywords2))).
    { apply NoDup_length_incl.
      - apply NoDup_sharedKeywords, Hnd.
      - unfold JsSet.size in Heq. lia.
      - intros x Hx. apply In_union. apply sharedKeywords_In in Hx. tauto. }
    assert (Hboth : forall x, In x keywords1 \/ In x keywords2 ->
                              In x keywords1 /\ In x keywords2).
    { intros x Hx. apply sharedKeywords_In, Hall, In_union, Hx. }
    split.
    + intros ->. unfold JsSet.size in Hpos.
      destruct (JsSet.of_list ([] ++ keywords2)) as [|x l] eqn:E;
        [cbn in Hpos; lia|].
      assert (Hx : In x (JsSet.of_list ([] ++ keywords2)))
        by (rewrite E; left; reflexivity).
      apply In_union in Hx. destruct (Hboth x Hx) as [[] _].
    + intros x. split; intros Hx; apply Hboth; tauto.
  - intros [_ Hsame]. apply same_elements_length;
      [apply NoDup_sharedKeywords, Hnd | apply NoDup_of_list |].
    intros x. rewrite sharedKeywords_In, In_union, (Hsame x). tauto.
Qed.

(** X3. For a first list without repetition the similarity lies between 0
    and 1; it is 0 exactly when the two lists have no keyword in common,
    and 1 exactly when they hold the same keywords and are not empty. *)
Theorem similarity_extremes :
  forall keywords1 keywords2 : list string,
    NoDup keywords1 ->
    exists q,
      similarity (calculateSimilarity keywords1 keywords2) = Num q
      /\ (0 <= q <= 1)%Q
      /\ ((q == 0)%Q <-> (forall x, In x keywords1 -> ~ In x keywords2))
      /\ ((q == 1)%Q
          <-> keywords1 <> [] /\ (forall x, In x keywords1 <-> In x keywords2)).
Proof.
  intros keywords1 keywords2 Hnd.
  pose proof (shared_le_union keywords1 keywords2 Hnd) as Hle.
  pose proof (shared_nil_disjoint keywords1 keywords2) as Hzero.
  pose proof (shared_all_same keywords1 keywords2 Hnd) as Hone.
  cbn [calculateSimilarity similarity sharedKeywords] in *.
  destruct (JsSet.size (JsSet.of_list (keywords1 ++ keywords2))) as [|t] eqn:Et.
  - exists 0%Q. cbn [Nat.ltb Nat.leb].
    split; [reflexivity|]. split; [split; [apply Qle_refl | discriminate]|].
    assert (Hempty : forall x, ~ In x keywords1).
    { intros x Hx.
      assert (Hu : In x (JsSet.of_list (keywords1 ++ keywords2)))
        by (apply In_union; tauto).
      unfold JsSet.size in Et.
      destruct (JsSet.of_list (keywords1 ++ keywords2));
        [contradiction | discriminate]. }
    split.
    + split; [intros _ x Hx; destruct (Hempty x Hx) | reflexivity].
    + split; [discriminate|]. intros [Hne _].
      destruct keywords1 as [|x l]; [contradiction|].
      destruct (Hempty x (or_introl eq_refl)).
  - cbn [Nat.ltb Nat.leb div_length]. eexists. split; [reflexivity|].
    split; [split; [unfold Qle; cbn; lia | apply ratio_le_1, Hle]|].
    split.
    + rewrite ratio_eq_0. exact Hzero.
    + rewrite ratio_eq_1. apply Hone. lia.
Qed.

Lemma similarity_extremes_witness :
  exists q,
    similarity (calculateSimilarity ["graph"; "neural"] ["neural"; "graph"]) = Num q
    /\ (q == 1)%Q.
Proof.
  destruct (similarity_extremes ["graph"; "neural"] ["neural"; "graph"])
    as (q & Hq & _ & _ & Hone).
  - repeat constructor; cbn; intuition discriminate.
  - exists q. split; [exact Hq|]. apply Hone. split; [discriminate|].
    intros x. cbn. tauto.
Defined.

(* ===================================================================== *)
(** * Further properties of the pairwise loops *)
(* ===================================================================== *)

Lemma similarity_positive (keywords1 keywords2 : list string) :
  0 < List.length (sharedKeywords (calculateSimilarity keywords1 keywords2)) ->
  exists q, similarity (calculateSimilarity keywords1 keywords2) = Num q
            /\ (0 < q)%Q.
Proof.
  intros Hpos.
  assert (Hu : 0 < JsSet.size (JsSet.of_list (keywords1 ++ keywords2))).
  { destruct (sharedKeywords (calculateSimilarity keywords1 keywords2))
      as [|x l] eqn:E; [cbn in Hpos; lia|].
    assert (Hx : In x (sharedKeywords (calculateSimilarity keywords1 keywords2)))
      by (rewrite E; left; reflexivity).
    apply sharedKeywords_In in Hx.
    assert (Hin : In x (JsSet.of_list (keywords1 ++ keywords2)))
      by (apply In_union; tauto).
    unfold JsSet.size. destruct (JsSet.of_list (keywords1 ++ keywords2));
      [contradiction | cbn; lia]. }
  cbn [calculateSimilarity similarity sharedKeywords] in *.
  destruct (JsSet.size (JsSet.of_list (keywords1 ++ keywords2))) as [|t]; [lia|].
  cbn [Nat.ltb Nat.leb div_length]. eexists. split; [reflexivity|].
  apply ratio_pos, Hpos.
Qed.

Lemma In_allPairs {A} (l : list A) (a b : A) :
  In (a, b) (allPairs l) -> In a l /\ In b l.
Proof.
  induction l as [|x l IH]; cbn [allPairs]; [contradiction|].
  intros H. apply in_app_or in H. destruct H as [H|H].
  - apply in_map_iff in H. destruct H as (y & Heq & Hy).
    injection Heq as <- <-. split; [left; reflexivity | right; exact Hy].
  - destruct (IH H). split; right; assumption.
Qed.

Lemma allPairs_length {A} (l : list A) :
  2 * List.length (allPairs l) = List.length l * (List.length l - 1).
Proof.
  induction l as [|x l IH]; [reflexivity|].
  cbn [allPairs]. rewrite length_app, length_map. cbn [List.length].
  rewrite Nat.sub_succ, Nat.sub_0_r. destruct l as [|y l]; [reflexivity|].
  cbn [List.length] in *. rewrite Nat.sub_succ, Nat.sub_0_r in IH. lia.
Qed.

Lemma allPairs_map {A B} (f : A -> B) (l : list A) :
  allPairs (map f l) = map (fun p => (f (fst p), f (snd p))) (allPairs l).
Proof.
  induction l as [|x l IH]; [reflexivity|].
  cbn [allPairs map]. rewrite map_app, !map_map, IH. reflexivity.
Qed.

Lemma NoDup_map_pair {A} (x : A) (l : list A) : NoDup l -> NoDup (map (pair x) l).
Proof.
  induction l as [|y l IH]; intros H; cbn [map]; [constructor|].
  inversion H as [|? ? Hy Hl]; subst. constructor; [|apply IH, Hl].
  intros Hin. apply in_map_iff in Hin. destruct Hin as (z & Heq & Hz).
  injection Heq as ->. contradiction.
Qed.

Lemma NoDup_allPairs {A} (l : list A) : NoDup l -> NoDup (allPairs l).
Proof.
  induction l as [|x l IH]; intros Hnd; cbn [allPairs]; [constructor|].
  inversion Hnd as [|? ? Hx Hl]; subst.
  apply NoDup_app.
  - apply NoDup_map_pair, Hl.
  - apply IH, Hl.
  - intros [a b] Hin Hin'. apply in_map_iff in Hin.
    destruct Hin as (y & Heq & _). injection Heq as <- <-.
    apply In_allPairs in Hin'. tauto.
Qed.

(** In a list without repetition no pair occurs in both orders, and no
    element is paired with itself. *)
Lemma allPairs_oriented {A} (l : list A) (a b : A) :
  NoDup l -> In (a, b) (allPairs l) -> a <> b /\ ~ In (b, a) (allPairs l).
Proof.
  induction l as [|x l IH]; intros Hnd; cbn [allPairs]; [contradiction|].
  inversion Hnd as [|? ? Hx Hl]; subst.
  intros H. apply in_app_or in H. destruct H as [H|H].
  - apply in_map_iff in H. destruct H as (y & Heq & Hy). injection Heq as <- <-.
    split; [intros ->; contradiction|].
    intros H'. apply in_app_or in H'. destruct H' as [H'|H'].
    + apply in_map_iff in H'. destruct H' as (z & Heq & Hz).
      injection Heq as -> <-. contradiction.
    + apply In_allPairs in H'. tauto.
  - destruct (IH Hl H) as [Hne Hrev]. split; [exact Hne|].
    intros H'. apply in_app_or in H'. destruct H' as [H'|H'].
    + apply in_map_iff in H'. destruct H' as (z & Heq & Hz).
      injection Heq as <- <-. apply In_allPairs in H. tauto.
    + contradiction.
Qed.

Lemma NoDup_map_filter {A B} (f : A -> B) (g : A -> bool) (l : list A) :
  NoDup (map f l) -> NoDup (map f (filter g l)).
Proof.
  induction l as [|x l IH]; cbn [map filter]; intros H; [constructor|].
  inversion H as [|? ? Hx Hl]; subst. destruct (g x); [|apply IH, Hl].
  cbn [map]. constructor; [|apply IH, Hl].
  intros Hin. apply Hx. apply in_map_iff in Hin.
  destruct Hin as (y & Heq & Hy). apply filter_In in Hy.
  apply in_map_iff. exists y. tauto.
Qed.

Section LinkProperties.

Variable StringToNumber : string -> number.
Variable ToPrimitive : value -> Completion string.
Variable userId : string.
Variables minSimilarity maxLinks : value.

Local Abbreviation Gate := (gate StringToNumber ToPrimitive minSimilarity).
Local Abbreviation Emitted :=
  (emitted StringToNumber ToPrimitive userId minSimilarity).
Local Abbreviation Cap := (cap_reached StringToNumber ToPrimitive maxLinks).
Local Abbreviation Build :=
  (buildLinks StringToNumber ToPrimitive userId minSimilarity maxLinks).

Lemma emitted_length_le pairs : List.length (Emitted pairs) <= List.length pairs.
Proof. unfold emitted. rewrite length_map. apply filter_length_le. Qed.

Lemma gate_shared p :
  Gate p = true ->
  2 <= List.length
         (sharedKeywords (calculateSimilarity (keywords (fst p)) (keywords (snd p)))).
Proof.
  unfold gate. intros H. apply andb_prop in H. apply Nat.leb_le, H.
Qed.

Lemma candidate_strength_positive p :
  Gate p = true ->
  exists q, link_strength (candidate userId p) = Num q /\ (0 < q <= 1)%Q.
Proof.
  intros Hg. apply gate_shared in Hg.
  destruct (similarity_positive (keywords (fst p)) (keywords (snd p)))
    as (q & Hq & Hpos); [lia|].
  unfold candidate, bonus. cbn [link_strength]. rewrite Hq.
  destruct (strict_eq _ _); cbn [num_add num_min];
    match goal with
    | |- context [Qle_bool ?x 1] =>
        destruct (Qle_bool x 1) eqn:Hle; eexists; (split; [reflexivity|])
    end;
    try (apply Qle_bool_iff in Hle; split; [|exact Hle]);
    try (split; [reflexivity | apply Qle_refl]).
  - apply (Qlt_le_trans _ (q + 0)); [rewrite Qplus_0_r; exact Hpos|].
    apply Qplus_le_r. discriminate.
  - rewrite Qplus_0_r. exact Hpos.
Qed.

(** The candidates come from pairs of the list that pass the gate. *)
Lemma links_from_pairs entries link :
  In link (linksToInsert (fst (Build entries))) ->
  exists p, In p (allPairs entries) /\ Gate p = true /\ link = candidate userId p.
Proof.
  destruct (buildLinks_prefix StringToNumber ToPrimitive userId minSimilarity
              maxLinks entries) as (_ & -> & _).
  unfold emitted. intros H. apply in_map_iff in H. destruct H as (p & <- & Hp).
  apply filter_In in Hp. destruct Hp as [Hp Hg]. apply In_firstn in Hp.
  exists p. tauto.
Qed.

(** X4. Every candidate carries the owner's id and the type "auto", joins
    two entries of the list, holds at least two shared keywords, each a
    keyword of both entries, and has a strength above 0 and at most 1. *)
Theorem candidates_well_formed :
  forall entries : list EntryWithKeywords,
    Forall
      (fun link =>
         user_id link = userId
         /\ link_type link = "auto"
         /\ 2 <= List.length (shared_keywords link)
         /\ (exists q, link_strength link = Num q /\ (0 < q <= 1)%Q)
         /\ exists e1 e2,
             In e1 entries /\ In e2 entries
             /\ source_kb_id link = Entry.id (entry e1)
             /\ target_kb_id link = Entry.id (entry e2)
             /\ forall k, In k (shared_keywords link) ->
                          In k (keywords e1) /\ In k (keywords e2))
      (linksToInsert (fst (Build entries))).
Proof.
  intros entries. apply Forall_forall. intros link Hlink.
  destruct (links_from_pairs entries link Hlink) as ([e1 e2] & Hp & Hg & ->).
  split; [reflexivity|]. split; [reflexivity|].
  split; [apply (gate_shared _ Hg)|].
  split; [apply candidate_strength_positive, Hg|].
  exists e1, e2. apply In_allPairs in Hp.
  repeat split; try tauto;
    apply (sharedKeywords_In (keywords e1) (keywords e2) k) in H; tauto.
Qed.

(** X5. When the entries have pairwise different ids, no candidate joins an
    entry to itself, no two candidates have the same source and target,
    and no two candidates join the same entries in opposite directions. *)
Theorem candidate_keys_distinct :
  forall entries : list EntryWithKeywords,
    NoDup (map (fun e => Entry.id (entry e)) entries) ->
    let keys := map link_key (linksToInsert (fst (Build entries))) in
    NoDup keys
    /\ forall a b, In (a, b) keys -> a <> b /\ ~ In (b, a) keys.
Proof.
  intros entries Hnd keys.
  assert (Hkeys : keys
                  = map (fun p => (Entry.id (entry (fst p)), Entry.id (entry (snd p))))
                        (filter Gate (firstn (comparisons (fst (Build entries)))
                                             (allPairs entries)))).
  { subst keys.
    destruct (buildLinks_prefix StringToNumber ToPrimitive userId minSimilarity
                maxLinks entries) as (_ & -> & _).
    unfold emitted. rewrite map_map. reflexivity. }
  assert (Hsub : forall k, In k keys ->
                           In k (allPairs (map (fun e => Entry.id (entry e)) entries))).
  { intros k Hk. rewrite Hkeys in Hk. apply in_map_iff in Hk.
    destruct Hk as (p & <- & Hp). apply filter_In in Hp. destruct Hp as [Hp _].
    apply In_firstn in Hp. rewrite allPairs_map.
    apply in_map_iff. exists p. split; [reflexivity | exact Hp]. }
  split.
  - rewrite Hkeys. apply NoDup_map_filter. rewrite <- firstn_map.
    apply NoDup_firstn.
    pose proof (allPairs_map (fun e => Entry.id (entry e)) entries) as Hm.
    cbv beta in Hm. rewrite <- Hm. apply NoDup_allPairs, Hnd.
  - intros a b Hab.
    destruct (allPairs_oriented _ a b Hnd (Hsub _ Hab)) as [Hne Hrev].
    split; [exact Hne|]. intros Hba. apply Hrev, Hsub, Hba.
Qed.

Lemma buildLinks_counts entries :
  2 * comparisons (fst (Build entries))
  <= List.length entries * (List.length entries - 1)
  /\ List.length (linksToInsert (fst (Build entries)))
     <= comparisons (fst (Build entries)).
Proof.
  destruct (buildLinks_prefix StringToNumber ToPrimitive userId minSimilarity
              maxLinks entries) as (Hk & Hlinks & _).
  pose proof (allPairs_length entries) as Hlen.
  split; [lia|]. rewrite Hlinks at 1.
  pose proof (emitted_length_le
                (firstn (comparisons (fst (Build entries))) (allPairs entries)))
    as H.
  rewrite length_firstn in H. lia.
Qed.

(** X6. The handler never makes more than n(n-1)/2 comparisons for n
    entries, and never holds more candidates than it made comparisons.
    When the loops end with the cap test false on the final list, every
    pair was compared and the list holds the candidates of all pairs; and
    the loops end whenever the two options can be converted. *)
Theorem comparisons_bounded :
  forall entries : list EntryWithKeywords,
    let st := fst (Build entries) in
    let n := List.length entries in
    2 * comparisons st <= n * (n - 1)
    /\ List.length (linksToInsert st) <= comparisons st
    /\ (snd (Build entries) = Normal tt ->
        Cap (List.length (linksToInsert st)) = false ->
        2 * comparisons st = n * (n - 1)
        /\ linksToInsert st = Emitted (allPairs entries))
    /\ (forall a b,
          toNumber StringToNumber ToPrimitive minSimilarity = Normal a ->
          toNumber StringToNumber ToPrimitive maxLinks = Normal b ->
          snd (Build entries) = Normal tt).
Proof.
  intros entries st n.
  destruct (buildLinks_counts entries) as [Hcmp Hheld]. fold st in Hcmp, Hheld.
  fold n in Hcmp.
  split; [exact Hcmp|]. split; [exact Hheld|]. split.
  - intros Hn Hcap.
    destruct (buildLinks_all StringToNumber ToPrimitive userId minSimilarity
                maxLinks entries Hn Hcap) as [Hall Heq].
    fold st in Hall, Heq.
    pose proof (allPairs_length entries) as Hlen. fold n in Hlen.
    split; [lia | exact Heq].
  - apply (buildLinks_completion StringToNumber ToPrimitive userId minSimilarity
             maxLinks entries).
Qed.

End LinkProperties.

Lemma candidate_keys_distinct_witness :
  NoDup (map link_key
             (linksToInsert
                (fst (buildLinks no_number no_string "user-1"
                                 (Number (Num (15 # 100))) (Number (Num 1000))
                                 (with_keywords [example_A "a" None; example_B "b" None;
                                                 example_A "c" None]))))).
Proof.
  refine (proj1 (candidate_keys_distinct no_number no_string "user-1"
                   (Number (Num (15 # 100))) (Number (Num 1000))
                   (with_keywords [example_A "a" None; example_B "b" None;
                                   example_A "c" None]) _)).
  repeat constructor; cbn; intuition discriminate.
Defined.

(* ===================================================================== *)
(** * Further properties of the batches *)
(* ===================================================================== *)

Lemma persist_from_fatal upsert links i insertedCount calls error :
  i < List.length links ->
  upsert i (slice i (i + batchSize) links) = Some error ->
  table_missing error = true ->
  persist_from upsert links i insertedCount calls
  = (Returned (table_not_found error), calls ++ [slice i (i + batchSize) links]).
Proof.
  intros H E Hm. etransitivity; [apply persist_from_equation_1|].
  destruct (lt_dec i (List.length links)); [|lia].
  cbn. rewrite E. cbn. rewrite Hm. reflexivity.
Qed.

Lemma batch_fatal_at upsert links k :
  batch_fatal upsert links k
  = match upsert (k * batchSize)
                 (slice (k * batchSize) (k * batchSize + batchSize) links) with
    | Some error => table_missing error
    | None => false
    end.
Proof. reflexivity. Qed.

Lemma range_from_first (P : nat -> bool) (k0 j : nat) :
  P k0 = false ->
  (forall k, S k0 <= k < S k0 + j -> P k = false) ->
  forall k, k0 <= k < k0 + S j -> P k = false.
Proof.
  intros H0 Hrest k Hk.
  destruct (Nat.eq_dec k k0) as [->|Hne]; [exact H0 | apply Hrest; lia].
Qed.

(** What the batch loop does from batch [k0] on, whatever the storage
    answers: either it sends every remaining batch, none of them answered
    with the missing-relation error, and counts at most the rows that
    remain; or it stops at the first batch so answered. *)
Lemma persist_from_outcome upsert links :
  forall n k0 insertedCount calls,
    n = batch_count (List.length links) - k0 ->
    (exists count,
        persist_from upsert links (k0 * batchSize) insertedCount calls
        = (Finished count, calls ++ map (batch_at links) (seq k0 n))
        /\ insertedCount <= count
        /\ count <= insertedCount + (List.length links - k0 * batchSize)
        /\ forall k, k0 <= k < k0 + n -> batch_fatal upsert links k = false)
    \/ (exists j error,
           j < n
           /\ upsert ((k0 + j) * batchSize) (batch_at links (k0 + j)) = Some error
           /\ table_missing error = true
           /\ (forall k, k0 <= k < k0 + j -> batch_fatal upsert links k = false)
           /\ persist_from upsert links (k0 * batchSize) insertedCount calls
              = (Returned (table_not_found error),
                 calls ++ map (batch_at links) (seq k0 (S j)))).
Proof.
  induction n as [|n IH]; intros k0 insertedCount calls Hn.
  - left. exists insertedCount. rewrite persist_from_done.
    + cbn. rewrite app_nil_r. repeat split; try lia.
    + pose proof (batch_count_gt (List.length links) k0). lia.
  - assert (Hlt : k0 * batchSize < List.length links).
    { apply batch_count_gt. lia. }
    pose proof (batch_at_length links k0) as Hsize.
    pose proof (batch_fatal_at upsert links k0) as Hf0.
    pose proof (fun c l => IH (S k0) c l ltac:(lia)) as IH'.
    rewrite Nat.mul_succ_l in IH'.
    change (batch_at links k0)
      with (slice (k0 * batchSize) (k0 * batchSize + batchSize) links) in Hsize.
    cbn [seq map].
    change (batch_at links k0)
      with (slice (k0 * batchSize) (k0 * batchSize + batchSize) links).
    destruct (upsert (k0 * batchSize)
                (slice (k0 * batchSize) (k0 * batchSize + batchSize) links))
      as [error|] eqn:E.
    + destruct (table_missing error) eqn:Hm.
      * right. exists 0, error. rewrite Nat.add_0_r.
        split; [lia|]. split; [exact E|]. split; [exact Hm|].
        split; [intros k Hk; lia|].
        apply (persist_from_fatal _ _ _ _ _ error Hlt E Hm).
      * rewrite (persist_from_failed _ _ _ _ _ error Hlt E Hm).
        destruct (IH' insertedCount
                      (calls ++ [slice (k0 * batchSize) (k0 * batchSize + batchSize) links]))
          as [(count & -> & Hlo & Hhi & Hnone) | (j & e & Hj & Hup & Hfat & Hnone & ->)].
        -- left. exists count. rewrite <- app_assoc.
           split; [reflexivity|]. split; [lia|]. split; [lia|].
           apply range_from_first; assumption.
        -- right. exists (S j), e.
           split; [lia|].
           split; [replace (k0 + S j) with (S k0 + j) by lia; exact Hup|].
           split; [exact Hfat|].
           split; [apply range_from_first; assumption|].
           rewrite <- app_assoc. reflexivity.
    + rewrite (persist_from_written _ _ _ _ _ Hlt E).
      destruct (IH' (insertedCount
                     + List.length
                         (slice (k0 * batchSize) (k0 * batchSize + batchSize) links))
                    (calls ++ [slice (k0 * batchSize) (k0 * batchSize + batchSize) links]))
        as [(count & -> & Hlo & Hhi & Hnone) | (j & e & Hj & Hup & Hfat & Hnone & ->)].
      * left. exists count. rewrite <- app_assoc.
        split; [reflexivity|]. split; [lia|].
        split; [unfold batchSize in *; lia|].
        apply range_from_first; assumption.
      * right. exists (S j), e.
        split; [lia|].
        split; [replace (k0 + S j) with (S k0 + j) by lia; exact Hup|].
        split; [exact Hfat|].
        split; [apply range_from_first; assumption|].
        rewrite <- app_assoc. reflexivity.
Qed.

Lemma concat_batches_from links :
  forall m k0,
    List.concat (map (batch_at links) (seq k0 m)) ++ skipn ((k0 + m) * batchSize) links
    = skipn (k0 * batchSize) links.
Proof.
  induction m as [|m IH]; intros k0.
  - rewrite Nat.add_0_r. reflexivity.
  - cbn [seq map List.concat]. rewrite <- app_assoc.
    replace (k0 + S m) with (S k0 + m) by lia. rewrite IH.
    unfold batch_at, slice.
    replace (k0 * batchSize + batchSize - k0 * batchSize) with batchSize by lia.
    cbn [Nat.mul]. rewrite <- skipn_skipn. apply firstn_skipn.
Qed.

Lemma concat_batches links : List.concat (batches links) = links.
Proof.
  pose proof (concat_batches_from links (batch_count (List.length links)) 0) as H.
  cbn [Nat.add Nat.mul skipn] in H.
  rewrite skipn_all2, app_nil_r in H; [exact H|].
  pose proof (batch_count_gt (List.length links) (batch_count (List.length links))).
  lia.
Qed.

Lemma batch_sizes links m :
  m <= batch_count (List.length links) ->
  Forall (fun b => 1 <= List.length b <= batchSize)
         (map (batch_at links) (seq 0 m)).
Proof.
  intros Hm. apply Forall_forall. intros b Hb.
  apply in_map_iff in Hb. destruct Hb as (k & <- & Hk). apply in_seq in Hk.
  rewrite batch_at_length.
  assert (k * batchSize < List.length links) by (apply batch_count_gt; lia).
  unfold batchSize in *. lia.
Qed.

Lemma filter_all {A} (p : A -> bool) (l : list A) :
  (forall x, p x = true) -> filter p l = l.
Proof.
  intros H. induction l as [|x l IH]; cbn; [reflexivity|].
  rewrite H, IH. reflexivity.
Qed.

Lemma rows_written_all upsert links :
  (forall i batch, upsert i batch = None) ->
  rows_written upsert links = List.length links.
Proof.
  intros Hok. unfold rows_written. rewrite filter_all.
  - rewrite (batches_total links (batch_count (List.length links)) 0) by lia.
    cbn. lia.
  - intros k. unfold batch_ok. rewrite Hok. reflexivity.
Qed.

Section StorageProperties.

Variable StringToNumber : string -> number.
Variable ToPrimitive : value -> Completion string.

Local Abbreviation GenerateLinks := (generateLinks StringToNumber ToPrimitive).
Local Abbreviation Candidates := (candidates_of StringToNumber ToPrimitive).
Local Abbreviation Loops :=
  (fun (user : User.t) (minSimilarity maxLinks : value) (entries : list Entry.t) =>
     buildLinks StringToNumber ToPrimitive (User.id user) minSimilarity maxLinks
                (with_keywords entries)).

(** The run of the handler over fetched rows once the loops have ended,
    by the outcome of the batch loop. *)
Lemma generateLinks_outcome supabase user minSimilarity maxLinks entries :
  select_knowledgebase supabase (User.id user) = (Some entries, None) ->
  entries <> [] ->
  snd (Loops user minSimilarity maxLinks entries) = Normal tt ->
  let st := fst (Loops user minSimilarity maxLinks entries) in
  let links := Candidates user minSimilarity maxLinks entries in
  (exists count,
      count <= List.length links
      /\ (forall k, k < batch_count (List.length links) ->
                    batch_fatal (upsert supabase) links k = false)
      /\ GenerateLinks supabase user minSimilarity maxLinks
         = Normal
             (mkRun
                (mkResponse 200
                   (Object
                      [("success", Boolean true);
                       ("linksCreated", Number (of_length count));
                       ("totalEntries", Number (of_length (List.length entries)));
                       ("comparisons", Number (of_length (comparisons st)));
                       ("message",
                        Str ("Successfully generated " ++ show_nat count
                             ++ " connections from "
                             ++ show_nat (List.length entries) ++ " entries")%string)]))
                (comparisons st) (batches links)))
  \/ (exists j error,
         j < batch_count (List.length links)
         /\ upsert supabase (j * batchSize) (batch_at links j) = Some error
         /\ table_missing error = true
         /\ (forall k, k < j -> batch_fatal (upsert supabase) links k = false)
         /\ GenerateLinks supabase user minSimilarity maxLinks
            = Normal (mkRun (table_not_found error) (comparisons st)
                            (map (batch_at links) (seq 0 (S j))))).
Proof.
  intros Hsel Hne Hloops st links.
  rewrite (generateLinks_rows _ _ _ _ _ _ _ Hsel Hne Hloops). cbv zeta.
  fold st. fold (Candidates user minSimilarity maxLinks entries). fold links.
  change (linksToInsert st) with links.
  destruct (0 <? List.length links) eqn:Hlen.
  - destruct (persist_from_outcome (upsert supabase) links
                (batch_count (List.length links)) 0 0 [] ltac:(lia))
      as [(count & Hrun & _ & Hhi & Hnone) | (j & e & Hj & Hup & Hfat & Hnone & Hrun)];
      cbn [Nat.mul Nat.add app] in *; rewrite Hrun.
    + left. exists count. split; [lia|].
      split; [intros k Hk; apply Hnone; lia | reflexivity].
    + right. exists j, e.
      split; [exact Hj|]. split; [exact Hup|]. split; [exact Hfat|].
      split; [intros k Hk; apply Hnone; lia | reflexivity].
  - apply Nat.ltb_ge in Hlen.
    assert (links = []) as -> by (destruct links; [reflexivity | cbn in Hlen; lia]).
    left. exists 0. split; [cbn; lia|].
    split; [intros k Hk; cbn in Hk; lia | reflexivity].
Qed.

(** The loops end when the two options can be converted. *)
Lemma loops_end user minSimilarity maxLinks entries threshold cap :
  toNumber StringToNumber ToPrimitive minSimilarity = Normal threshold ->
  toNumber StringToNumber ToPrimitive maxLinks = Normal cap ->
  snd (Loops user minSimilarity maxLinks entries) = Normal tt.
Proof.
  intros Hmin Hmax.
  apply (proj2 (buildLinks_completion StringToNumber ToPrimitive (User.id user)
                  minSimilarity maxLinks (with_keywords entries))
               threshold cap Hmin Hmax).
Qed.

(** X7. For options that can be converted, and whatever the storage
    answers, the batches handed to it are consecutive slices of the
    candidate list taken from its start, each of 1 to 100 rows; and when
    the handler answers 200, they make up the whole list: no candidate is
    skipped or sent twice. *)
Theorem batches_are_slices :
  forall (supabase : Supabase) (user : User.t) (minSimilarity maxLinks : value)
         (entries : list Entry.t) (threshold cap : number),
    select_knowledgebase supabase (User.id user) = (Some entries, None) ->
    entries <> [] ->
    toNumber StringToNumber ToPrimitive minSimilarity = Normal threshold ->
    toNumber StringToNumber ToPrimitive maxLinks = Normal cap ->
    let links := Candidates user minSimilarity maxLinks entries in
    exists run,
      GenerateLinks supabase user minSimilarity maxLinks = Normal run
      /\ Forall (fun b => 1 <= List.length b <= 100) (upsert_calls run)
      /\ (exists rest, List.concat (upsert_calls run) ++ rest = links)
      /\ (status (response run) = 200 -> List.concat (upsert_calls run) = links).
Proof.
  intros supabase user minSimilarity maxLinks entries threshold cap
         Hsel Hne Hmin Hmax links.
  pose proof (generateLinks_outcome supabase user minSimilarity maxLinks entries
                Hsel Hne (loops_end user _ _ entries _ _ Hmin Hmax)) as Hout.
  cbv zeta in Hout. fold (Candidates user minSimilarity maxLinks entries) in Hout.
  fold links in Hout.
  destruct Hout as [(count & _ & _ & ->) | (j & e & Hj & _ & _ & _ & ->)];
    eexists; (split; [reflexivity|]);
    cbn [upsert_calls response status].
  - split; [apply (batch_sizes links); apply Nat.le_refl|].
    split; [exists []; rewrite app_nil_r|intros _]; apply concat_batches.
  - split; [apply (batch_sizes links); lia|].
    split; [|discriminate].
    exists (skipn ((0 + S j) * batchSize) links).
    apply (concat_batches_from links (S j) 0).
Qed.

(** X8. For options that can be converted, when no write fails,
    [linksCreated] is the number of candidates. *)
Theorem all_written_when_no_failure :
  forall (supabase : Supabase) (user : User.t) (minSimilarity maxLinks : value)
         (entries : list Entry.t) (threshold cap : number),
    select_knowledgebase supabase (User.id user) = (Some entries, None) ->
    entries <> [] ->
    toNumber StringToNumber ToPrimitive minSimilarity = Normal threshold ->
    toNumber StringToNumber ToPrimitive maxLinks = Normal cap ->
    (forall i batch, upsert supabase i batch = None) ->
    let links := Candidates user minSimilarity maxLinks entries in
    exists run,
      GenerateLinks supabase user minSimilarity maxLinks = Normal run
      /\ status (response run) = 200
      /\ getOptional (json (response run)) "linksCreated"
         = Number (of_length (List.length links)).
Proof.
  intros supabase user minSimilarity maxLinks entries threshold cap
         Hsel Hne Hmin Hmax Hok links.
  rewrite (generateLinks_rows _ _ _ _ _ _ _ Hsel Hne
             (loops_end user _ _ entries _ _ Hmin Hmax)).
  cbv zeta.
  fold (Candidates user minSimilarity maxLinks entries). fold links.
  destruct (0 <? List.length links) eqn:Hlen.
  - rewrite persist_all_transient
      by (intros i batch error H; rewrite Hok in H; discriminate).
    rewrite (rows_written_all _ _ Hok). eexists. repeat split.
  - apply Nat.ltb_ge in Hlen.
    assert (links = []) as -> by (destruct links; [reflexivity | cbn in Hlen; lia]).
    eexists. repeat split.
Qed.

(** X9. For options that can be converted, the first batch answered with
    the missing-relation error ends the run: the handler answers 500 with
    the error "Knowledge graph table not found" and the storage's message
    as details, and no later batch is sent. *)
Theorem missing_table_aborts :
  forall (supabase : Supabase) (user : User.t) (minSimilarity maxLinks : value)
         (entries : list Entry.t) (threshold cap : number)
         (k : nat) (error : JsError),
    select_knowledgebase supabase (User.id user) = (Some entries, None) ->
    entries <> [] ->
    toNumber StringToNumber ToPrimitive minSimilarity = Normal threshold ->
    toNumber StringToNumber ToPrimitive maxLinks = Normal cap ->
    let links := Candidates user minSimilarity maxLinks entries in
    k < batch_count (List.length links) ->
    (forall j, j < k -> batch_fatal (upsert supabase) links j = false) ->
    upsert supabase (k * batchSize) (batch_at links k) = Some error ->
    table_missing error = true ->
    exists run message,
      GenerateLinks supabase user minSimilarity maxLinks = Normal run
      /\ status (response run) = 500
      /\ getOptional (json (response run)) "error"
         = Str "Knowledge graph table not found"
      /\ err_message error = Some message
      /\ getOptional (json (response run)) "details" = Str message
      /\ upsert_calls run = map (batch_at links) (seq 0 (S k)).
Proof.
  intros supabase user minSimilarity maxLinks entries threshold cap k error
         Hsel Hne Hmin Hmax links Hk Hbefore Hup Hfat.
  assert (Hfk : batch_fatal (upsert supabase) links k = true).
  { unfold batch_fatal. rewrite Hup. exact Hfat. }
  assert (Hmsg : exists message, err_message error = Some message).
  { unfold table_missing in Hfat. destruct (err_message error);
      [eexists; reflexivity | discriminate]. }
  destruct Hmsg as [message Hmsg].
  pose proof (generateLinks_outcome supabase user minSimilarity maxLinks entries
                Hsel Hne (loops_end user _ _ entries _ _ Hmin Hmax)) as Hout.
  cbv zeta in Hout. fold (Candidates user minSimilarity maxLinks entries) in Hout.
  fold links in Hout.
  destruct Hout
    as [(count & _ & Hnone & _) | (j & e & Hj & Hup' & Hfat' & Hnone & ->)].
  - rewrite (Hnone k Hk) in Hfk. discriminate.
  - assert (j = k).
    { destruct (Nat.lt_trichotomy j k) as [Hlt | [Heq | Hgt]]; [|exact Heq|].
      - pose proof (Hbefore j Hlt) as Hf. unfold batch_fatal in Hf.
        rewrite Hup', Hfat' in Hf. discriminate.
      - rewrite (Hnone k Hgt) in Hfk. discriminate. }
    subst j. rewrite Hup in Hup'. injection Hup' as <-.
    eexists _, message. split; [reflexivity|].
    cbn [response status json upsert_calls table_not_found getOptional lookup
         String.eqb Ascii.eqb Bool.eqb].
    rewrite Hmsg. repeat split.
Qed.

(** X10. For options that can be converted, and whatever the storage
    answers once the rows are fetched, the handler answers 200 or 500
    without throwing; in a 200 response [linksCreated] is at most the
    number of candidates, itself at most the counter [comparisons], which
    is at most n(n-1)/2 for the n rows that [totalEntries] reports. *)
Theorem counters_consistent :
  forall (supabase : Supabase) (user : User.t) (minSimilarity maxLinks : value)
         (entries : list Entry.t) (threshold cap : number),
    select_knowledgebase supabase (User.id user) = (Some entries, None) ->
    entries <> [] ->
    toNumber StringToNumber ToPrimitive minSimilarity = Normal threshold ->
    toNumber StringToNumber ToPrimitive maxLinks = Normal cap ->
    let links := Candidates user minSimilarity maxLinks entries in
    exists run,
      GenerateLinks supabase user minSimilarity maxLinks = Normal run
      /\ (status (response run) = 200 \/ status (response run) = 500)
      /\ (status (response run) = 200 ->
          exists created compared,
            getOptional (json (response run)) "linksCreated"
            = Number (of_length created)
            /\ getOptional (json (response run)) "comparisons"
               = Number (of_length compared)
            /\ getOptional (json (response run)) "totalEntries"
               = Number (of_length (List.length entries))
            /\ created <= List.length links
            /\ List.length links <= compared
            /\ 2 * compared <= List.length entries * (List.length entries - 1)).
Proof.
  intros supabase user minSimilarity maxLinks entries threshold cap
         Hsel Hne Hmin Hmax links.
  destruct (buildLinks_counts StringToNumber ToPrimitive (User.id user)
              minSimilarity maxLinks (with_keywords entries))
    as (Hcmp & Hlinks).
  unfold with_keywords in Hcmp at 2 3. rewrite length_map in Hcmp.
  fold (Candidates user minSimilarity maxLinks entries) in Hlinks. fold links in Hlinks.
  pose proof (generateLinks_outcome supabase user minSimilarity maxLinks entries
                Hsel Hne (loops_end user _ _ entries _ _ Hmin Hmax)) as Hout.
  cbv zeta in Hout. fold (Candidates user minSimilarity maxLinks entries) in Hout.
  fold links in Hout.
  destruct Hout as [(count & Hcount & _ & ->) | (j & e & _ & _ & _ & _ & ->)];
    eexists; (split; [reflexivity|]);
    cbn [response status json].
  - split; [left; reflexivity|].
    intros _. exists count. eexists. repeat split; eassumption.
  - split; [right; reflexivity|]. discriminate.
Qed.

End StorageProperties.

Lemma batches_are_slices_witness :
  let links :=
    candidates_of no_number no_string (User.make "user-1")
                  (Number (Num (15 # 100))) (Number (Num 1000)) example_rows in
  exists run,
    generateLinks no_number no_string (example_client (Some example_rows) [0])
                  (User.make "user-1")
                  (Number (Num (15 # 100))) (Number (Num 1000)) = Normal run
    /\ Forall (fun b => 1 <= List.length b <= 100) (upsert_calls run)
    /\ (exists rest, List.concat (upsert_calls run) ++ rest = links)
    /\ (status (response run) = 200 -> List.concat (upsert_calls run) = links).
Proof.
  assert (Hne : example_rows <> []) by discriminate.
  exact (batches_are_slices no_number no_string
           (example_client (Some example_rows) [0]) (User.make "user-1")
           (Number (Num (15 # 100))) (Number (Num 1000)) example_rows
           (Num (15 # 100)) (Num 1000) eq_refl Hne eq_refl eq_refl).
Defined.

Lemma all_written_when_no_failure_witness :
  exists run,
    generateLinks no_number no_string (example_client (Some example_rows) [])
                  (User.make "user-1")
                  (Number (Num (15 # 100))) (Number (Num 1000)) = Normal run
    /\ status (response run) = 200
    /\ getOptional (json (response run)) "linksCreated"
       = Number
           (of_length
              (List.length
                 (candidates_of no_number no_string (User.make "user-1")
                                (Number (Num (15 # 100))) (Number (Num 1000))
                                example_rows))).
Proof.
  assert (Hne : example_rows <> []) by discriminate.
  exact (all_written_when_no_failure no_number no_string
           (example_client (Some example_rows) []) (User.make "user-1")
           (Number (Num (15 # 100))) (Number (Num 1000)) example_rows
           (Num (15 # 100)) (Num 1000)
           eq_refl Hne eq_refl eq_refl (fun _ _ => eq_refl)).
Defined.

Lemma missing_table_aborts_witness :
  exists run message,
    generateLinks no_number no_string
                  (example_client_missing (Some example_rows) 100)
                  (User.make "user-1")
                  (Number (Num (15 # 100))) (Number (Num 1000)) = Normal run
    /\ status (response run) = 500
    /\ getOptional (json (response run)) "error"
       = Str "Knowledge graph table not found"
    /\ err_message missing_relation_error = Some message
    /\ getOptional (json (response run)) "details" = Str message
    /\ upsert_calls run
       = map (batch_at
                (candidates_of no_number no_string (User.make "user-1")
                               (Number (Num (15 # 100))) (Number (Num 1000))
                               example_rows))
             (seq 0 2).
Proof.
  assert (Hne : example_rows <> []) by discriminate.
  refine (missing_table_aborts no_number no_string
            (example_client_missing (Some example_rows) 100) (User.make "user-1")
            (Number (Num (15 # 100))) (Number (Num 1000)) example_rows
            (Num (15 # 100)) (Num 1000)
            1 missing_relation_error eq_refl Hne eq_refl eq_refl _ _ eq_refl eq_refl).
  - vm_compute. reflexivity.
  - intros j Hj. assert (j = 0) as -> by lia. reflexivity.
Defined.

Lemma counters_consistent_witness :
  exists run,
    generateLinks no_number no_string (example_client (Some example_rows) [0])
                  (User.make "user-1")
                  (Number (Num (15 # 100))) (Number (Num 1000)) = Normal run
    /\ (status (response run) = 200 \/ status (response run) = 500).
Proof.
  assert (Hne : example_rows <> []) by discriminate.
  destruct (counters_consistent no_number no_string
              (example_client (Some example_rows) [0]) (User.make "user-1")
              (Number (Num (15 # 100))) (Number (Num 1000)) example_rows
              (Num (15 # 100)) (Num 1000)
              eq_refl Hne eq_refl eq_refl) as (run & Hrun & Hstatus & _).
  exists run. split; [exact Hrun | exact Hstatus].
Defined.

(* ===================================================================== *)
(** * Further properties of the handler *)
(* ===================================================================== *)

Lemma substring_all (s : string) : substring 0 (String.length s) s = s.
Proof. induction s as [|c s IH]; cbn; [reflexivity | rewrite IH; reflexivity]. Qed.

Lemma prefix_append (p t : string) : prefix p (p ++ t)%string = true.
Proof.
  induction p as [|c p IH]; cbn; [destruct t; reflexivity|].
  destruct (ascii_dec c c); [exact IH | contradiction].
Qed.

Lemma length_append (p t : string) :
  String.length (p ++ t)%string = String.length p + String.length t.
Proof. induction p as [|c p IH]; cbn; [reflexivity | rewrite IH; reflexivity]. Qed.

Lemma substring_append (p t : string) :
  (EmptyString ++ substring (String.length p) (String.length t) (p ++ t))%string = t.
Proof.
  cbn [append]. induction p as [|c p IH]; cbn; [apply substring_all | exact IH].
Qed.

Lemma replace_first_unfold (s pattern replacement : string) :
  replace_first s pattern replacement
  = if prefix pattern s then
      (replacement ++ substring (String.length pattern)
                                (String.length s - String.length pattern) s)%string
    else match s with
         | EmptyString => EmptyString
         | String c rest => String c (replace_first rest pattern replacement)
         end.
Proof. destruct s; reflexivity. Qed.

(** X11. The token the handler reads from the header [Bearer <token>] that
    the page sends is that token, and a header that does not contain
    [Bearer ] is taken whole as the token. *)
Theorem bearer_token_extracted :
  (forall token : string,
      replace_first ("Bearer " ++ token)%string "Bearer " "" = token)
  /\ (forall header : string,
         includes header "Bearer " = false ->
         replace_first header "Bearer " "" = header).
Proof.
  split.
  - intros token. rewrite replace_first_unfold, prefix_append.
    rewrite length_append, Nat.add_comm, Nat.add_sub.
    apply substring_append.
  - induction header as [|c header IH]; intros H; [reflexivity|].
    cbn [includes] in H. apply orb_false_elim in H. destruct H as [Hp Hrest].
    cbn [replace_first]. rewrite Hp, (IH Hrest). reflexivity.
Qed.

Section ResponseProperties.

Variable StringToNumber : string -> number.
Variable ToPrimitive : value -> Completion string.

Local Abbreviation Post := (POST StringToNumber ToPrimitive).
Local Abbreviation GenerateLinks := (generateLinks StringToNumber ToPrimitive).
Local Abbreviation ToNumber := (toNumber StringToNumber ToPrimitive).

Lemma POST_unauthenticated createClient request :
  authenticated createClient request = None ->
  Post createClient request = Normal unauthorized.
Proof.
  unfold authenticated, POST, POST_body. intros H.
  destruct (authorization request) as [header|]; [|reflexivity].
  destruct (String.eqb header ""); [reflexivity|].
  destruct (getUser _ _) as [[user|] [e|]]; try reflexivity. discriminate.
Qed.

Lemma POST_body_authenticated createClient request supabase user :
  authenticated createClient request = Some (supabase, user) ->
  POST_body StringToNumber ToPrimitive createClient request
  = (minSimilarity <- before_loops (option_minSimilarity (body_of request)) ;;
     maxLinks <- before_loops (option_maxLinks (body_of request)) ;;
     _ <- before_loops (template ToPrimitive minSimilarity) ;;
     GenerateLinks supabase user minSimilarity maxLinks).
Proof.
  unfold authenticated, POST_body, body_of. intros H.
  destruct (authorization request) as [header|]; [|discriminate].
  destruct (String.eqb header ""); [discriminate|].
  cbv zeta in *.
  destruct (getUser _ _) as [[u|] [e|]]; try discriminate.
  injection H as <- <-. reflexivity.
Qed.

(** A value can be written in a template literal exactly when [>=] can
    convert it, and the two throw the same error. *)
Lemma toNumber_of_template (v : value) :
  template ToPrimitive v = Normal tt -> exists n, ToNumber v = Normal n.
Proof.
  destruct v as [| |[|]|n|s|elements|fields]; cbn [template toNumber];
    try (intros _; eexists; reflexivity);
    destruct (ToPrimitive _); cbn [bind];
    (discriminate || (intros _; eexists; reflexivity)).
Qed.

Lemma template_throws (v : value) (e : JsError) :
  template ToPrimitive v = Throw e <-> ToNumber v = Throw e.
Proof.
  destruct v as [| |[|]|n|s|elements|fields]; cbn [template toNumber];
    try (split; discriminate);
    destruct (ToPrimitive _); cbn [bind]; split; congruence.
Qed.

(** With a threshold that can be converted and a cap that cannot, the
    loops throw the error of the cap, at the latest when the pairs of the
    first entry have been compared. *)
Lemma buildLinks_cap_throws userId minSimilarity maxLinks entries a e :
  ToNumber minSimilarity = Normal a ->
  ToNumber maxLinks = Throw e ->
  entries <> [] ->
  snd (buildLinks StringToNumber ToPrimitive userId minSimilarity maxLinks entries)
  = Throw e
  /\ comparisons
       (fst (buildLinks StringToNumber ToPrimitive userId minSimilarity maxLinks
                        entries))
     <= List.length entries - 1.
Proof.
  intros Hmin Hmax Hne. destruct entries as [|e1 rest]; [contradiction|].
  unfold buildLinks. cbn [outer_loop List.length].
  destruct (inner_loop_prefix StringToNumber ToPrimitive userId minSimilarity
              maxLinks e1 rest (mkState [] 0)) as (k & Hk & Heq & _).
  destruct (inner_loop_completion StringToNumber ToPrimitive userId minSimilarity
              maxLinks e1 rest (mkState [] 0)) as (He & _).
  destruct (inner_loop _ _ _ _ _ e1 rest _) as [st1 [u|e']];
    cbn [fst snd] in Heq, He.
  - unfold js_ge. rewrite Hmax. cbn [bind fst snd].
    split; [reflexivity|]. rewrite Heq. cbn [comparisons]. lia.
  - cbn [fst snd]. split.
    + destruct (He e' eq_refl) as [H|H]; congruence.
    + rewrite Heq. cbn [comparisons]. lia.
Qed.

Lemma generateLinks_status supabase user minSimilarity maxLinks run :
  GenerateLinks supabase user minSimilarity maxLinks = Normal run ->
  status (response run) = 200 \/ status (response run) = 500.
Proof.
  destruct (select_knowledgebase supabase (User.id user)) as [rows err] eqn:Hsel.
  destruct err as [e|].
  - unfold generateLinks. rewrite Hsel. destruct rows; discriminate.
  - destruct rows as [[|e entries]|].
    + unfold generateLinks. rewrite Hsel. cbn. intros H. injection H as <-.
      left. reflexivity.
    + destruct (snd (buildLinks StringToNumber ToPrimitive (User.id user)
                                minSimilarity maxLinks
                                (with_keywords (e :: entries))))
        as [[]|err] eqn:Hloops.
      * pose proof (generateLinks_outcome StringToNumber ToPrimitive supabase user
                      minSimilarity maxLinks (e :: entries) Hsel
                      ltac:(discriminate) Hloops)
          as Hout.
        cbv zeta in Hout.
        destruct Hout as [(count & _ & _ & ->) | (j & err & _ & _ & _ & _ & ->)];
          intros H; injection H as <-; [left | right]; reflexivity.
      * rewrite (generateLinks_thrown StringToNumber ToPrimitive supabase user
                   minSimilarity maxLinks (e :: entries) err Hsel
                   ltac:(discriminate) Hloops).
        discriminate.
    + unfold generateLinks. rewrite Hsel. intros H. injection H as <-.
      left. reflexivity.
Qed.

(** X12. The handler never throws and answers 200, 401 or 500.  It answers
    401 exactly when the authorization header is missing or empty or the
    token is refused, and then it has compared nothing and written
    nothing. *)
Theorem unauthorized_iff_not_authenticated :
  forall (createClient : string -> Supabase) (request : Request),
    exists run,
      Post createClient request = Normal run
      /\ (status (response run) = 200
          \/ status (response run) = 401
          \/ status (response run) = 500)
      /\ (status (response run) = 401
          <-> authenticated createClient request = None)
      /\ (status (response run) = 401 -> run = unauthorized).
Proof.
  intros createClient request.
  destruct (authenticated createClient request) as [[supabase user]|] eqn:Hauth.
  - unfold POST. rewrite (POST_body_authenticated _ _ _ _ Hauth).
    assert (Hgoal : forall run, status (response run) = 200
                                \/ status (response run) = 500 ->
              (status (response run) = 200 \/ status (response run) = 401
               \/ status (response run) = 500)
              /\ (status (response run) = 401
                  <-> Some (supabase, user) = @None (Supabase * User.t))
              /\ (status (response run) = 401 -> run = unauthorized)).
    { intros run [H|H]; rewrite H;
        (split; [tauto|]); split; try discriminate;
        split; discriminate. }
    destruct (option_minSimilarity (body_of request)) as [m|e1];
      [|eexists; split; [reflexivity|]; apply Hgoal; right; reflexivity].
    destruct (option_maxLinks (body_of request)) as [M|e2];
      [|eexists; split; [reflexivity|]; apply Hgoal; right; reflexivity].
    cbn [before_loops bind].
    destruct (template ToPrimitive m) as [u|e0];
      [|eexists; split; [reflexivity|]; apply Hgoal; right; reflexivity].
    cbn [before_loops bind].
    destruct (GenerateLinks supabase user m M) as [run|e3] eqn:Hrun.
    + exists run. split; [reflexivity|].
      apply Hgoal, (generateLinks_status _ _ _ _ _ Hrun).
    + eexists; split; [reflexivity|]; apply Hgoal; right; reflexivity.
  - rewrite (POST_unauthenticated _ _ Hauth). exists unauthorized.
    split; [reflexivity|]. split; [right; left; reflexivity|].
    split; [split; reflexivity | reflexivity].
Qed.

(** X13. For an accepted token, what the body of the handler throws is
    answered with 500 and the error "Failed to generate links", the
    details being the message of what was thrown when it is an [Error] and
    "Unknown error" otherwise, and no batch is written: a body that is the
    JSON value [null]; a threshold that cannot be converted to a string
    for the logged message; an error of the fetch of the rows; and, when
    there are rows, a cap that [>=] cannot convert, which throws once at
    most the pairs of the first row have been compared. *)
Theorem thrown_errors_answered_500 :
  forall (createClient : string -> Supabase) (request : Request)
         (supabase : Supabase) (user : User.t),
    authenticated createClient request = Some (supabase, user) ->
    (json_body request = Some Null ->
     exists details,
       Post createClient request
       = Normal (respond 500 [("error", Str "Failed to generate links");
                              ("details", Str details)]))
    /\ (forall minSimilarity maxLinks error,
           option_minSimilarity (body_of request) = Normal minSimilarity ->
           option_maxLinks (body_of request) = Normal maxLinks ->
           template ToPrimitive minSimilarity = Throw error ->
           Post createClient request
           = Normal
               (respond 500
                  [("error", Str "Failed to generate links");
                   ("details",
                    if is_Error error then value_of_message (err_message error)
                    else Str "Unknown error")]))
    /\ (forall minSimilarity maxLinks rows error,
           option_minSimilarity (body_of request) = Normal minSimilarity ->
           option_maxLinks (body_of request) = Normal maxLinks ->
           template ToPrimitive minSimilarity = Normal tt ->
           select_knowledgebase supabase (User.id user) = (rows, Some error) ->
           Post createClient request
           = Normal
               (respond 500
                  [("error", Str "Failed to generate links");
                   ("details",
                    if is_Error error then value_of_message (err_message error)
                    else Str "Unknown error")]))
    /\ (forall minSimilarity maxLinks entries error,
           option_minSimilarity (body_of request) = Normal minSimilarity ->
           option_maxLinks (body_of request) = Normal maxLinks ->
           template ToPrimitive minSimilarity = Normal tt ->
           select_knowledgebase supabase (User.id user) = (Some entries, None) ->
           entries <> [] ->
           ToNumber maxLinks = Throw error ->
           exists calls,
             Post createClient request
             = Normal
                 (mkRun
                    (mkResponse 500
                       (Object
                          [("error", Str "Failed to generate links");
                           ("details",
                            if is_Error error
                            then value_of_message (err_message error)
                            else Str "Unknown error")]))
                    calls [])
             /\ calls <= List.length entries - 1).
Proof.
  intros createClient request supabase user Hauth.
  unfold POST. rewrite (POST_body_authenticated _ _ _ _ Hauth).
  split; [|split; [|split]].
  - intros Hbody. unfold body_of. rewrite Hbody. eexists. reflexivity.
  - intros m M e Hm HM Ht. rewrite Hm, HM. cbn [before_loops bind].
    rewrite Ht. reflexivity.
  - intros m M rows e Hm HM Ht Hsel. rewrite Hm, HM. cbn [before_loops bind].
    rewrite Ht. cbn [before_loops bind].
    unfold generateLinks. rewrite Hsel. destruct rows; reflexivity.
  - intros m M entries e Hm HM Ht Hsel Hne Hcap.
    rewrite Hm, HM. cbn [before_loops bind].
    rewrite Ht. cbn [before_loops bind].
    destruct (toNumber_of_template m Ht) as [a Ha].
    destruct (buildLinks_cap_throws (User.id user) m M (with_keywords entries)
                a e Ha Hcap) as [Hthrow Hcalls].
    { destruct entries; [contradiction | discriminate]. }
    rewrite (generateLinks_thrown StringToNumber ToPrimitive supabase user m M
               entries e Hsel Hne Hthrow).
    eexists. split; [reflexivity|].
    unfold with_keywords in Hcalls at 2. rewrite length_map in Hcalls.
    exact Hcalls.
Qed.

End ResponseProperties.

Lemma thrown_errors_answered_500_witness :
  exists calls,
    POST decimal own_toString
         (fun _ => example_client (Some [example_A "a" None; example_B "b" None]) [])
         (mkRequest (Some "Bearer token")
                    (Some (Object [("maxLinks",
                                    Object [("toString", Number (Num 1))])])))
    = Normal
        (mkRun
           (mkResponse 500
              (Object
                 [("error", Str "Failed to generate links");
                  ("details", Str "Cannot convert object to primitive value")]))
           calls [])
    /\ calls <= 1.
Proof.
  assert (Hne : [example_A "a" None; example_B "b" None] <> []) by discriminate.
  exact (proj2 (proj2 (proj2
           (thrown_errors_answered_500 decimal own_toString
              (fun _ => example_client
                          (Some [example_A "a" None; example_B "b" None]) [])
              (mkRequest (Some "Bearer token")
                         (Some (Object [("maxLinks",
                                         Object [("toString", Number (Num 1))])])))
              (example_client (Some [example_A "a" None; example_B "b" None]) [])
              (User.make "user-1") eq_refl)))
           (Number (Num (15 # 100)))
           (Object [("toString", Number (Num 1))])
           [example_A "a" None; example_B "b" None]
           (TypeError "Cannot convert object to primitive value")
           eq_refl eq_refl eq_refl eq_refl Hne eq_refl).
Defined.

(* ===================================================================== *)
(** * Properties of the graph data handler *)
(* ===================================================================== *)

Lemma assoc_set_count (cc : Counts) (id id' : string) (n : nat) :
  assoc id' (set_count cc id n)
  = if String.eqb id id' then Some n else assoc id' cc.
Proof.
  induction cc as [|[k m] cc IH]; cbn [set_count assoc].
  - reflexivity.
  - destruct (String.eqb_spec k id) as [->|Hne]; cbn [assoc].
    + destruct (String.eqb id id'); reflexivity.
    + rewrite IH. destruct (String.eqb_spec k id') as [->|Hne'];
        [|reflexivity].
      destruct (String.eqb_spec id id') as [->|]; [congruence | reflexivity].
Qed.

Lemma count_of_set_count (cc : Counts) (id id' : string) (n : nat) :
  count_of (set_count cc id n) id'
  = if String.eqb id id' then n else count_of cc id'.
Proof.
  unfold count_of. rewrite assoc_set_count.
  destruct (String.eqb id id'); reflexivity.
Qed.

Lemma count_of_count_link (cc : Counts) (link : LinkRow.t) (id : string) :
  count_of (count_link cc link) id
  = count_of cc id
    + (if String.eqb (LinkRow.source_kb_id link) id then 1 else 0)
    + (if String.eqb (LinkRow.target_kb_id link) id then 1 else 0).
Proof.
  unfold count_link.
  generalize (LinkRow.source_kb_id link) (LinkRow.target_kb_id link).
  intros s t. rewrite !count_of_set_count.
  destruct (String.eqb_spec s id), (String.eqb_spec t id), (String.eqb_spec s t);
    subst; try congruence; lia.
Qed.

Lemma count_of_fold (links : list LinkRow.t) (id : string) :
  forall cc,
    count_of (fold_left count_link links cc) id
    = count_of cc id + out_degree links id + in_degree links id.
Proof.
  unfold out_degree, in_degree.
  induction links as [|l links IH]; intros cc; cbn [fold_left filter List.length].
  - lia.
  - rewrite IH, count_of_count_link.
    destruct (String.eqb (LinkRow.source_kb_id l) id);
      destruct (String.eqb (LinkRow.target_kb_id l) id);
      cbn [List.length]; lia.
Qed.

Lemma half_at_least_1 (n : nat) :
  exists q, num_max (Num 1) (Num (Z.of_nat n # 2)) = Num q
            /\ (1 <= q)%Q
            /\ (2 <= n -> (q == Z.of_nat n # 2)%Q)
            /\ (n <= 2 -> (q == 1)%Q).
Proof.
  cbn [num_max]. destruct (Qle_bool 1 (Z.of_nat n # 2)) eqn:E.
  - apply Qle_bool_iff in E. eexists. split; [reflexivity|].
    split; [exact E|]. split; [reflexivity|].
    intros Hn. unfold Qle in E. unfold Qeq. cbn in *. lia.
  - eexists. split; [reflexivity|]. split; [apply Qle_refl|].
    split; [|reflexivity].
    intros Hn. assert (Qle_bool 1 (Z.of_nat n # 2) = true); [|congruence].
    apply Qle_bool_iff. unfold Qle. cbn. lia.
Qed.

(** X14. The number of connections of a displayed node is the number of
    the owner's links that leave it plus the number that reach it, links
    to rows outside the page included; its size is half of that number,
    and 1 when it has at most two connections. *)
Theorem connections_are_degrees :
  forall (page pageSize : number) (rows : list NodeRow.t) (count : option nat)
         (linkRows : list LinkRow.t),
    let g := graphData page pageSize (Some rows) count (Some linkRows) in
    map GraphNode.connections (nodes g)
    = map (fun r => out_degree linkRows (NodeRow.id r)
                    + in_degree linkRows (NodeRow.id r)) rows
    /\ Forall (fun n =>
                 exists q,
                   GraphNode.val n = Num q
                   /\ (1 <= q)%Q
                   /\ (2 <= GraphNode.connections n ->
                       (q == Z.of_nat (GraphNode.connections n) # 2)%Q)
                   /\ (GraphNode.connections n <= 2 -> (q == 1)%Q))
              (nodes g).
Proof.
  intros page pageSize rows count linkRows g. subst g.
  cbn [graphData nodes connectionCounts]. split.
  - rewrite map_map. apply map_ext. intros r. cbn [format_node GraphNode.connections].
    rewrite count_of_fold. reflexivity.
  - apply Forall_map, Forall_forall. intros r _.
    cbn [format_node GraphNode.val GraphNode.connections].
    apply half_at_least_1.
Qed.

Lemma format_link_truthy (link : LinkRow.t) :
  num_truthy (GraphLink.value (format_link link)) = true.
Proof.
  unfold format_link. cbn [GraphLink.value].
  destruct (LinkRow.link_strength link) as [n|]; [|reflexivity].
  destruct (num_truthy n) eqn:E; [exact E | reflexivity].
Qed.

(** X15. The displayed links are the owner's links whose two ends are
    displayed nodes, in the order of the rows; their number is what the
    statistics report and is at most the total; and the value of a
    displayed link is never 0 nor [NaN]. *)
Theorem displayed_links_join_displayed_nodes :
  forall (page pageSize : number) (rows : list NodeRow.t) (count : option nat)
         (linkRows : list LinkRow.t),
    let g := graphData page pageSize (Some rows) count (Some linkRows) in
    links g
    = map format_link
          (filter (fun l =>
                     existsb (String.eqb (LinkRow.source_kb_id l))
                             (map NodeRow.id rows)
                     && existsb (String.eqb (LinkRow.target_kb_id l))
                                (map NodeRow.id rows))
                  linkRows)
    /\ Forall (fun l => In (GraphLink.source l) (map GraphNode.id (nodes g))
                        /\ In (GraphLink.target l) (map GraphNode.id (nodes g))
                        /\ num_truthy (GraphLink.value l) = true)
              (links g)
    /\ displayedLinks (stats g) = List.length (links g)
    /\ displayedLinks (stats g) <= totalLinks (stats g)
    /\ displayedNodes (stats g) = List.length rows.
Proof.
  intros page pageSize rows count linkRows g. subst g.
  cbn [graphData nodes links stats displayedLinks totalLinks displayedNodes].
  assert (Hids : forall cc, map GraphNode.id (map (format_node cc) rows)
                            = map NodeRow.id rows).
  { intros cc. rewrite map_map. reflexivity. }
  assert (Hhas : forall id,
             JsSet.has (JsSet.of_list (map NodeRow.id rows)) id
             = existsb (String.eqb id) (map NodeRow.id rows)).
  { intros id. unfold JsSet.has.
    destruct (existsb (String.eqb id) (map NodeRow.id rows)) eqn:E.
    - apply existsb_exists in E. destruct E as (x & Hx & Hid).
      apply existsb_exists. exists x. split; [apply In_of_list, Hx | exact Hid].
    - destruct (existsb (String.eqb id) (JsSet.of_list (map NodeRow.id rows)))
        eqn:E'; [|reflexivity].
      apply existsb_exists in E'. destruct E' as (x & Hx & Hid).
      apply (proj1 (In_of_list _ _)) in Hx.
      assert (existsb (String.eqb id) (map NodeRow.id rows) = true); [|congruence].
      apply existsb_exists. exists x. tauto. }
  rewrite !Hids. split; [|split; [|split; [|split]]].
  - induction linkRows as [|l linkRows IH]; [reflexivity|].
    cbn [map filter format_link GraphLink.source GraphLink.target].
    rewrite !Hhas.
    destruct (existsb _ _ && existsb _ _); cbn [map]; rewrite IH; reflexivity.
  - apply Forall_forall. intros l Hl. apply filter_In in Hl.
    destruct Hl as [Hin Hboth]. apply andb_prop in Hboth.
    destruct Hboth as [Hs Ht].
    apply (proj1 (has_spec _ _)), (proj1 (In_of_list _ _)) in Hs.
    apply (proj1 (has_spec _ _)), (proj1 (In_of_list _ _)) in Ht.
    split; [exact Hs|]. split; [exact Ht|].
    apply in_map_iff in Hin. destruct Hin as (row & <- & _).
    apply format_link_truthy.
  - reflexivity.
  - rewrite <- (length_map format_link linkRows). apply filter_length_le.
  - apply length_map.
Qed.

Lemma assoc_In {A} (key : string) (l : list (string * A)) (a : A) :
  assoc key l = Some a -> In a (map snd l).
Proof.
  induction l as [|[k b] l IH]; cbn [assoc map snd]; [discriminate|].
  destruct (String.eqb k key); [intros H; injection H as ->; left; reflexivity|].
  intros H. right. apply IH, H.
Qed.

Lemma colors_not_empty (c : string) :
  In c (map snd colors) -> String.eqb c "" = false.
Proof. cbn. intuition (subst; reflexivity). Qed.

(** X16. A category that is no key of the colour table gets the colour of
    "Other", and every category gets a colour of the table, unless it is
    the name of a member that objects inherit: then the handler returns
    that member instead of a colour.  A node without category is shown as
    "Uncategorized" in the colour of "Other". *)
Theorem category_colors :
  forall category : string,
    (~ In category object_prototype_names ->
     exists c,
       getCategoryColor category = OwnString c
       /\ In c (map snd colors)
       /\ (assoc category colors = None -> c = "#64748b"))
    /\ (In category object_prototype_names ->
        getCategoryColor category = InheritedMember category)
    /\ (forall cc node,
           NodeRow.category node = None \/ NodeRow.category node = Some "" ->
           GraphNode.category (format_node cc node) = "Uncategorized"
           /\ GraphNode.color (format_node cc node) = OwnString "#64748b").
Proof.
  intros category. split; [|split].
  - intros Hproto. unfold getCategoryColor, slot_of.
    destruct (assoc category colors) as [c|] eqn:E.
    + pose proof (assoc_In _ _ _ E) as Hin.
      cbn [slot_truthy]. rewrite (colors_not_empty c Hin). cbn [negb].
      exists c. split; [reflexivity|]. split; [exact Hin | discriminate].
    + destruct (existsb (String.eqb category) object_prototype_names) eqn:Hex.
      * apply existsb_exists in Hex. destruct Hex as (x & Hx & Heq).
        apply String.eqb_eq in Heq. subst x. contradiction.
      * cbn [slot_truthy]. eexists. split; [reflexivity|].
        split; [cbn; tauto | reflexivity].
  - intros Hin. cbn in Hin.
    repeat (destruct Hin as [<-|Hin]; [reflexivity|]). contradiction.
  - intros cc node Hcat. unfold format_node.
    cbn [GraphNode.category GraphNode.color].
    destruct Hcat as [-> | ->]; split; reflexivity.
Qed.

Lemma category_colors_witness :
  exists c,
    getCategoryColor "Philosophy" = OwnString c
    /\ In c (map snd colors)
    /\ (assoc "Philosophy" colors = None -> c = "#64748b").
Proof.
  refine (proj1 (category_colors "Philosophy") _).
  cbn. intuition discriminate.
Defined.

Section DisplayedStrength.

Variable StringToNumber : string -> number.
Variable ToPrimitive : value -> Completion string.
Variable userId : string.
Variables minSimilarity maxLinks : value.

(** X17. The strength of a candidate is never replaced by the default of
    the graph handler: a row that stores it is displayed with that
    strength as value. *)
Theorem generated_strength_displayed :
  forall entries : list EntryWithKeywords,
    Forall
      (fun link =>
         forall row,
           LinkRow.link_strength row = Some (link_strength link) ->
           GraphLink.value (format_link row) = link_strength link)
      (linksToInsert
         (fst (buildLinks StringToNumber ToPrimitive userId minSimilarity maxLinks
                          entries))).
Proof.
  intros entries. apply Forall_forall. intros link Hlink row Hrow.
  destruct (links_from_pairs StringToNumber ToPrimitive userId minSimilarity
              maxLinks entries link Hlink) as (p & _ & Hg & ->).
  destruct (candidate_strength_positive StringToNumber ToPrimitive userId
              minSimilarity p Hg) as (q & Hq & Hpos & _).
  unfold format_link. cbn [GraphLink.value]. rewrite Hrow, Hq.
  cbn [num_truthy].
  destruct (Qeq_bool q 0) eqn:E; [|reflexivity].
  apply Qeq_bool_iff in E. rewrite E in Hpos. discriminate Hpos.
Qed.

End DisplayedStrength.

Section GraphResponses.

Variable parseInt : string -> number.

(** X18. The graph handler never throws.  It answers 401 exactly when the
    header is missing or empty or the token is refused; it answers with
    graph data exactly when the token is accepted and neither query
    reports an error; and otherwise it answers 500 with the error "Failed
    to fetch graph data". *)
Theorem graph_responses :
  forall (createClient : string -> Store.t) (request : GraphRequest),
    exists resp,
      GET parseInt createClient request = Normal resp
      /\ (resp = ErrorJson 401 (Object [("error", Str "Unauthorized")])
          <-> graph_authenticated createClient request = None)
      /\ ((exists data, resp = GraphJson data)
          <-> exists supabase user rows count links,
                graph_authenticated createClient request = Some (supabase, user)
                /\ nodes_query parseInt supabase user request = (rows, None, count)
                /\ Store.select_links supabase (User.id user) = (links, None))
      /\ ((forall data, resp <> GraphJson data) ->
          resp <> ErrorJson 401 (Object [("error", Str "Unauthorized")]) ->
          exists details,
            resp = ErrorJson 500 (Object [("error", Str "Failed to fetch graph data");
                                          ("details", details)])).
Proof.
  intros createClient request.
  unfold GET, GET_body, graph_authenticated, nodes_query.
  destruct (graph_authorization request) as [header|].
  2:{ eexists. split; [reflexivity|]. split; [tauto|].
      split; [|intros _ H; destruct H; reflexivity].
      split; [intros [d H]; discriminate|].
      intros (s & u & r & c & l & H & _); discriminate. }
  destruct (String.eqb header "").
  { eexists. split; [reflexivity|]. split; [tauto|].
    split; [|intros _ H; destruct H; reflexivity].
    split; [intros [d H]; discriminate|].
    intros (s & u & r & c & l & H & _); discriminate. }
  cbv zeta.
  destruct (Store.getUser _ _) as [[user|] [e|]];
    try (eexists; split; [reflexivity|]; split; [tauto|];
         split; [|intros _ H; destruct H; reflexivity];
         split; [intros [d H]; discriminate|];
         intros (s & u & r & c & l & H & _); discriminate).
  destruct (Store.select_nodes _ _ _ _ _) as [[rows [e|]] count] eqn:Hn.
  - eexists. split; [reflexivity|]. split; [split; discriminate|].
    split; [|intros _ _; eexists; reflexivity].
    split; [intros [d H]; discriminate|].
    intros (s & u & r & c & l & H & Hq & _). injection H as <- <-.
    rewrite Hn in Hq. discriminate.
  - destruct (Store.select_links _ _) as [links [e|]] eqn:Hl.
    + eexists. split; [reflexivity|]. split; [split; discriminate|].
      split; [|intros _ _; eexists; reflexivity].
      split; [intros [d H]; discriminate|].
      intros (s & u & r & c & l & H & _ & Hq). injection H as <- <-.
      rewrite Hl in Hq. discriminate.
    + eexists. split; [reflexivity|]. split; [split; discriminate|].
      split; [|intros H; destruct (H _ eq_refl)].
      split; [intros _|intros _; eexists; reflexivity].
      eexists _, _, rows, count, links. repeat split; assumption.
Qed.

End GraphResponses.

(* ===================================================================== *)
(** * What the keywords depend on *)
(* ===================================================================== *)

(** X19. The keywords depend on the fields "key_points" and "main_ideas"
    of the summary only: two summaries that agree on these two fields have
    the same keywords, whatever their other fields hold. *)
Theorem keywords_depend_on_two_fields :
  forall s1 s2 : list (string * value),
    lookup "key_points" s1 = lookup "key_points" s2 ->
    lookup "main_ideas" s1 = lookup "main_ideas" s2 ->
    extractKeywords (Object s1) = extractKeywords (Object s2).
Proof.
  intros s1 s2 H1 H2. unfold extractKeywords, extractKeywords_body.
  rewrite (extract_field_same s1 s2 _ _ H1).
  destruct (extract_field (Object s2) "key_points" []) as [kw|e]; [|reflexivity].
  cbn [bind]. rewrite (extract_field_same s1 s2 _ _ H2). reflexivity.
Qed.

Lemma keywords_depend_on_two_fields_witness :
  extractKeywords
    (Object [("insights", Array [Str "Transformers changed language models"]);
             ("key_points", Array [Str "Graph neural networks"])])
  = extractKeywords (Object [("key_points", Array [Str "Graph neural networks"])]).
Proof.
  exact (keywords_depend_on_two_fields
           [("insights", Array [Str "Transformers changed language models"]);
            ("key_points", Array [Str "Graph neural networks"])]
           [("key_points", Array [Str "Graph neural networks"])]
           eq_refl eq_refl).
Defined.

Lemma lower_char_idempotent (c : ascii) : lower_char (lower_char c) = lower_char c.
Proof. destruct c as [[] [] [] [] [] [] [] []]; reflexivity. Qed.

Lemma toLowerCase_idempotent (s : string) :
  toLowerCase (toLowerCase s) = toLowerCase s.
Proof.
  induction s as [|c s IH]; cbn [toLowerCase]; [reflexivity|].
  rewrite lower_char_idempotent, IH. reflexivity.
Qed.

Lemma words_of_lower (point : string) : words_of (toLowerCase point) = words_of point.
Proof. unfold words_of. rewrite toLowerCase_idempotent. reflexivity. Qed.

Lemma extractKeywords_strings (summary : list (string * value))
      (key_points main_ideas : list string) :
  lookup "key_points" summary = Array (map Str key_points) ->
  lookup "main_ideas" summary = Array (map Str main_ideas) ->
  extractKeywords (Object summary)
  = Normal
      (firstn 15
         (filter (fun w => negb (JsSet.has commonWords w))
            (JsSet.of_list
               (flat_map words_of key_points ++ flat_map words_of main_ideas)))).
Proof.
  intros Hkp Hmi. unfold extractKeywords, extractKeywords_body.
  rewrite (extract_field_array _ _ _ _ Hkp), forEach_push_strings.
  cbn [bind app].
  rewrite (extract_field_array _ _ _ _ Hmi), forEach_push_strings.
  reflexivity.
Qed.

(** X20. The keywords do not depend on the case of the letters: a summary
    whose points are those of another one in lower case has the same
    keywords. *)
Theorem keywords_ignore_case :
  forall (s s' : list (string * value)) (key_points main_ideas : list string),
    lookup "key_points" s = Array (map Str key_points) ->
    lookup "main_ideas" s = Array (map Str main_ideas) ->
    lookup "key_points" s' = Array (map Str (map toLowerCase key_points)) ->
    lookup "main_ideas" s' = Array (map Str (map toLowerCase main_ideas)) ->
    extractKeywords (Object s') = extractKeywords (Object s).
Proof.
  intros s s' kp mi Hkp Hmi Hkp' Hmi'.
  rewrite (extractKeywords_strings s kp mi Hkp Hmi).
  rewrite (extractKeywords_strings s' _ _ Hkp' Hmi').
  assert (Hflat : forall l, flat_map words_of (map toLowerCase l)
                            = flat_map words_of l).
  { induction l as [|x l IH]; cbn [map flat_map]; [reflexivity|].
    rewrite words_of_lower, IH. reflexivity. }
  rewrite !Hflat. reflexivity.
Qed.

Lemma keywords_ignore_case_witness :
  extractKeywords
    (Object [("key_points", Array (map Str (map toLowerCase ["Graph NEURAL Networks"])));
             ("main_ideas", Array (map Str (map toLowerCase [])))])
  = extractKeywords
      (Object [("key_points", Array (map Str ["Graph NEURAL Networks"]));
               ("main_ideas", Array (map Str []))]).
Proof.
  exact (keywords_ignore_case
           [("key_points", Array (map Str ["Graph NEURAL Networks"]));
            ("main_ideas", Array (map Str []))]
           [("key_points", Array (map Str (map toLowerCase ["Graph NEURAL Networks"])));
            ("main_ideas", Array (map Str (map toLowerCase [])))]
           ["Graph NEURAL Networks"] [] eq_refl eq_refl eq_refl eq_refl).
Defined.

(* ===================================================================== *)
(** * The threshold and the cap at their edges *)
(* ===================================================================== *)

Section Edges.

Variable StringToNumber : string -> number.
Variable ToPrimitive : value -> Completion string.
Variable userId : string.

Local Abbreviation Build := (buildLinks StringToNumber ToPrimitive userId).
Local Abbreviation Gate := (gate StringToNumber ToPrimitive).
Local Abbreviation Cap := (cap_reached StringToNumber ToPrimitive).

Lemma gate_monotone (low high : value) (q1 q2 : Q) p :
  toNumber StringToNumber ToPrimitive low = Normal (Num q1) ->
  toNumber StringToNumber ToPrimitive high = Normal (Num q2) ->
  (q1 <= q2)%Q ->
  Gate high p = true -> Gate low p = true.
Proof.
  intros H1 H2 Hle. unfold gate, js_ge. rewrite H1, H2. cbn [bind holds].
  intros H. apply andb_prop in H. destruct H as [Hsim Hshared].
  rewrite Hshared, andb_true_r.
  destruct (similarity _) as [x| | |]; cbn [num_ge] in *; try assumption.
  apply Qle_bool_iff. apply Qle_bool_iff in Hsim.
  apply (Qle_trans _ q2); assumption.
Qed.

(** X21. Between two runs with a cap that can be converted and whose cap
    test fails on the final list, raising the threshold only removes
    candidates: each candidate of the run with the higher threshold is a
    candidate of the run with the lower one. *)
Theorem higher_threshold_fewer_links :
  forall (low high maxLinks : value) (q1 q2 : Q) (cap : number)
         (entries : list EntryWithKeywords),
    toNumber StringToNumber ToPrimitive low = Normal (Num q1) ->
    toNumber StringToNumber ToPrimitive high = Normal (Num q2) ->
    toNumber StringToNumber ToPrimitive maxLinks = Normal cap ->
    (q1 <= q2)%Q ->
    Cap maxLinks (List.length (linksToInsert (fst (Build low maxLinks entries))))
    = false ->
    Cap maxLinks (List.length (linksToInsert (fst (Build high maxLinks entries))))
    = false ->
    incl (linksToInsert (fst (Build high maxLinks entries)))
         (linksToInsert (fst (Build low maxLinks entries)))
    /\ List.length (linksToInsert (fst (Build high maxLinks entries)))
       <= List.length (linksToInsert (fst (Build low maxLinks entries))).
Proof.
  intros low high maxLinks q1 q2 cap entries H1 H2 Hmax Hle Hcap1 Hcap2.
  assert (Hall : forall m q,
             toNumber StringToNumber ToPrimitive m = Normal (Num q) ->
             Cap maxLinks
                 (List.length (linksToInsert (fst (Build m maxLinks entries))))
             = false ->
             linksToInsert (fst (Build m maxLinks entries))
             = map (candidate userId) (filter (Gate m) (allPairs entries))).
  { intros m q Hm Hcap.
    apply (buildLinks_all StringToNumber ToPrimitive userId m maxLinks entries);
      [|exact Hcap].
    apply (proj2 (buildLinks_completion StringToNumber ToPrimitive userId m
                    maxLinks entries) (Num q) cap Hm Hmax). }
  rewrite (Hall low q1 H1 Hcap1), (Hall high q2 H2 Hcap2).
  assert (Hsub : filter (Gate high) (allPairs entries)
                 = filter (Gate high) (filter (Gate low) (allPairs entries))).
  { symmetry. apply filter_absorb. intros p. apply (gate_monotone _ _ _ _ _ H1 H2 Hle). }
  split.
  - intros link Hlink. apply in_map_iff in Hlink. destruct Hlink as (p & <- & Hp).
    apply in_map. apply filter_In in Hp. destruct Hp as [Hp Hg].
    apply filter_In. split; [exact Hp|].
    apply (gate_monotone _ _ _ _ _ H1 H2 Hle Hg).
  - rewrite !length_map, Hsub. apply filter_length_le.
Qed.

Lemma cap_always (maxLinks : value) (q : Q) :
  toNumber StringToNumber ToPrimitive maxLinks = Normal (Num q) ->
  (q <= 0)%Q ->
  forall n, Cap maxLinks n = true.
Proof.
  intros Hnum Hq n. unfold cap_reached, js_ge, of_length. rewrite Hnum.
  cbn [bind holds num_ge]. apply Qle_bool_iff. apply (Qle_trans _ 0); [exact Hq|].
  unfold Qle. cbn. lia.
Qed.

Lemma inner_loop_cap_always minSimilarity maxLinks e1 rest :
  (forall n, Cap maxLinks n = true) ->
  forall st,
    let st' := fst (inner_loop StringToNumber ToPrimitive userId minSimilarity
                               maxLinks e1 rest st) in
    List.length (linksToInsert st') <= List.length (linksToInsert st) + 1
    /\ comparisons st' <= comparisons st + List.length rest.
Proof.
  intros Hcap. induction rest as [|e2 rest IH]; intros st; cbn [inner_loop].
  - cbn. lia.
  - destruct (compare_pair_emitted StringToNumber ToPrimitive userId
                minSimilarity maxLinks e1 e2 st) as (Hst & Hr & _).
    pose proof (emitted_one_length StringToNumber ToPrimitive userId minSimilarity
                  (e1, e2)) as Hone.
    destruct (compare_pair _ _ _ _ _ e1 e2 st) as [st1 [r|e]];
      cbn [fst snd] in Hst, Hr; subst st1.
    + specialize (Hr r eq_refl). rewrite Hcap, andb_true_r in Hr.
      destruct r.
      * cbv zeta. cbn [fst linksToInsert comparisons List.length].
        rewrite length_app. lia.
      * specialize (IH (mkState
                          (linksToInsert st
                           ++ emitted StringToNumber ToPrimitive userId minSimilarity
                                      [(e1, e2)])
                          (S (comparisons st)))).
        cbv zeta in IH. cbn [linksToInsert comparisons] in IH.
        unfold emitted in IH at 2. cbn [filter] in IH. rewrite <- Hr in IH.
        cbn [map] in IH. rewrite app_nil_r in IH.
        cbv zeta. cbn [List.length]. lia.
    + cbv zeta. cbn [fst linksToInsert comparisons List.length].
      rewrite length_app. lia.
Qed.

(** X22. With a cap that is a number at or below 0, the cap test holds
    from the start: the handler compares the first entry with the others
    until one candidate is found, and nothing else, so it holds at most
    one candidate after at most n-1 comparisons. *)
Theorem nonpositive_cap_one_link :
  forall (minSimilarity maxLinks : value) (q : Q) (entries : list EntryWithKeywords),
    toNumber StringToNumber ToPrimitive maxLinks = Normal (Num q) ->
    (q <= 0)%Q ->
    List.length (linksToInsert (fst (Build minSimilarity maxLinks entries))) <= 1
    /\ comparisons (fst (Build minSimilarity maxLinks entries))
       <= List.length entries - 1.
Proof.
  intros minSimilarity maxLinks q entries Hnum Hq.
  pose proof (cap_always maxLinks q Hnum Hq) as Hcap.
  unfold buildLinks. destruct entries as [|e1 rest]; [cbn; lia|].
  pose proof (inner_loop_cap_always minSimilarity maxLinks e1 rest Hcap
                (mkState [] 0)) as H.
  cbn [outer_loop]. cbv zeta in H.
  destruct (inner_loop _ _ _ _ _ e1 rest _) as [st1 [u|e]]; cbn [fst] in H.
  - assert (Htest : js_ge StringToNumber ToPrimitive
                      (of_length (List.length (linksToInsert st1))) maxLinks
                    = Normal true).
    { specialize (Hcap (List.length (linksToInsert st1))).
      unfold cap_reached in Hcap.
      destruct (js_ge _ _ _ _) as [[|]|e]; cbn [holds] in Hcap;
        [reflexivity | discriminate | discriminate]. }
    rewrite Htest. cbn [fst linksToInsert comparisons List.length] in *. lia.
  - cbn [fst linksToInsert comparisons List.length] in *. lia.
Qed.

End Edges.

Lemma higher_threshold_fewer_links_witness :
  List.length
    (linksToInsert
       (fst (buildLinks no_number no_string "user-1"
                        (Number (Num (1 # 2))) (Number (Num 1000))
                        (with_keywords [example_A "a" None; example_B "b" None;
                                        example_A "c" None]))))
  <= List.length
       (linksToInsert
          (fst (buildLinks no_number no_string "user-1"
                           (Number (Num (15 # 100))) (Number (Num 1000))
                           (with_keywords [example_A "a" None; example_B "b" None;
                                           example_A "c" None])))).
Proof.
  refine (proj2 (higher_threshold_fewer_links no_number no_string "user-1"
                   (Number (Num (15 # 100))) (Number (Num (1 # 2)))
                   (Number (Num 1000)) (15 # 100) (1 # 2) (Num 1000)
                   (with_keywords [example_A "a" None; example_B "b" None;
                                   example_A "c" None])
                   eq_refl eq_refl eq_refl _ _ _)).
  - unfold Qle. cbn. lia.
  - vm_compute. reflexivity.
  - vm_compute. reflexivity.
Defined.

Lemma nonpositive_cap_one_link_witness :
  List.length
    (linksToInsert
       (fst (buildLinks no_number no_string "user-1"
                        (Number (Num (15 # 100))) (Number (Num (-1 # 1)))
                        (with_keywords [example_A "a" None; example_B "b" None;
                                        example_A "c" None]))))
  <= 1.
Proof.
  refine (proj1 (nonpositive_cap_one_link no_number no_string "user-1"
                   (Number (Num (15 # 100))) (Number (Num (-1 # 1))) (-1 # 1)
                   (with_keywords [example_A "a" None; example_B "b" None;
                                   example_A "c" None])
                   eq_refl _)).
  unfold Qle. cbn. lia.
Defined.
